(** * Conversational agent of the electron-store shop: guardrail, fuzzy
      matcher, history window, tool dispatcher and chat routes.

    A shallow embedding of the TypeScript sources, followed by the
    properties stated about them.

    The modules and the sources they embed.
    - [Guardrail], [ChatbotBase]: the agent without the command tool
      ([isQueryAllowed] and its pattern lists, [executeSqlQuery]).
    - [History]: [addToConversationHistory], [getConversationHistory] and
      [clearConversationHistory], the first identical in both agents.
    - [Chatbot]: the agent with [remove_from_basket] and
      [execute_linux_command] ([executeToolFunction], the tools it calls
      and the tool-call part of [processChat]).
    - [Routes]: the Express handlers [process] and [respond].
    - [ChatbotService]: the storefront's service
      ([calculateNameMatchScore], [resolveProductFromName],
      [handleBasketAction]).
    - [Catalog]: the product lookup of the agent with the command tool
      ([extractSearchTerms], [getProductInformation]).
    - [BasketTools]: its tools [getUserInformation], [addToBasket],
      [removeFromBasket] and [getBasket], over the models they call.
    - [Turn]: its [processChat], from the configuration check to the
      reply.
    - [ChatRoutes]: the Express handlers [status], [clearHistory],
      [saveMessage] and [getMessages], and the three handlers of the
      chat routes.
    - [ServiceTurn]: the rest of the storefront's service ([sendMessage]
      and the handlers it dispatches to).

    Conventions of the embedding.
    - A JavaScript string is a Rocq [string]: a sequence of code units below
      256, on which [toLowerCase], the regular-expression classes and the
      [i] flag are exactly the ones defined here.
    - A JavaScript number is a [JsNum]: NaN, the two infinities or a
      rational (every finite double is one).  [Math.max] and [Math.min]
      return one of their arguments, so no rounding is involved.
    - Collaborators that live outside the modelled units (the database
      layer, the language model, the child process, [lib/insecurity]) are
      fields of an environment record; every call to one is logged in a
      trace, in program order.
    - An [async] function that may throw returns a [Completion].
    - A value of unknown type is a [JsValue]: [undefined], [null], a
      boolean, a number, a string, an array or an object.  The arguments
      of a tool call are what [JSON.parse] returns ([Chatbot.Arguments]):
      [null], a primitive or an object.
    - The text and the number of a value are the environment's
      ([toString], [parseInt10], [stringToNumber]).  The conversion of
      a value that comes with a request or a tool call throws for some
      objects ([Js.convertible]), and the functions that convert such a
      value do as the code does then; values read from the database are
      scalars.
    - The history store is a plain object, so a name it has no own property
      for is looked up in [Object.prototype] ([History.stored]).  The
      functions on the store return [None] where the code throws before
      it stores anything, or stores what is no history.
    - Calls to the logger are left out. *)

From Stdlib Require Import ZArith QArith Ascii String List Bool Lia.
From stdpp Require Import base option list gmap strings.

Local Open Scope string_scope.
Local Open Scope nat_scope.

(* ===================================================================== *)
(** ** JavaScript strings                                                 *)
(* ===================================================================== *)

Module JsString.

Definition code (c : ascii) : N := N_of_ascii c.

Definition in_range (lo hi : N) (c : ascii) : bool :=
  ((lo <=? code c) && (code c <=? hi))%N.

(** [String.prototype.toLowerCase] on one code unit below 256: the
    letters A-Z and the Latin-1 capitals (0xC0-0xDE but the
    multiplication sign 0xD7) move up by 32. *)
Definition toLowerChar (c : ascii) : ascii :=
  if in_range 65 90 c || (in_range 192 222 c && negb (code c =? 215)%N)
  then ascii_of_N (code c + 32)
  else c.

Fixpoint toLowerCase (s : string) : string :=
  match s with
  | EmptyString => EmptyString
  | String c s' => String (toLowerChar c) (toLowerCase s')
  end.

(** [s.startsWith(t)] *)
Fixpoint startsWith (s t : string) {struct t} : bool :=
  match t, s with
  | EmptyString, _ => true
  | String _ _, EmptyString => false
  | String b t', String a s' => Ascii.eqb a b && startsWith s' t'
  end.

(** [s.includes(t)]: [t] occurs in [s] as a contiguous substring. *)
Fixpoint includes (s t : string) : bool :=
  startsWith s t ||
  match s with
  | EmptyString => false
  | String _ s' => includes s' t
  end.

(** [s.endsWith(t)] *)
Fixpoint endsWith (s t : string) : bool :=
  String.eqb s t ||
  match s with
  | EmptyString => false
  | String _ s' => endsWith s' t
  end.

(** [s.split(sep)] for a separator of one code unit: one more piece
    than there are separators, empty pieces kept. *)
Fixpoint split (sep : ascii) (s : string) : list string :=
  match s with
  | EmptyString => [EmptyString]
  | String c s' =>
      if Ascii.eqb c sep then EmptyString :: split sep s'
      else match split sep s' with
           | w :: ws => String c w :: ws
           | [] => [String c EmptyString]
           end
  end.

(** [arr.includes(x)] on an array of strings. *)
Definition arrayIncludes (arr : list string) (x : string) : bool :=
  existsb (String.eqb x) arr.

(** Truthiness of a string: the empty string is the only falsy one. *)
Definition nonEmpty (s : string) : bool :=
  match s with EmptyString => false | _ => true end.

End JsString.

(* ===================================================================== *)
(** ** Regular expressions ([RegExp.prototype.test])                      *)
(* ===================================================================== *)

Module RegExp.

Inductive regex : Type :=
| Eps                              (* the empty pattern *)
| Class (p : ascii -> bool)        (* one code unit satisfying [p] *)
| Seq (r1 r2 : regex)              (* r1 r2 *)
| Star (r : regex)                 (* r* *)
| Bol                              (* ^ (no m flag: start of input) *)
| Eol                              (* $ (no m flag: end of input) *)
| WordBoundary.                    (* \b *)

Definition Plus (r : regex) : regex := Seq r (Star r).

Fixpoint seqs (rs : list regex) : regex :=
  match rs with
  | [] => Eps
  | [r] => r
  | r :: rs' => Seq r (seqs rs')
  end.

(** Character classes.  [\s] is WhiteSpace and LineTerminator: TAB, LF,
    VT, FF, CR, SP and NBSP among the code units below 256. *)
Definition isSpace (c : ascii) : bool :=
  JsString.in_range 9 13 c || (JsString.code c =? 32)%N
  || (JsString.code c =? 160)%N.

(** [.] without the s flag: anything but LF and CR. *)
Definition isDot (c : ascii) : bool :=
  negb ((JsString.code c =? 10)%N || (JsString.code c =? 13)%N).

Definition isDigit (c : ascii) : bool := JsString.in_range 48 57 c.

(** Word characters of [\b]: [A-Za-z0-9_]. *)
Definition isWord (c : ascii) : bool :=
  JsString.in_range 65 90 c || JsString.in_range 97 122 c
  || isDigit c || (JsString.code c =? 95)%N.

(** The i flag on an ASCII pattern character: both sides are
    canonicalised to upper case, and a code unit of 128 or more never
    canonicalises to an ASCII one. *)
Definition canonicalize (c : ascii) : ascii :=
  if JsString.in_range 97 122 c then ascii_of_N (JsString.code c - 32)
  else c.

Definition chr_i (x : ascii) : regex :=
  Class (fun c => Ascii.eqb (canonicalize c) (canonicalize x)).

(** A literal word under the i flag. *)
Fixpoint lit_i (s : string) : regex :=
  match s with
  | EmptyString => Eps
  | String x EmptyString => chr_i x
  | String x s' => Seq (chr_i x) (lit_i s')
  end.

Definition ws : regex := Class isSpace.
Definition dot : regex := Class isDot.

Section Matching.
Variable input : list ascii.

Definition wordAt (i : nat) : bool :=
  match input !! i with Some c => isWord c | None => false end.

Definition wordBefore (i : nat) : bool :=
  match i with 0 => false | S j => wordAt j end.

(** End positions of [r*] from [i], where [f j] lists the end positions
    of one iteration of [r] from [j].  Only iterations that consume
    input are followed, so [fuel] of the remaining length suffices. *)
Fixpoint star_ends (f : nat -> list nat) (fuel : nat) (i : nat) : list nat :=
  i :: match fuel with
       | 0 => []
       | S n => flat_map (star_ends f n) (List.filter (fun j => i <? j) (f i))
       end.

(** [ends r i]: every position [j] such that [r] matches the input
    from [i] up to [j]. *)
Fixpoint ends (r : regex) (i : nat) : list nat :=
  match r with
  | Eps => [i]
  | Class p =>
      match input !! i with
      | Some c => if p c then [S i] else []
      | None => []
      end
  | Seq r1 r2 => flat_map (ends r2) (ends r1 i)
  | Star r' => star_ends (ends r') (length input - i) i
  | Bol => match i with 0 => [i] | S _ => [] end
  | Eol => if i =? length input then [i] else []
  | WordBoundary => if xorb (wordBefore i) (wordAt i) then [i] else []
  end.

Definition matchesAt (r : regex) (i : nat) : bool :=
  match ends r i with [] => false | _ :: _ => true end.
End Matching.

(** What it means for [r] to match the input from index [i] up to index
    [j]; [ends] computes exactly these [j] (see [ends_Matches]). *)
Inductive Matches (input : list ascii) : regex -> nat -> nat -> Prop :=
| MEps i : Matches input Eps i i
| MClass p i c :
    input !! i = Some c -> p c = true -> Matches input (Class p) i (S i)
| MSeq r1 r2 i k j :
    Matches input r1 i k -> Matches input r2 k j ->
    Matches input (Seq r1 r2) i j
| MStarNil r i : Matches input (Star r) i i
| MStarCons r i k j :
    Matches input r i k -> Matches input (Star r) k j ->
    Matches input (Star r) i j
| MBol : Matches input Bol 0 0
| MEol : Matches input Eol (length input) (length input)
| MWordBoundary i :
    xorb (wordBefore input i) (wordAt input i) = true ->
    Matches input WordBoundary i i.

(** [r.test(s)] for a pattern without the g and y flags: a match may
    start at any index from 0 to the length of [s]. *)
Definition test (r : regex) (s : string) : bool :=
  let input := list_ascii_of_string s in
  existsb (matchesAt input r) (seq 0 (S (length input))).

End RegExp.

(* ===================================================================== *)
(** ** Guardrail on SQL text ([isQueryAllowed])                            *)
(* ===================================================================== *)

Module Guardrail.
Import RegExp.

(** [/^SELECT\s+.*\s+FROM\s+.*$/i] and
    [/^WITH\s+.*\s+SELECT\s+.*\s+FROM\s+.*$/i] *)
Definition ALLOWED_SQL_PATTERNS : list regex :=
  [ seqs [Bol; lit_i "SELECT"; Plus ws; Star dot; Plus ws;
          lit_i "FROM"; Plus ws; Star dot; Eol];
    seqs [Bol; lit_i "WITH"; Plus ws; Star dot; Plus ws;
          lit_i "SELECT"; Plus ws; Star dot; Plus ws;
          lit_i "FROM"; Plus ws; Star dot; Eol] ].

(** [/DROP\s+/i], [/ALTER\s+/i], [/CREATE\s+/i], [/TRUNCATE\s+/i],
    [/EXEC\s+/i], [/UNION\s+/i], [/BENCHMARK\s*\(/i] *)
Definition DISALLOWED_SQL_PATTERNS : list regex :=
  [ Seq (lit_i "DROP") (Plus ws);
    Seq (lit_i "ALTER") (Plus ws);
    Seq (lit_i "CREATE") (Plus ws);
    Seq (lit_i "TRUNCATE") (Plus ws);
    Seq (lit_i "EXEC") (Plus ws);
    Seq (lit_i "UNION") (Plus ws);
    seqs [lit_i "BENCHMARK"; Star ws; lit_i "("] ].

Definition RESTRICTED_TABLES : list string := [ "SecurityAnswers" ].

(** [new RegExp(`\\bFROM\\s+${table}\\b`, 'i')] and the same with JOIN. *)
Definition fromTable (table : string) : regex :=
  seqs [WordBoundary; lit_i "FROM"; Plus ws; lit_i table; WordBoundary].
Definition joinTable (table : string) : regex :=
  seqs [WordBoundary; lit_i "JOIN"; Plus ws; lit_i table; WordBoundary].

Definition isAllowedPattern (query : string) : bool :=
  existsb (fun pattern => test pattern query) ALLOWED_SQL_PATTERNS.

Definition hasDisallowedPattern (query : string) : bool :=
  existsb (fun pattern => test pattern query) DISALLOWED_SQL_PATTERNS.

Definition hasRestrictedTable (query : string) : bool :=
  existsb (fun table => test (fromTable table) query
                        || test (joinTable table) query)
          RESTRICTED_TABLES.

Definition isQueryAllowed (query : string) : bool :=
  if negb (isAllowedPattern query) then false
  else if hasDisallowedPattern query then false
  else if hasRestrictedTable query then false
  else true.

End Guardrail.

(* ===================================================================== *)
(** ** JavaScript values, numbers and completions                          *)
(* ===================================================================== *)

Module Js.

Inductive JsNum : Type :=
| NaN
| PosInf
| NegInf
| Fin (q : Q).

(** A field of a tool-call argument object or of a request body: what
    [JSON.parse] can produce (a scalar, an array or an object), or
    [JUndefined] when the field is absent. *)
#[warnings="-register-all"]
Inductive JsValue : Type :=
| JUndefined
| JNull
| JBool (b : bool)
| JNum (n : JsNum)
| JStr (s : string)
| JArray (elements : list JsValue)
| JObject (fields : list (string * JsValue)).

Inductive JsType : Type :=
| TUndefined | TObject | TBoolean | TNumber | TString.

Definition typeof (v : JsValue) : JsType :=
  match v with
  | JUndefined => TUndefined
  | JNull | JArray _ | JObject _ => TObject
  | JBool _ => TBoolean
  | JNum _ => TNumber
  | JStr _ => TString
  end.

(** ToBoolean *)
Definition truthy (v : JsValue) : bool :=
  match v with
  | JUndefined | JNull => false
  | JBool b => b
  | JNum NaN => false
  | JNum (Fin q) => negb (Qeq_bool q 0)
  | JNum _ => true
  | JStr s => JsString.nonEmpty s
  | JArray _ | JObject _ => true
  end.

(** [arr.includes(s)] for a string [s], on an array of any values: some
    element is that string. *)
Definition arrayHasString (elements : list JsValue) (s : string) : bool :=
  existsb (fun v => match v with JStr x => String.eqb x s | _ => false end)
          elements.

(** Whether the conversion of a value to a string or to a number
    returns.  It throws a [TypeError] for an object with a property of
    its own named [toString] (no value that [JSON.parse] produces is a
    function, so the property hides the inherited method and is not one
    itself), and for an array with such an element, whose text is made of
    the texts of its elements. *)
Fixpoint convertible (v : JsValue) : bool :=
  match v with
  | JArray elements => forallb convertible elements
  | JObject fields =>
      negb (existsb (fun kv => String.eqb (fst kv) "toString") fields)
  | _ => true
  end.

(** The properties an object literal inherits from [Object.prototype]:
    eleven functions, and the prototype itself under [__proto__].  All
    are truthy, none is an array and none is iterable. *)
Definition objectPrototypeNames : list string :=
  [ "constructor"; "__proto__"; "hasOwnProperty"; "isPrototypeOf";
    "propertyIsEnumerable"; "toLocaleString"; "toString"; "valueOf";
    "__defineGetter__"; "__defineSetter__"; "__lookupGetter__";
    "__lookupSetter__" ].

(** The [length] of such a property: the number of parameters of the
    function; the prototype has none. *)
Definition inheritedLength (name : string) : option nat :=
  if JsString.arrayIncludes
       [ "constructor"; "hasOwnProperty"; "isPrototypeOf";
         "propertyIsEnumerable"; "__lookupGetter__"; "__lookupSetter__" ] name
  then Some 1
  else if JsString.arrayIncludes [ "toLocaleString"; "toString"; "valueOf" ] name
  then Some 0
  else if JsString.arrayIncludes [ "__defineGetter__"; "__defineSetter__" ] name
  then Some 2
  else None.

(** [Math.max(a, b)] and [Math.min(a, b)] on numbers: NaN is
    contagious, otherwise one of the two arguments is returned. *)
Definition Math_max (a b : JsNum) : JsNum :=
  match a, b with
  | NaN, _ | _, NaN => NaN
  | PosInf, _ | _, PosInf => PosInf
  | NegInf, x | x, NegInf => x
  | Fin p, Fin q => if Qle_bool p q then b else a
  end.

Definition Math_min (a b : JsNum) : JsNum :=
  match a, b with
  | NaN, _ | _, NaN => NaN
  | NegInf, _ | _, NegInf => NegInf
  | PosInf, x | x, PosInf => x
  | Fin p, Fin q => if Qle_bool p q then a else b
  end.

(** The order of the extended reals; nothing is related to NaN. *)
Definition num_le (a b : JsNum) : Prop :=
  match a, b with
  | NaN, _ | _, NaN => False
  | NegInf, _ | _, PosInf => True
  | Fin p, Fin q => (p <= q)%Q
  | _, _ => False
  end.

(** The outcome of a call that may throw; a thrown value is an [Error]
    with its message. *)
Inductive Completion (A : Type) : Type :=
| Normal (a : A)
| Throw (message : string).
Arguments Normal {A} a.
Arguments Throw {A} message.

(** A computation: the trace of collaborator calls it made, in order,
    and how it completed. *)
Definition Eff (E A : Type) : Type := (list E * Completion A)%type.

Definition ret {E A} (a : A) : Eff E A := ([], Normal a).

Definition bind {E A B} (m : Eff E A) (k : A -> Eff E B) : Eff E B :=
  match m with
  | (t, Normal a) => let '(t', r) := k a in ((t ++ t')%list, r)
  | (t, Throw e) => (t, Throw e)
  end.

(** [await collaborator(...)]: log the call, continue with its outcome. *)
Definition call {E A} (ev : E) (outcome : Completion A) : Eff E A :=
  ([ev], outcome).

(** [try { m } catch (error) { h error.message }] *)
Definition try_catch {E A} (m : Eff E A) (h : string -> Eff E A) : Eff E A :=
  match m with
  | (t, Normal a) => (t, Normal a)
  | (t, Throw e) => let '(t', r) := h e in ((t ++ t')%list, r)
  end.

Definition trace {E A} (m : Eff E A) : list E := fst m.
Definition outcome {E A} (m : Eff E A) : Completion A := snd m.

End Js.

(** [const x = await m; k] *)
Notation "'let*' x ':=' m 'in' k" := (Js.bind m (fun x => k))
  (at level 10, x name, m at level 100, k at level 200).

(* ===================================================================== *)
(** ** History window ([addToConversationHistory] and friends)             *)
(* ===================================================================== *)

Module History.

Inductive Role : Type := system | user | assistant | function.

Record Message : Type := mkMessage {
  role : Role;
  content : string;
  name : option string
}.

(** [conversationHistories]: a plain object used as a map from user id
    to the user's array of messages.  The finite map holds the object's
    own properties; a name it does not hold is looked up in
    [Object.prototype] (see [stored]). *)
Abbreviation ConversationHistory := (gmap string (list Message)).

Definition MAX_HISTORY_LENGTH : nat := 10.

(** [conversationHistories[userId]]: the array stored under the name,
    or, for a name the object does not hold itself, the property
    inherited from [Object.prototype], or [undefined]. *)
Inductive Stored : Type :=
| Own (history : list Message)
| Inherited
| Missing.

Definition stored (userId : string)
    (conversationHistories : ConversationHistory) : Stored :=
  match conversationHistories !! userId with
  | Some history => Own history
  | None =>
      if JsString.arrayIncludes Js.objectPrototypeNames userId then Inherited
      else Missing
  end.

(** What [getConversationHistory] returns: an array of messages, or the
    inherited property found under the name. *)
Inductive Found : Type :=
| Messages (history : list Message)
| InheritedProperty (name : string).

Section Configured.
(** [LLM_SYSTEM_PROMPT] and the value of [getGreeting()] come from the
    configuration. *)
Variable LLM_SYSTEM_PROMPT : string.
Variable greeting : string.

Definition systemPrompt : Message :=
  {| role := system; content := LLM_SYSTEM_PROMPT; name := None |}.

Definition greetingMessage : Message :=
  {| role := assistant; content := greeting; name := None |}.

(** The second half of [addToConversationHistory]: [history] being the
    array under [userId], the store after [history.push(message)] and
    the cut to the system message and the last [MAX_HISTORY_LENGTH]
    entries. *)
Definition push (userId : string) (message : Message)
    (history : list Message)
    (conversationHistories : ConversationHistory) : ConversationHistory :=
  (* conversationHistories[userId].push(message) *)
  let pushed := (history ++ [message])%list in
  (* if (length > MAX_HISTORY_LENGTH + 1) *)
  if MAX_HISTORY_LENGTH + 1 <? length pushed then
    match pushed with
    | systemMessage :: _ =>
        <[userId := systemMessage
                    :: drop (length pushed - MAX_HISTORY_LENGTH) pushed]>
          conversationHistories
    | [] => <[userId := pushed]> conversationHistories
    end
  else <[userId := pushed]> conversationHistories.

(** [addToConversationHistory]: the store after the call, or [None]
    when the call throws.  It throws a [TypeError] when the value found
    under [userId] is an inherited property: that value is truthy, so no
    array is created, and it has no [push] method.  Nothing is stored
    before the exception. *)
Definition addToConversationHistory
    (userId : string) (message : Message)
    (conversationHistories : ConversationHistory)
  : option ConversationHistory :=
  match stored userId conversationHistories with
  | Missing =>
      (* if (!conversationHistories[userId]) { ... = [system] } *)
      Some (push userId message [systemPrompt] conversationHistories)
  | Own history => Some (push userId message history conversationHistories)
  | Inherited => None
  end.

(** [getConversationHistory] of the extended agent: a fresh history
    holds the system prompt and the greeting.  Returns the value found
    and the updated store. *)
Definition getConversationHistory
    (userId : string) (conversationHistories : ConversationHistory)
  : Found * ConversationHistory :=
  match stored userId conversationHistories with
  | Own history => (Messages history, conversationHistories)
  | Missing =>
      let history := [systemPrompt; greetingMessage] in
      (Messages history, <[userId := history]> conversationHistories)
  | Inherited => (InheritedProperty userId, conversationHistories)
  end.

(** [clearConversationHistory] of the extended agent: the store after
    the call.  [None] when [conversationHistories[userId][0]] is
    [undefined], the value found being an empty array or an inherited
    property: the array the code stores then starts with [undefined]
    (and, under the name [__proto__], becomes the prototype of the
    store), which no [ConversationHistory] describes. *)
Definition clearConversationHistory
    (userId : string) (conversationHistories : ConversationHistory)
  : option ConversationHistory :=
  match stored userId conversationHistories with
  | Own (systemMessage :: _) =>
      Some (<[userId := [systemMessage; greetingMessage]]>
              conversationHistories)
  | Missing => Some conversationHistories
  | Own [] | Inherited => None
  end.

(** The same two functions in the base agent, which has no greeting
    entry. *)
Definition getConversationHistory_base
    (userId : string) (conversationHistories : ConversationHistory)
  : Found * ConversationHistory :=
  match stored userId conversationHistories with
  | Own history => (Messages history, conversationHistories)
  | Missing =>
      let history := [systemPrompt] in
      (Messages history, <[userId := history]> conversationHistories)
  | Inherited => (InheritedProperty userId, conversationHistories)
  end.

Definition clearConversationHistory_base
    (userId : string) (conversationHistories : ConversationHistory)
  : option ConversationHistory :=
  match stored userId conversationHistories with
  | Own (systemMessage :: _) =>
      Some (<[userId := [systemMessage]]> conversationHistories)
  | Missing => Some conversationHistories
  | Own [] | Inherited => None
  end.

(** [processChat] on an array of length 1:
    [history[0].content = history[0].content.replace(...)], the new
    content being [content']. *)
Definition personalize (userId : string) (content' : string)
    (conversationHistories : ConversationHistory) : ConversationHistory :=
  match conversationHistories !! userId with
  | Some [m] =>
      <[userId := [ {| role := role m; content := content';
                       name := name m |} ]]> conversationHistories
  | _ => conversationHistories
  end.

(** Appending several messages in turn; [None] as soon as one call
    throws. *)
Fixpoint appendAll (userId : string) (messages : list Message)
    (conversationHistories : ConversationHistory)
  : option ConversationHistory :=
  match messages with
  | [] => Some conversationHistories
  | message :: messages' =>
      match addToConversationHistory userId message conversationHistories with
      | Some conversationHistories' =>
          appendAll userId messages' conversationHistories'
      | None => None
      end
  end.

(** The operations a request can perform on the store. *)
Inductive Op : Type :=
| OpAdd (userId : string) (message : Message)
| OpGet (userId : string)
| OpClear (userId : string)
| OpGetBase (userId : string)
| OpClearBase (userId : string)
| OpPersonalize (userId : string) (content' : string).

(** The store after an operation.  An append that throws leaves the
    store as it was; [None] is the [None] of a reset. *)
Definition runOp (o : Op) (h : ConversationHistory)
  : option ConversationHistory :=
  match o with
  | OpAdd u m => Some (default h (addToConversationHistory u m h))
  | OpGet u => Some (snd (getConversationHistory u h))
  | OpClear u => clearConversationHistory u h
  | OpGetBase u => Some (snd (getConversationHistory_base u h))
  | OpClearBase u => clearConversationHistory_base u h
  | OpPersonalize u c => Some (personalize u c h)
  end.

Fixpoint runOps (os : list Op) (h : ConversationHistory)
  : option ConversationHistory :=
  match os with
  | [] => Some h
  | o :: os' =>
      match runOp o h with
      | Some h' => runOps os' h'
      | None => None
      end
  end.

End Configured.

(** The number of pinned entries at the front of a history: the system
    message kept by the eviction ("+1 for system message"). *)
Definition PINNED : nat := 1.

(** Every stored history starts with a system message. *)
Definition wellFormed (conversationHistories : ConversationHistory) : Prop :=
  forall userId h,
    conversationHistories !! userId = Some h ->
    exists s rest, h = s :: rest /\ role s = system.

(** The array of [userId] as [addToConversationHistory] pushes onto it:
    the one stored, or a fresh one; none when the call throws. *)
Definition current (LLM_SYSTEM_PROMPT userId : string)
    (conversationHistories : ConversationHistory) : option (list Message) :=
  match stored userId conversationHistories with
  | Own history => Some history
  | Missing => Some [systemPrompt LLM_SYSTEM_PROMPT]
  | Inherited => None
  end.

(** The last [MAX_HISTORY_LENGTH] entries of a sequence. *)
Definition window (l : list Message) : list Message :=
  drop (length l - MAX_HISTORY_LENGTH) l.

End History.

(* ===================================================================== *)
(** ** The agent: tools and their dispatcher                               *)
(* ===================================================================== *)

Module Chatbot.
Import Js.

(** A database row or a plain object with scalar fields. *)
Definition Row : Type := list (string * JsValue).

Inductive QueryType : Type := SELECT | UPDATE.

(** *** What the tools return, shape by shape *)

Inductive ProductInformation : Type :=
| Products (products : list Row)               (* { products } *)
| ProductsError (error : string).              (* { error } *)

Inductive UserInformation : Type :=
| UserInfo (id email username : JsValue)       (* { id, email, username } *)
| UserError (error : string).                  (* { error } *)

Inductive BasketMutation : Type :=
| Mutated (message : string) (basketId : JsValue)
                                  (* { success: true, message, basketId } *)
| MutationError (error : string) (success : option bool).
                                  (* { error } or { error, success: false } *)

Record BasketProduct : Type := mkBasketProduct {
  bp_id : JsValue; bp_name : JsValue; bp_description : JsValue;
  bp_price : JsValue; bp_image : JsValue; bp_quantity : JsValue
}.

Record BasketItem : Type := mkBasketItem {
  item_id : JsValue; item_name : JsValue; item_price : JsValue;
  item_quantity : JsValue; item_productId : JsValue
}.

Inductive Basket : Type :=
| BasketContents (id : JsValue) (products : list BasketProduct)
                 (empty : bool) (message : string)
                                  (* { id, products, empty, message } *)
| BasketError (error : string) (success : option bool).

Inductive Coupon : Type :=
| CouponIssued (couponCode : string) (discount : JsNum)
| CouponError (error : string).

Inductive SqlResult : Type :=
| SqlError (error : string) (explanation : JsValue)
| SqlUpdated (results : JsValue * JsValue) (explanation : JsValue)
             (message : string) (affectedRows : JsValue)
| SqlRows (results : list Row) (explanation : JsValue) (rowCount : nat).

Inductive CommandResult : Type :=
| CommandOutput (stdout stderr : string) (explanation message : string)
| CommandError (error : string) (explanation : string).

(** The [any] returned by [executeToolFunction]. *)
Inductive ToolResult : Type :=
| OfProductInformation (r : ProductInformation)
| OfUserInformation (r : UserInformation)
| OfAddToBasket (r : BasketMutation)
| OfGetBasket (r : Basket) (items : option (list BasketItem))
| OfRemoveFromBasket (r : BasketMutation)
| OfCoupon (r : Coupon)
| OfSql (r : SqlResult)
| OfCommand (r : CommandResult)
| DispatchError (error : string).              (* from the catch clause *)

(** *** Calls to collaborators, as they appear in the trace *)

(** [EvSequelizeQuery] is [sequelize.query] called with a string,
    [EvSequelizeQueryArray] the same function called with an array, its
    elements given. *)

Inductive Event : Type :=
| EvGetProductInformation (query : JsValue)
| EvGetUserInformation (userId : JsValue)
| EvAddToBasket (userId productId quantity : JsValue)
| EvGetBasket (userId : JsValue)
| EvRemoveFromBasket (userId productId quantity : JsValue)
| EvSecurityGenerateCoupon (discount : JsNum)
| EvIsDatabaseOperationAllowed (query : JsValue)
| EvIsSystemCommandAllowed (command : JsValue)
| EvSequelizeQuery (sql : string) (type : QueryType)
| EvSequelizeQueryArray (sql : list JsValue) (type : QueryType)
| EvExec (command : JsValue) (timeout : N)
| EvLlmFollowUp (messages : list History.Message).

(** The second request to the language model: [axios.post] rejects, or
    the reply has no [choices[0].message], or it carries a content. *)
Inductive LlmReply : Type :=
| LlmUnreachable
| LlmMalformed
| LlmContent (content : string).

(** [ChatResponse]: [{ action, body, data? }] *)
Inductive ChatData : Type :=
| DataResult (functionResult : ToolResult)
| DataWithBasket (functionResult : ToolResult)
                 (basketContents : list BasketProduct)
| DataCheckFailed (functionResult : ToolResult).

Record ChatResponse : Type := mkChatResponse {
  action : string;
  body : string;
  data : option ChatData
}.

(** *** The environment of the unit *)

Record Env : Type := mkEnv {
  (* the database-backed tools, summarised by their outcome; each one
     catches its own exceptions and returns an error object instead *)
  getProductInformation : JsValue -> ProductInformation;
  getUserInformation : JsValue -> UserInformation;
  addToBasket : JsValue -> JsValue -> JsValue -> BasketMutation;
  removeFromBasket : JsValue -> JsValue -> JsValue -> BasketMutation;
  getBasket : JsValue -> Basket;
  (* lib/insecurity *)
  security_generateCoupon : JsNum -> Completion string;
  security_isDatabaseOperationAllowed : JsValue -> bool;
  security_isSystemCommandAllowed : JsValue -> bool;
  (* sequelize.query, by query type *)
  sequelize_select : string -> Completion (list Row);
  sequelize_update : string -> Completion (JsValue * JsValue);
  (* the same, handed an array instead of a string *)
  sequelize_select_array : list JsValue -> Completion (list Row);
  sequelize_update_array : list JsValue -> Completion (JsValue * JsValue);
  (* promisify(child_process.exec) *)
  execAsync : JsValue -> N -> Completion (string * string);
  (* the language model, second round trip *)
  llmFollowUp : list History.Message -> LlmReply;
  (* the engine: [parseInt(s, 10)], [Number(s)] and [String(v)], and the
     message of a [TypeError] (one text stands for all of them) *)
  parseInt10 : string -> JsNum;
  stringToNumber : string -> JsNum;
  toString : JsValue -> string;
  typeErrorMessage : string;
  JSON_stringify : ToolResult -> string;
  (* configuration *)
  LLM_SYSTEM_PROMPT : string;
  greeting : string
}.

Section WithEnv.
Variable env : Env.

(** ToNumber; an array or an object is converted to its text first,
    which may throw. *)
Definition ToNumber (v : JsValue) : Completion JsNum :=
  match v with
  | JUndefined => Normal NaN
  | JNull => Normal (Fin 0)
  | JBool true => Normal (Fin 1)
  | JBool false => Normal (Fin 0)
  | JNum n => Normal n
  | JStr s => Normal (stringToNumber env s)
  | JArray _ | JObject _ =>
      if convertible v then Normal (stringToNumber env (toString env v))
      else Throw (typeErrorMessage env)
  end.

(** [function generateCoupon(discount)] *)
Definition generateCoupon (discount : JsValue) : Eff Event Coupon :=
  try_catch
    (let* requested := ([], ToNumber discount) in
     let safeDiscount := Math_min (Math_max requested (Fin 10)) (Fin 20) in
     let* couponCode :=
       call (EvSecurityGenerateCoupon safeDiscount)
            (security_generateCoupon env safeDiscount) in
     ret (CouponIssued couponCode safeDiscount))
    (fun _ => ret (CouponError "Failed to generate coupon")).

(** [function isQueryAllowed(query)]: delegates to lib/insecurity. *)
Definition isQueryAllowed (query : JsValue) : Eff Event bool :=
  call (EvIsDatabaseOperationAllowed query)
       (Normal (security_isDatabaseOperationAllowed env query)).

(** [/^UPDATE\s+/i] *)
Definition updatePattern : RegExp.regex :=
  RegExp.seqs [RegExp.Bol; RegExp.lit_i "UPDATE"; RegExp.Plus RegExp.ws].

(** The statement handed to the database for a read. *)
Definition limited (query : string) : string :=
  if JsString.includes query "LIMIT" then query
  else query ++ " LIMIT 100".

(** [async function executeSqlQuery(query, explanation)].  [test]
    converts a query that is not a string to its text, which may throw;
    an array has an [includes] method of its own, which looks for an
    element, and is handed to [sequelize.query] as it is where a string
    would be. *)
Definition executeSqlQuery (query explanation : JsValue)
  : Eff Event SqlResult :=
  try_catch
    (let* allowed := isQueryAllowed query in
     if negb allowed then
       ret (SqlError "This query cannot be executed for security reasons. Only SELECT queries and safe UPDATE operations are allowed."
                     explanation)
     else
       match query with
       | JStr q =>
           if RegExp.test updatePattern q then
             let* results :=
               call (EvSequelizeQuery q UPDATE) (sequelize_update env q) in
             ret (SqlUpdated results explanation
                    "Update operation completed successfully"
                    (if truthy (snd results) then snd results
                     else JNum (Fin 0)))
           else
             let* results :=
               call (EvSequelizeQuery (limited q) SELECT)
                    (sequelize_select env (limited q)) in
             ret (SqlRows results explanation (length results))
       | JArray elements =>
           if negb (convertible query) then
             ([], Throw (typeErrorMessage env))
           else if RegExp.test updatePattern (toString env query) then
             let* results :=
               call (EvSequelizeQueryArray elements UPDATE)
                    (sequelize_update_array env elements) in
             ret (SqlUpdated results explanation
                    "Update operation completed successfully"
                    (if truthy (snd results) then snd results
                     else JNum (Fin 0)))
           else if arrayHasString elements "LIMIT" then
             let* results :=
               call (EvSequelizeQueryArray elements SELECT)
                    (sequelize_select_array env elements) in
             ret (SqlRows results explanation (length results))
           else
             let sql := toString env query ++ " LIMIT 100" in
             let* results :=
               call (EvSequelizeQuery sql SELECT)
                    (sequelize_select env sql) in
             ret (SqlRows results explanation (length results))
       | _ =>
           (* the conversion of the value throws, or its text does not
              start with UPDATE and the value has no [includes] method *)
           ([], Throw (typeErrorMessage env))
       end)
    (fun message =>
       ret (SqlError ("Failed to execute SQL query: " ++ message)
                     explanation)).

(** [async function executeLinuxCommand(command, userId)].  Both result
    objects hold the text of the command; when the conversion of the
    command throws, it does so in the [try] block, at the latest, and
    again in the [catch] block, which nothing encloses. *)
Definition executeLinuxCommand (command userId : JsValue)
  : Eff Event CommandResult :=
  if convertible command then
    try_catch
      (let* out :=
         call (EvExec command 30000%N) (execAsync env command 30000%N) in
       ret (CommandOutput (fst out) (snd out)
              ("Command executed successfully: " ++ toString env command)
              "Command execution completed successfully"))
      (fun message =>
         ret (CommandError
                ("Failed to execute Linux command: " ++ message)
                ("Command execution failed: " ++ toString env command)))
  else ([EvExec command 30000%N], Throw (typeErrorMessage env)).

(** The [parameters] of a tool call, as [JSON.parse] made them of the
    argument text: [null], a number, string or boolean, or an object,
    given by its fields (an array is an object that has none of the
    fields the tools read). *)
Inductive Arguments : Type :=
| ArgNull
| ArgPrimitive
| ArgObject (fields : gmap string JsValue).

(** [parameters.field] on an object. *)
Definition field (parameters : gmap string JsValue) (k : string) : JsValue :=
  default JUndefined (parameters !! k).

(** A computation that starts by reading a field of [parameters]:
    reading a field of [null] throws a [TypeError]; a number, string or
    boolean has none of the fields the tools read. *)
Definition withFields {A} (parameters : Arguments)
    (k : gmap string JsValue -> Eff Event A) : Eff Event A :=
  match parameters with
  | ArgNull => ([], Throw (typeErrorMessage env))
  | ArgPrimitive => k ∅
  | ArgObject fields => k fields
  end.

(** [typeof v === 'string' ? parseInt(v, 10) : v] *)
Definition numericId (v : JsValue) : JsValue :=
  match v with
  | JStr s => JNum (parseInt10 env s)
  | _ => v
  end.

Definition toItem (product : BasketProduct) : BasketItem :=
  {| item_id := bp_id product; item_name := bp_name product;
     item_price := bp_price product; item_quantity := bp_quantity product;
     item_productId := bp_id product |}.

(** The names declared in [botTools]. *)
Definition botTools : list string :=
  [ "get_product_information"; "get_user_information"; "add_to_basket";
    "get_basket"; "remove_from_basket"; "generate_coupon";
    "execute_sql_query"; "execute_linux_command" ].

(** The tools whose [userId] argument is replaced by the session's. *)
Definition userRelatedFunctions : list string :=
  [ "get_user_information"; "add_to_basket"; "get_basket" ].

(** [if ([...].includes(functionName))
       logger.info(`... userId: ${parameters.userId} ...`)]: the line
    reads a field of [parameters] and converts it to text. *)
Definition logUserId (functionName : string) (parameters : Arguments)
  : Eff Event unit :=
  if JsString.arrayIncludes userRelatedFunctions functionName then
    withFields parameters (fun parameters =>
      if convertible (field parameters "userId") then ret tt
      else ([], Throw (typeErrorMessage env)))
  else ret tt.

(** [async function executeToolFunction(functionName, parameters)] *)
Definition executeToolFunction
    (functionName : string) (parameters : Arguments)
  : Eff Event ToolResult :=
  try_catch
    (let* _logged := logUserId functionName parameters in
     if String.eqb functionName "get_product_information" then
       withFields parameters (fun parameters =>
       let q := field parameters "query" in
       let* result :=
         call (EvGetProductInformation q)
              (Normal (getProductInformation env q)) in
       ret (OfProductInformation result))
     else if String.eqb functionName "get_user_information" then
       withFields parameters (fun parameters =>
       let u := field parameters "userId" in
       let* result :=
         call (EvGetUserInformation u) (Normal (getUserInformation env u)) in
       ret (OfUserInformation result))
     else if String.eqb functionName "add_to_basket" then
       withFields parameters (fun parameters =>
       let productId := numericId (field parameters "productId") in
       let u := field parameters "userId" in
       let n := field parameters "quantity" in
       let* result :=
         call (EvAddToBasket u productId n)
              (Normal (addToBasket env u productId n)) in
       ret (OfAddToBasket result))
     else if String.eqb functionName "get_basket" then
       withFields parameters (fun parameters =>
       let u := field parameters "userId" in
       let* result := call (EvGetBasket u) (Normal (getBasket env u)) in
       (* if (!result.error && result.products) result.items = ... *)
       match result with
       | BasketContents _ products _ _ =>
           ret (OfGetBasket result (Some (map toItem products)))
       | BasketError _ _ => ret (OfGetBasket result None)
       end)
     else if String.eqb functionName "remove_from_basket" then
       withFields parameters (fun parameters =>
       let removeProductId := numericId (field parameters "productId") in
       let u := field parameters "userId" in
       let n := field parameters "quantity" in
       let* result :=
         call (EvRemoveFromBasket u removeProductId n)
              (Normal (removeFromBasket env u removeProductId n)) in
       ret (OfRemoveFromBasket result))
     else if String.eqb functionName "generate_coupon" then
       withFields parameters (fun parameters =>
       let* result := generateCoupon (field parameters "discount") in
       ret (OfCoupon result))
     else if String.eqb functionName "execute_sql_query" then
       withFields parameters (fun parameters =>
       let* result :=
         executeSqlQuery (field parameters "query")
                         (field parameters "explanation") in
       ret (OfSql result))
     else if String.eqb functionName "execute_linux_command" then
       withFields parameters (fun parameters =>
       let* result :=
         executeLinuxCommand (field parameters "command")
                             (field parameters "userId") in
       ret (OfCommand result))
     else
       ([], Throw ("Unknown function: " ++ functionName)))
    (fun message =>
       ret (DispatchError
              ("Error executing function " ++ functionName ++ ": "
               ++ message))).

(** *** [processChat], from the tool call of the model's reply on *)

(** [functionResult.error], [.success] and [.message] *)
Definition error_of (r : ToolResult) : option string :=
  match r with
  | OfProductInformation (ProductsError e)
  | OfUserInformation (UserError e)
  | OfAddToBasket (MutationError e _)
  | OfGetBasket (BasketError e _) _
  | OfRemoveFromBasket (MutationError e _)
  | OfCoupon (CouponError e)
  | OfSql (SqlError e _)
  | OfCommand (CommandError e _)
  | DispatchError e => Some e
  | _ => None
  end.

Definition hasError (r : ToolResult) : bool :=
  match error_of r with Some e => JsString.nonEmpty e | None => false end.

Definition errorText (r : ToolResult) : string :=
  match error_of r with Some e => e | None => "undefined" end.

Definition success_of (r : ToolResult) : bool :=
  match r with
  | OfAddToBasket (Mutated _ _) | OfRemoveFromBasket (Mutated _ _) => true
  | OfAddToBasket (MutationError _ (Some b))
  | OfRemoveFromBasket (MutationError _ (Some b))
  | OfGetBasket (BasketError _ (Some b)) _ => b
  | _ => false
  end.

Definition messageText (r : ToolResult) : string :=
  match r with
  | OfAddToBasket (Mutated m _) | OfRemoveFromBasket (Mutated m _)
  | OfGetBasket (BasketContents _ _ _ m) _
  | OfSql (SqlUpdated _ _ m _)
  | OfCommand (CommandOutput _ _ _ m) => m
  | _ => "undefined"
  end.

Definition response (text : string) (d : option ChatData) : ChatResponse :=
  {| action := "response"; body := text; data := d |}.

(** [if ([...].includes(functionName)) { parameters.userId = userId }]:
    the parameters afterwards, or [None] when the assignment throws.
    Assigning a property of [null] throws a [TypeError], and so does, in
    the strict code of a module, assigning one of a number, string or
    boolean. *)
Definition ensureUserId (userId functionName : string)
    (parameters : Arguments) : option Arguments :=
  if JsString.arrayIncludes userRelatedFunctions functionName then
    match parameters with
    | ArgObject fields => Some (ArgObject (<["userId" := JStr userId]> fields))
    | ArgNull | ArgPrimitive => None
    end
  else Some parameters.

(** The re-read of the basket after a successful add or remove; the two
    branches of the source differ in [done] ("added" or "removed"). *)
Definition verifyBasket (userId : string) (functionResult : ToolResult)
    (done : string) : Eff Event ChatResponse :=
  let* basketCheck :=
    call (EvGetBasket (JStr userId)) (Normal (getBasket env (JStr userId))) in
  match basketCheck with
  | BasketError e _ =>
      if JsString.nonEmpty e then
        ret (response
               (messageText functionResult
                ++ ". However, I had trouble verifying your basket contents: "
                ++ e)
               (Some (DataResult functionResult)))
      else
        ret (response
               (messageText functionResult
                ++ ". However, I'm having trouble displaying your basket contents. The item was "
                ++ done ++ ", but you may need to refresh your page to see it.")
               (Some (DataCheckFailed functionResult)))
  | BasketContents _ products empty _ =>
      if negb empty && (0 <? length products) then
        ret (response
               (messageText functionResult ++ ". Your basket now contains "
                ++ toString env (JNum (Fin (inject_Z (Z.of_nat (length products)))))
                ++ " item(s).")
               (Some (DataWithBasket functionResult products)))
      else
        ret (response
               (messageText functionResult
                ++ ". However, I'm having trouble displaying your basket contents. The item was "
                ++ done ++ ", but you may need to refresh your page to see it.")
               (Some (DataCheckFailed functionResult)))
  end.

(** The replies that do not go back to the model; [None] when the
    default flow continues. *)
Definition immediateResponse (userId functionName : string)
    (functionResult : ToolResult) : Eff Event (option ChatResponse) :=
  let* r1 :=
    if String.eqb functionName "add_to_basket" then
      if hasError functionResult then
        ret (Some (response
               ("I couldn't add that item to your basket: "
                ++ errorText functionResult
                ++ ". Please try again or contact customer support if the problem persists.")
               (Some (DataResult functionResult))))
      else if success_of functionResult then
        let* r := verifyBasket userId functionResult "added" in ret (Some r)
      else ret None
    else ret None in
  match r1 with
  | Some r => ret (Some r)
  | None =>
  let* r2 :=
    if String.eqb functionName "remove_from_basket" then
      if hasError functionResult then
        ret (Some (response
               ("I had trouble removing that item from your basket: "
                ++ errorText functionResult
                ++ ". Please try refreshing your page or contact customer support.")
               (Some (DataResult functionResult))))
      else if success_of functionResult then
        let* r := verifyBasket userId functionResult "removed" in ret (Some r)
      else ret None
    else ret None in
  match r2 with
  | Some r => ret (Some r)
  | None =>
  let r3 :=
    if String.eqb functionName "get_basket" then
      if hasError functionResult then
        Some (response
               ("I had trouble retrieving your basket: "
                ++ errorText functionResult
                ++ ". Please try refreshing your page or contact customer support.")
               (Some (DataResult functionResult)))
      else
        match functionResult with
        | OfGetBasket (BasketContents _ products empty _) _ =>
            if empty || (length products =? 0) then
              Some (response
                      "Your basket is currently empty. Would you like me to help you find some products to add?"
                      (Some (DataResult functionResult)))
            else None
        | _ => None
        end
    else None in
  match r3 with
  | Some r => ret (Some r)
  | None =>
      if hasError functionResult
         && JsString.includes (errorText functionResult) "User not found"
      then
        ret (Some (response
               "I couldn't access your user information. This might be due to a session issue. Please try logging out and back in, or contact customer support if the problem persists."
               None))
      else ret None
  end end end.

Definition functionContextMessage : string :=
  String "010"
    ("When using SQL queries, remember:" ++ String "010"
     ("- Sensitive tables like SecurityAnswers, are restricted" ++ String "010"
     ("- Queries are limited to return at most 100 rows" ++ String "010"
     ("- Keep queries simple and avoid complex operations" ++ String "010" "")))).

Definition addToConversationHistory :=
  History.addToConversationHistory (LLM_SYSTEM_PROMPT env).
Definition getConversationHistory :=
  History.getConversationHistory (LLM_SYSTEM_PROMPT env) (greeting env).

(** The reply of the [catch] around the whole body of [processChat]. *)
Definition apology : ChatResponse :=
  response
    "Sorry, I encountered an error while processing your request. Please try again later."
    None.

(** [processChat] once the model's reply asks for a tool:
    [parameters] is [None] when [JSON.parse] of the arguments threw.
    The result is the new history store and the turn's computation;
    the [try ... catch] around the whole body turns an exception into
    the last apology. *)
Definition processChat_toolCall
    (userId functionName : string)
    (parameters : option Arguments)
    (conversationHistories : History.ConversationHistory)
  : History.ConversationHistory * Eff Event ChatResponse :=
  match parameters with
  | None =>
      (conversationHistories,
       ret (response
              "I encountered an error while processing your request. Please try a different query."
              None))
  | Some parameters =>
  match ensureUserId userId functionName parameters with
  | None => (conversationHistories, ret apology)
  | Some parameters =>
      let dispatched := executeToolFunction functionName parameters in
      match outcome dispatched with
      | Throw _ =>
          (conversationHistories, (trace dispatched, Normal apology))
      | Normal functionResult =>
          let early := immediateResponse userId functionName functionResult in
          match outcome early with
          | Throw _ =>
              (conversationHistories,
               ((trace dispatched ++ trace early)%list, Normal apology))
          | Normal (Some r) =>
              (conversationHistories,
               ((trace dispatched ++ trace early)%list, Normal r))
          | Normal None =>
          match addToConversationHistory userId
                    {| History.role := History.function;
                       History.name := Some functionName;
                       History.content := JSON_stringify env functionResult |}
                    conversationHistories with
          | None =>
              (conversationHistories,
               ((trace dispatched ++ trace early)%list, Normal apology))
          | Some h1 =>
              let context :=
                if String.eqb functionName "execute_sql_query"
                   && hasError functionResult
                then [ {| History.role := History.system;
                          History.content := functionContextMessage;
                          History.name := None |} ]
                else [] in
              (* [...getConversationHistory(userId)] *)
              match getConversationHistory userId h1 with
              | (History.InheritedProperty _, h2) =>
                  (h2, ((trace dispatched ++ trace early)%list,
                        Normal apology))
              | (History.Messages history, h2) =>
              let followUpMessages := (history ++ context)%list in
              let t :=
                (trace dispatched ++ trace early
                 ++ [EvLlmFollowUp followUpMessages])%list in
              match llmFollowUp env followUpMessages with
              | LlmUnreachable =>
                  (h2, (t, Normal (response
                     "I encountered an error while processing your request results. Please try again later."
                     None)))
              | LlmMalformed => (h2, (t, Normal apology))
              | LlmContent finalMessage =>
                  match addToConversationHistory userId
                          {| History.role := History.assistant;
                             History.content := finalMessage;
                             History.name := None |}
                          h2 with
                  | None => (h2, (t, Normal apology))
                  | Some h3 =>
                      (h3, (t, Normal (response finalMessage
                                         (Some (DataResult functionResult)))))
                  end
              end
              end
          end
          end
      end
  end
  end.

End WithEnv.

End Chatbot.

(* ===================================================================== *)
(** ** The base agent: its own [executeSqlQuery]                           *)
(* ===================================================================== *)

Module ChatbotBase.
Import Js Chatbot.

Section WithEnv.
Variable env : Env.

(** [isQueryAllowed(query)] of the base agent is the guardrail itself.
    [test] converts a query that is not a string to its text, which may
    throw: the text of an array is the texts of its elements joined by
    commas, and that of any other value starts with neither SELECT nor
    WITH. *)
Definition isQueryAllowed (query : JsValue) : Completion bool :=
  match query with
  | JStr q => Normal (Guardrail.isQueryAllowed q)
  | _ =>
      if negb (convertible query) then Throw (typeErrorMessage env)
      else
        match query with
        | JArray _ => Normal (Guardrail.isQueryAllowed (toString env query))
        | _ => Normal false
        end
  end.

(** [async function executeSqlQuery(query, explanation)] *)
Definition executeSqlQuery (query explanation : JsValue)
  : Eff Event SqlResult :=
  try_catch
    (let* allowed := ([], isQueryAllowed query) in
     if negb allowed then
       ret (SqlError "This query cannot be executed for security reasons. Only SELECT queries on non-sensitive tables are allowed."
                     explanation)
     else
       match query with
       | JStr q =>
           let* results :=
             call (EvSequelizeQuery (limited q) SELECT)
                  (sequelize_select env (limited q)) in
           ret (SqlRows results explanation (length results))
       | JArray elements =>
           if arrayHasString elements "LIMIT" then
             let* results :=
               call (EvSequelizeQueryArray elements SELECT)
                    (sequelize_select_array env elements) in
             ret (SqlRows results explanation (length results))
           else
             let sql := toString env query ++ " LIMIT 100" in
             let* results :=
               call (EvSequelizeQuery sql SELECT)
                    (sequelize_select env sql) in
             ret (SqlRows results explanation (length results))
       | _ => ([], Throw (typeErrorMessage env))
       end)
    (fun message =>
       ret (SqlError ("Failed to execute SQL query: " ++ message)
                     explanation)).

End WithEnv.

End ChatbotBase.

(* ===================================================================== *)
(** ** The chat routes ([process], [respond])                              *)
(* ===================================================================== *)

Module Routes.
Import Js.

Record User : Type := mkUser {
  id : JsValue;
  username : string
}.

(** The parts of an Express request the handlers read. *)
Record Request : Type := mkRequest {
  cookies_token : option string;       (* req.cookies.token *)
  authorization : option string;       (* the Authorization header *)
  body_userId : JsValue;               (* req.body.userId *)
  body_query : JsValue                 (* req.body.query *)
}.

Inductive Json : Type :=
| ErrorJson (error : string)                       (* { error } *)
| ChatJson (response : Chatbot.ChatResponse).

(** What a handler does with the request: [res.status(s).json(j)] or
    [next(error)]. *)
Inductive Reply : Type :=
| Sent (status : nat) (json : Json)
| Next (error : string).

Record Env : Type := mkEnv {
  jwtFrom : Request -> option string;              (* lib/utils *)
  getUserFromJwt : string -> option User;          (* null on any failure *)
  processChat : JsValue -> JsValue -> option string
                -> Completion Chatbot.ChatResponse; (* lib/chatbot *)
  getGreeting : option string -> string;           (* lib/chatbot *)
  toString : JsValue -> string;                    (* String(v) *)
  typeErrorMessage : string
}.

Section WithEnv.
Variable env : Env.

(** [req.cookies.token || utils.jwtFrom(req)], then [!token] *)
Definition tokenOf (req : Request) : option string :=
  match cookies_token req with
  | Some t => if JsString.nonEmpty t then Some t else jwtFrom env req
  | None => jwtFrom env req
  end.

Definition hasToken (t : option string) : bool :=
  match t with Some t => JsString.nonEmpty t | None => false end.

(** [export function process ()]: the handler for any caller. *)
Definition process (req : Request) : Reply :=
  let userId :=
    if truthy (body_userId req) then body_userId req
    else JStr "anonymous" in
  let query := body_query req in
  if negb (truthy query) then
    Sent 400 (ErrorJson "No query provided")
  else if negb (convertible query && convertible userId) then
    (* the line written to the log holds the text of both *)
    Next (typeErrorMessage env)
  else
    match processChat env userId query None with
    | Normal response => Sent 200 (ChatJson response)
    | Throw error => Next error
    end.

(** [export const respond]: the handler for authenticated users. *)
Definition respond (req : Request) : Reply :=
  let token := tokenOf req in
  if negb (hasToken token) then
    Sent 401 (ErrorJson "Unauthenticated user")
  else
    match getUserFromJwt env (default "" token) with
    | None => Sent 401 (ErrorJson "Unauthenticated user")
    | Some user =>
        (* If no query provided, return a greeting *)
        if negb (truthy (body_query req)) then
          Sent 200 (ChatJson
                      {| Chatbot.action := "response";
                         Chatbot.body := getGreeting env (Some (username user));
                         Chatbot.data := None |})
        else if negb (convertible (body_query req)) then
          (* the line written to the log holds the text of the query *)
          Next (typeErrorMessage env)
        else
          let userId := JStr (toString env (id user)) in
          match processChat env userId (body_query req)
                            (Some (username user)) with
          | Normal response => Sent 200 (ChatJson response)
          | Throw error => Next error
          end
    end.

End WithEnv.

End Routes.

(* ===================================================================== *)
(** ** The storefront's chatbot service (fuzzy matcher, basket action)     *)
(* ===================================================================== *)

Module ChatbotService.
Import Js.

Local Open Scope Q_scope.

(** Threshold for product name matching confidence *)
Definition MATCH_THRESHOLD : Q := 8 # 10.

Definition Qltb (a b : Q) : bool := negb (Qle_bool b a).

(** [private calculateNameMatchScore(search, actual)] *)
Definition calculateNameMatchScore (search actual : string) : Q :=
  let searchLower := JsString.toLowerCase search in
  let actualLower := JsString.toLowerCase actual in
  if String.eqb searchLower actualLower then 1
  else if JsString.includes actualLower searchLower then 9 # 10
  else if JsString.includes searchLower actualLower then 8 # 10
  else
    (* Calculate word overlap *)
    let searchWords := JsString.split " " searchLower in
    let actualWords := JsString.split " " actualLower in
    let commonWords :=
      List.filter (fun word => JsString.arrayIncludes actualWords word)
                  searchWords in
    inject_Z (Z.of_nat (length commonWords))
    / inject_Z (Z.of_nat (Nat.max (length searchWords) (length actualWords))).

Record Product : Type := mkProduct {
  id : JsValue;
  name : string;
  price : JsValue;
  description : JsValue
}.

Record ResolvedProduct : Type := mkResolved {
  r_id : JsValue;
  r_name : string;
  r_price : JsValue;
  matches : Q
}.

(** [arr.sort((a, b) => b.matches - a.matches)]: a stable sort by
    descending score. *)
Fixpoint insertByMatches (x : ResolvedProduct) (l : list ResolvedProduct)
  : list ResolvedProduct :=
  match l with
  | [] => [x]
  | y :: l' =>
      if Qltb (matches x) (matches y) then y :: insertByMatches x l'
      else x :: l
  end.

Definition sortByMatches (l : list ResolvedProduct) : list ResolvedProduct :=
  foldr insertByMatches [] l.

Record BasketParams : Type := mkParams {
  p_action : JsValue;
  productName : option string;
  quantity : JsValue
}.

Record BasketEntry : Type := mkEntry {
  e_name : JsValue;
  e_price : JsValue;
  e_quantity : option JsValue          (* p.BasketItem.quantity *)
}.

Inductive Action : Type :=
| DisplayBasket (items : list (JsValue * JsValue * JsValue))
| AddToBasket (productId : JsValue) (quantity : JsValue)
              (needsConfirmation : bool)
| BasketUpdated (id : JsValue) (name : string) (quantity : JsValue).

Record ChatResponse : Type := mkResponse {
  text : string;
  error : option bool;
  success : option bool;
  requiresConfirmation : option bool;
  suggestions : option (list string);
  action : option Action
}.

Definition failure (t : string) : ChatResponse :=
  {| text := t; error := Some true; success := None;
     requiresConfirmation := None; suggestions := None; action := None |}.

Inductive Event : Type :=
| EvSearch (criteria : option string)
| EvFind (basketId : JsNum)
| EvSave (ProductId : JsValue) (BasketId : string) (quantity : JsValue).

Record Env : Type := mkEnv {
  productService_search : option string -> Completion (list Product);
  basketService_find : JsNum -> Completion (option (list BasketEntry));
  basketService_save : JsValue -> string -> JsValue -> Completion unit;
  sessionStorage_bid : option string;     (* sessionStorage.getItem('bid') *)
  Number : option string -> JsNum;
  toString : JsValue -> string;
  typeErrorMessage : string
}.

Definition quote : string := String (ascii_of_nat 34) EmptyString.

Section WithEnv.
Variable env : Env.

Local Open Scope string_scope.

(** [product => ({ id, name, price, matches: score(productName, name) })] *)
Definition scoreOf (search : string) (product : Product) : ResolvedProduct :=
  {| r_id := id product; r_name := name product; r_price := price product;
     matches := calculateNameMatchScore search (name product) |}.

(** [private async resolveProductFromName(productName)] *)
Definition resolveProductFromName (productName : option string)
  : Eff Event (option ResolvedProduct) :=
  try_catch
    (let* products :=
       call (EvSearch productName) (productService_search env productName) in
     match products with
     | [] => ret None
     | _ :: _ =>
         match productName with
         | None => ([], Throw (typeErrorMessage env))
         | Some search =>
             let scoredProducts := map (scoreOf search) products in
             ret (head (sortByMatches scoredProducts))
         end
     end)
    (fun _ => ret None).

(** [v === 'literal'] *)
Definition strictEq (v : JsValue) (s : string) : bool :=
  match v with JStr x => String.eqb x s | _ => false end.

(** [params.quantity || 1] *)
Definition quantityOr1 (params : BasketParams) : JsValue :=
  if truthy (quantity params) then quantity params else JNum (Fin 1).

Definition nameOrUndefined (params : BasketParams) : string :=
  match productName params with Some n => n | None => "undefined" end.

(** The branch [params.action === 'view']. *)
Definition viewBranch : Eff Event ChatResponse :=
  try_catch
    (let bid := Number env (sessionStorage_bid env) in
     let* basket := call (EvFind bid) (basketService_find env bid) in
     match basket with
     | None | Some [] =>
         ret {| text := "Your basket is empty."; error := None;
                success := None; requiresConfirmation := None;
                suggestions := Some ["View products"; "Search products"];
                action := None |}
     | Some Products =>
         if forallb (fun p => match e_quantity p with
                              | Some _ => true | None => false end)
                    Products
         then
           ret {| text := "Here's what's in your basket:"; error := None;
                  success := None; requiresConfirmation := None;
                  suggestions := None;
                  action := Some (DisplayBasket
                    (map (fun p => (e_name p, e_price p,
                                    default JUndefined (e_quantity p)))
                         Products)) |}
         else ([], Throw (typeErrorMessage env))
     end)
    (fun _ => ret (failure "Sorry, I couldn't retrieve your basket.")).

(** The branch [params.action === 'add']. *)
Definition addBranch (params : BasketParams) : Eff Event ChatResponse :=
  try_catch
    (let* product := resolveProductFromName (productName params) in
     match product with
     | None =>
         ret {| text := "I couldn't find a product matching " ++ quote
                        ++ nameOrUndefined params ++ quote
                        ++ ". Could you please be more specific?";
                error := None; success := None;
                requiresConfirmation := None;
                suggestions := Some ["View all products"; "Search products"];
                action := None |}
     | Some product =>
         if Qltb (matches product) MATCH_THRESHOLD then
           ret {| text := "Did you mean " ++ quote ++ r_name product
                          ++ quote ++ "?";
                  error := None; success := None;
                  requiresConfirmation := Some true;
                  suggestions := None;
                  action := Some (AddToBasket (r_id product)
                                    (quantityOr1 params) true) |}
         else
           (* Actually add the item to the basket *)
           match sessionStorage_bid env with
           | None | Some EmptyString =>
               ret (failure "Sorry, I couldn't add the item to your basket. Please try refreshing the page.")
           | Some basketId =>
               let* _saved :=
                 call (EvSave (r_id product) basketId (quantityOr1 params))
                      (basketService_save env (r_id product) basketId
                                          (quantityOr1 params)) in
               (* the text of the reply holds that of the quantity *)
               if negb (convertible (quantityOr1 params)) then
                 ([], Throw (typeErrorMessage env))
               else
               ret {| text := "Added " ++ toString env (quantityOr1 params)
                              ++ "x " ++ r_name product
                              ++ " to your basket.";
                      error := None; success := Some true;
                      requiresConfirmation := None; suggestions := None;
                      action := Some (BasketUpdated (r_id product)
                                        (r_name product)
                                        (quantityOr1 params)) |}
           end
     end)
    (fun _ => ret (failure "Sorry, I couldn't add the item to your basket.")).

(** [private async handleBasketAction(params)] *)
Definition handleBasketAction (params : BasketParams)
  : Eff Event ChatResponse :=
  if strictEq (p_action params) "view" then viewBranch
  else if strictEq (p_action params) "add" then addBranch params
  else ret (failure "I'm not sure how to handle that basket action.").

End WithEnv.

End ChatbotService.

(* ===================================================================== *)
(** ** The match score as the specification words it                       *)
(* ===================================================================== *)

Module MatcherSpec.

(** [t] occurs in [s]. *)
Definition contains (s t : string) : Prop :=
  exists pre post, s = pre ++ t ++ post.

(** The pieces of [s] between the characters that satisfy [isSep]. *)
Fixpoint pieces (isSep : ascii -> bool) (s : string) : list string :=
  match s with
  | EmptyString => [EmptyString]
  | String c s' =>
      if isSep c then EmptyString :: pieces isSep s'
      else match pieces isSep s' with
           | w :: ws => String c w :: ws
           | [] => [String c EmptyString]
           end
  end.

(** Whitespace-separated tokens: the non-empty pieces between whitespace
    characters. *)
Definition whitespaceTokens (s : string) : list string :=
  List.filter JsString.nonEmpty (pieces RegExp.isSpace s).

(** Tokens separated by the space character alone, empty ones kept. *)
Definition spaceTokens (s : string) : list string :=
  pieces (fun c => Ascii.eqb c " ") s.

(** The number of search tokens that occur among the candidate's, over the
    larger of the two token counts. *)
Definition overlap (searchTokens candidateTokens : list string) : Q :=
  (inject_Z (Z.of_nat (length
     (List.filter (fun w => if in_dec string_dec w candidateTokens
                            then true else false)
                  searchTokens)))
   / inject_Z (Z.of_nat (Nat.max (length searchTokens)
                                 (length candidateTokens))))%Q.

(** The reference algorithm, in strict precedence order, for a given
    notion of token. *)
Inductive MatchScore (tokens : string -> list string)
    (search candidate : string) : Q -> Prop :=
| ExactMatch :
    JsString.toLowerCase search = JsString.toLowerCase candidate ->
    MatchScore tokens search candidate 1%Q
| CandidateContainsSearch :
    JsString.toLowerCase search <> JsString.toLowerCase candidate ->
    contains (JsString.toLowerCase candidate) (JsString.toLowerCase search) ->
    MatchScore tokens search candidate (9 # 10)%Q
| SearchContainsCandidate :
    JsString.toLowerCase search <> JsString.toLowerCase candidate ->
    ~ contains (JsString.toLowerCase candidate) (JsString.toLowerCase search) ->
    contains (JsString.toLowerCase search) (JsString.toLowerCase candidate) ->
    MatchScore tokens search candidate (8 # 10)%Q
| WordOverlap :
    JsString.toLowerCase search <> JsString.toLowerCase candidate ->
    ~ contains (JsString.toLowerCase candidate) (JsString.toLowerCase search) ->
    ~ contains (JsString.toLowerCase search) (JsString.toLowerCase candidate) ->
    MatchScore tokens search candidate
      (overlap (tokens (JsString.toLowerCase search))
               (tokens (JsString.toLowerCase candidate))).

(** The same algorithm as a function. *)
Definition score (tokens : string -> list string)
    (search candidate : string) : Q :=
  let s := JsString.toLowerCase search in
  let c := JsString.toLowerCase candidate in
  if string_dec s c then 1%Q
  else if JsString.includes c s then (9 # 10)%Q
  else if JsString.includes s c then (8 # 10)%Q
  else overlap (tokens s) (tokens c).

(** Two names whose words are separated by a tab. *)
Definition appleTabJuice : string := "apple" ++ String "009" "juice".
Definition juiceTabApple : string := "juice" ++ String "009" "apple".

End MatcherSpec.

(* ===================================================================== *)
(** ** Sample environments, for running the definitions                    *)
(* ===================================================================== *)

Module Sample.
Import Js.

(** [String(v)] for strings and arrays of strings. *)
Fixpoint text (v : JsValue) : string :=
  match v with
  | JStr s => s
  | JArray elements =>
      String.concat ","
        (map (fun e => match e with
                       | JUndefined | JNull => ""
                       | _ => text e
                       end) elements)
  | _ => "[value]"
  end.

(** A shop whose [Users] table holds 101 rows. *)
Definition users : list Chatbot.Row :=
  map (fun i => [("id", JNum (Fin (inject_Z (Z.of_nat i))))]) (seq 1 101).

Definition chatbotEnv : Chatbot.Env :=
  {| Chatbot.getProductInformation := fun _ => Chatbot.Products [];
     Chatbot.getUserInformation :=
       fun u => Chatbot.UserInfo u (JStr "jim@juice-sh.op") (JStr "jim");
     Chatbot.addToBasket :=
       fun _ _ _ => Chatbot.Mutated "Added 1 x Battery to basket" (JNum (Fin 1));
     Chatbot.removeFromBasket :=
       fun _ _ _ => Chatbot.Mutated "Removed Battery from basket" (JNum (Fin 1));
     Chatbot.getBasket :=
       fun _ => Chatbot.BasketContents JNull [] true "Your basket is empty";
     Chatbot.security_generateCoupon := fun _ => Normal "n<MibgC7sn";
     Chatbot.security_isDatabaseOperationAllowed :=
       fun q => match q with
                | JStr _ | JArray _ => Guardrail.isQueryAllowed (text q)
                | _ => false
                end;
     Chatbot.security_isSystemCommandAllowed :=
       fun c => match c with
                | JStr s => negb (JsString.startsWith s "shutdown")
                | _ => false
                end;
     (* every read returns the rows of Users, the first 100 of them under
        a trailing LIMIT 100 *)
     Chatbot.sequelize_select :=
       fun sql =>
         if JsString.endsWith sql " LIMIT 100" then Normal (take 100 users)
         else Normal users;
     Chatbot.sequelize_update := fun _ => Normal (JUndefined, JNum (Fin 1));
     Chatbot.sequelize_select_array :=
       fun _ => Throw "sql.trim is not a function";
     Chatbot.sequelize_update_array :=
       fun _ => Throw "sql.trim is not a function";
     Chatbot.execAsync := fun _ _ => Normal ("", "");
     Chatbot.llmFollowUp := fun _ => Chatbot.LlmContent "Done.";
     Chatbot.parseInt10 := fun _ => NaN;
     Chatbot.stringToNumber := fun _ => NaN;
     Chatbot.toString := text;
     Chatbot.typeErrorMessage := "TypeError";
     Chatbot.JSON_stringify := fun _ => "{}";
     Chatbot.LLM_SYSTEM_PROMPT := "You are a helpful AI shopping assistant.";
     Chatbot.greeting := "Hello!" |}.

Definition jim : Routes.User :=
  {| Routes.id := JNum (Fin 2); Routes.username := "jim" |}.

Definition routesEnv : Routes.Env :=
  {| Routes.jwtFrom := fun req => Routes.authorization req;
     Routes.getUserFromJwt :=
       fun token => if String.eqb token "jims-token" then Some jim else None;
     Routes.processChat :=
       fun _ _ _ => Normal {| Chatbot.action := "response";
                              Chatbot.body := "Done.";
                              Chatbot.data := None |};
     Routes.getGreeting :=
       fun username => match username with
                       | Some n => "Hello, " ++ n
                       | None => "Hello"
                       end;
     Routes.toString := fun _ => "2";
     Routes.typeErrorMessage := "TypeError" |}.

(** An authenticated request whose query is the empty string. *)
Definition emptyQuery : Routes.Request :=
  {| Routes.cookies_token := Some "jims-token";
     Routes.authorization := None;
     Routes.body_userId := JUndefined;
     Routes.body_query := JStr "" |}.

Definition catalog : list ChatbotService.Product :=
  [ {| ChatbotService.id := JNum (Fin 1); ChatbotService.name := "Apple Juice";
       ChatbotService.price := JNum (Fin 2); ChatbotService.description := JNull |};
    {| ChatbotService.id := JNum (Fin 2); ChatbotService.name := "Orange Juice";
       ChatbotService.price := JNum (Fin 3); ChatbotService.description := JNull |} ].

Definition serviceEnv : ChatbotService.Env :=
  {| ChatbotService.productService_search := fun _ => Normal catalog;
     ChatbotService.basketService_find := fun _ => Normal None;
     ChatbotService.basketService_save := fun _ _ _ => Normal tt;
     ChatbotService.sessionStorage_bid := Some "7";
     ChatbotService.Number := fun _ => Fin 7;
     ChatbotService.toString := fun _ => "1";
     ChatbotService.typeErrorMessage := "TypeError" |}.

(** The same service over a product search that returns the products
    whose name contains the criteria. *)
Definition searchByName (criteria : option string)
  : Completion (list ChatbotService.Product) :=
  Normal (List.filter
            (fun p => JsString.includes
                        (JsString.toLowerCase (ChatbotService.name p))
                        (JsString.toLowerCase (default "" criteria)))
            catalog).

Definition searchingEnv : ChatbotService.Env :=
  {| ChatbotService.productService_search := searchByName;
     ChatbotService.basketService_find := fun _ => Normal None;
     ChatbotService.basketService_save := fun _ _ _ => Normal tt;
     ChatbotService.sessionStorage_bid := Some "7";
     ChatbotService.Number := fun _ => Fin 7;
     ChatbotService.toString := fun _ => "1";
     ChatbotService.typeErrorMessage := "TypeError" |}.

(** The user messages "A", "B", "C", ... *)
Definition hello (i : nat) : History.Message :=
  {| History.role := History.user;
     History.content := String (ascii_of_nat (65 + i)) EmptyString;
     History.name := None |}.

End Sample.
(* ===================================================================== *)
(** ** The user an operation on the store is about                         *)
(* ===================================================================== *)

Module HistoryOps.
Import History.

(** The [userId] argument of the call. *)
Definition opUser (o : Op) : string :=
  match o with
  | OpAdd u _ | OpGet u | OpClear u | OpGetBase u | OpClearBase u
  | OpPersonalize u _ => u
  end.

(** A reset for a name that [Object.prototype] defines. *)
Definition resetsInherited (o : Op) : bool :=
  match o with
  | OpClear u | OpClearBase u =>
      JsString.arrayIncludes Js.objectPrototypeNames u
  | _ => false
  end.

(** Every stored history has at most [MAX_HISTORY_LENGTH + 1] entries. *)
Definition bounded (h : ConversationHistory) : Prop :=
  forall userId l, h !! userId = Some l -> length l <= MAX_HISTORY_LENGTH + 1.

End HistoryOps.

(* ===================================================================== *)
(** ** Code units and the events of a turn                                 *)
(* ===================================================================== *)

Module Chars.

(** The 256 code units of the embedding. *)
Definition allChars : list ascii := map ascii_of_nat (seq 0 256).

(** A string that is a word followed by one whitespace code unit and
    anything else, the word being [keyword] up to the case of its
    letters. *)
Definition startsWithWord (keyword s : string) : Prop :=
  exists word c rest,
    s = word ++ String c rest
    /\ JsString.toLowerCase word = keyword
    /\ RegExp.isSpace c = true.

End Chars.

Module ChatbotEvents.
Import Js Chatbot.

(** The user a call to a basket or profile tool is made for. *)
Definition eventUser (ev : Event) : option JsValue :=
  match ev with
  | EvGetUserInformation u | EvAddToBasket u _ _ | EvGetBasket u
  | EvRemoveFromBasket u _ _ => Some u
  | _ => None
  end.

End ChatbotEvents.

(* ===================================================================== *)
(** ** Product search ([extractSearchTerms], [getProductInformation])      *)
(* ===================================================================== *)

Module Catalog.
Import Js Chatbot.

Definition nl : string := String "010" EmptyString.

(** [arr.join(sep)] on an array of strings. *)
Definition join (sep : string) (arr : list string) : string :=
  String.concat sep arr.

(** [s.split(/\s+/)]: the pieces between maximal runs of whitespace; a
    run at either end of the string leaves an empty piece there. *)
Fixpoint splitWhitespace (s : string) : list string :=
  match s with
  | EmptyString => [EmptyString]
  | String c s' =>
      if RegExp.isSpace c then
        match s' with
        | String c' _ =>
            if RegExp.isSpace c' then splitWhitespace s'
            else EmptyString :: splitWhitespace s'
        | EmptyString => EmptyString :: splitWhitespace s'
        end
      else match splitWhitespace s' with
           | w :: ws => String c w :: ws
           | [] => [String c EmptyString]
           end
  end.

(** [s.trim()] *)
Fixpoint trimStart (s : string) : string :=
  match s with
  | String c s' => if RegExp.isSpace c then trimStart s' else s
  | EmptyString => EmptyString
  end.

Fixpoint trimEnd (s : string) : string :=
  match s with
  | String c s' =>
      match trimEnd s' with
      | EmptyString => if RegExp.isSpace c then EmptyString
                       else String c EmptyString
      | rest => String c rest
      end
  | EmptyString => EmptyString
  end.

Definition trim (s : string) : string := trimEnd (trimStart s).

(** [[...new Set(arr)]]: the first occurrence of each element, in
    order. *)
Definition uniq (arr : list string) : list string :=
  foldl (fun seen x =>
           if JsString.arrayIncludes seen x then seen else (seen ++ [x])%list)
        [] arr.

Definition stopWords : list string :=
  [ "the"; "a"; "an"; "and"; "or"; "but"; "in"; "on"; "at"; "to"; "for";
    "of"; "with"; "by"; "is"; "are"; "was"; "were"; "be"; "been"; "have";
    "has"; "had"; "do"; "does"; "did"; "will"; "would"; "could"; "should";
    "may"; "might"; "can"; "this"; "that"; "these"; "those"; "i"; "you";
    "he"; "she"; "it"; "we"; "they"; "me"; "him"; "her"; "us"; "them" ].

(** The own properties of the object literal [semanticVariations]. *)
Definition semanticVariations : list (string * list string) :=
  [ ("car", ["vehicle"; "hypercar"; "coyote"; "combat"]);
    ("cars", ["vehicle"; "hypercar"; "coyote"; "combat"]);
    ("vehicle", ["vehicle"; "hypercar"; "coyote"; "combat"]);
    ("vehicles", ["vehicle"; "hypercar"; "coyote"; "combat"]);
    ("luxury", ["premium"; "luxury"; "high-end"; "expensive"]);
    ("expensive", ["premium"; "luxury"; "high-end"]);
    ("cheap", ["budget"; "affordable"; "inexpensive"]);
    ("budget", ["budget"; "affordable"; "inexpensive"]);
    ("fast", ["speed"; "hypercar"; "sports"; "fast"]);
    ("fastest", ["speed"; "hypercar"; "sports"; "fast"]);
    ("neural", ["neural"; "cyber"; "brain"]);
    ("cyber", ["cyber"; "neural"; "digital"]);
    ("tech", ["technology"; "electronic"; "digital"; "smart"]);
    ("gadget", ["device"; "gadget"; "tool"; "equipment"]) ].

(** The properties an object literal inherits from [Object.prototype]:
    functions, and the prototype itself under [__proto__].  All are
    truthy and none is iterable. *)
Definition inheritedNames : list string := objectPrototypeNames.

(** [semanticVariations[word]] *)
Inductive Variation : Type :=
| Own (variations : list string)
| Inherited
| Absent.

Definition variationsOf (word : string) : Variation :=
  match List.find (fun kv => String.eqb (fst kv) word) semanticVariations with
  | Some kv => Own (snd kv)
  | None =>
      if JsString.arrayIncludes inheritedNames word then Inherited
      else Absent
  end.

(** [word => word.length > 2 && !stopWords.includes(word.toLowerCase())] *)
Definition meaningful (word : string) : bool :=
  (2 <? String.length word)
  && negb (JsString.arrayIncludes stopWords (JsString.toLowerCase word)).

Section WithEnv.
Variable env : Env.
(** [BASE_URL], from the process environment or the configuration. *)
Variable BASE_URL : string.

(** The loop [for (const word of words)]: spreading a value that is not
    iterable throws a [TypeError]. *)
Fixpoint expandTerms (words : list string) : Completion (list string) :=
  match words with
  | [] => Normal []
  | word :: words' =>
      match variationsOf word with
      | Inherited => Throw (typeErrorMessage env)
      | Own variations =>
          match expandTerms words' with
          | Normal rest => Normal (word :: variations ++ rest)%list
          | Throw e => Throw e
          end
      | Absent =>
          match expandTerms words' with
          | Normal rest => Normal (word :: rest)
          | Throw e => Throw e
          end
      end
  end.

(** [function extractSearchTerms(query)] *)
Definition extractSearchTerms (query : string) : Completion (list string) :=
  let words := List.filter meaningful (splitWhitespace query) in
  match expandTerms words with
  | Normal expandedTerms => Normal (uniq expandedTerms)
  | Throw e => Throw e
  end.

Definition generalQueries : list string :=
  [ "products"; "all products"; "what products"; "available";
    "merchandise"; "items"; "catalog" ].

(** The statement of a general query. *)
Definition sampleStatement : string :=
  join nl
    [ "";
      "        SELECT id, name, description, price, image ";
      "        FROM Products ";
      "        ORDER BY RANDOM() ";
      "        LIMIT 8";
      "      " ].

(** [`LOWER(name) LIKE '%${term}%' OR LOWER(description) LIKE '%${term}%'`] *)
Definition condition (term : string) : string :=
  "LOWER(name) LIKE '%" ++ term ++ "%' OR LOWER(description) LIKE '%"
  ++ term ++ "%'".

(** The statement of a search, [first] being [searchTerms[0]]. *)
Definition searchStatement (searchTerms : list string) (first : string)
  : string :=
  join nl
    [ "";
      "      SELECT id, name, description, price, image ";
      "      FROM Products ";
      "      WHERE (";
      "        " ++ join " OR " (map condition searchTerms);
      "      )";
      "      ORDER BY ";
      "        CASE ";
      "          WHEN LOWER(name) LIKE '%" ++ first ++ "%' THEN 1";
      "          WHEN LOWER(description) LIKE '%" ++ first ++ "%' THEN 2";
      "          ELSE 3";
      "        END,";
      "        price DESC";
      "      LIMIT 6";
      "    " ].

(** [p.column] on a row. *)
Definition column (p : Row) (k : string) : JsValue :=
  match List.find (fun kv => String.eqb (fst kv) k) p with
  | Some kv => snd kv
  | None => JUndefined
  end.

(** The object built from a row of a general query:
    [image: p.image || null]. *)
Definition sampleProduct (p : Row) : Row :=
  [ ("id", column p "id"); ("name", column p "name");
    ("description", column p "description"); ("price", column p "price");
    ("image", if truthy (column p "image") then column p "image" else JNull) ].

(** The object built from a row of a search:
    [image: p.image ? `${BASE_URL}/assets/public/images/products/${p.image}`
                    : null]. *)
Definition foundProduct (p : Row) : Row :=
  [ ("id", column p "id"); ("name", column p "name");
    ("description", column p "description"); ("price", column p "price");
    ("image", if truthy (column p "image")
              then JStr (BASE_URL ++ "/assets/public/images/products/"
                         ++ toString env (column p "image"))
              else JNull) ].

(** [!query || query.trim() === '' || generalQueries.some(...)] *)
Definition isGeneralQuery (query : string) : bool :=
  negb (JsString.nonEmpty query)
  || String.eqb (trim query) ""
  || existsb (fun q => JsString.includes (JsString.toLowerCase query) q)
             generalQueries.

(** [async function getProductInformation(query)].  A query that is not
    a string has no [toLowerCase] method. *)
Definition getProductInformation (query : JsValue)
  : Eff Event ProductInformation :=
  try_catch
    (match query with
     | JStr query =>
         let queryLower := JsString.toLowerCase query in
         if isGeneralQuery query then
           let* products :=
             call (EvSequelizeQuery sampleStatement SELECT)
                  (sequelize_select env sampleStatement) in
           ret (Products (map sampleProduct products))
         else
           match extractSearchTerms queryLower with
           | Throw e => ([], Throw e)
           | Normal [] => ret (Products [])
           | Normal ((first :: _) as searchTerms) =>
               let sqlQuery := searchStatement searchTerms first in
               let* products :=
                 call (EvSequelizeQuery sqlQuery SELECT)
                      (sequelize_select env sqlQuery) in
               ret (Products (map foundProduct products))
           end
     | _ => ([], Throw (typeErrorMessage env))
     end)
    (fun _ => ret (ProductsError "Failed to get product information")).

End WithEnv.

End Catalog.

(* ===================================================================== *)
(** ** A whole turn ([processChat] of the agent with the command tool)     *)
(* ===================================================================== *)

Module Turn.
Import Js Chatbot.

(** [response.data.choices[0].message] of the first request to the
    language model.  A tool call is the first entry of [tool_calls], with
    a function name and an argument text that are strings. *)
Inductive FirstReply : Type :=
| Unreachable                       (* axios.post rejects *)
| Unreadable                        (* there is no such message object *)
| Assistant (content : option string) (name : option string)
            (toolCall : option (string * string)).

(** A call made during the turn: one of the dispatcher's, or the first
    request to the language model, with the value sent as [messages]. *)
Inductive Call : Type :=
| Tool (ev : Event)
| LlmRequest (messages : History.Found).

(** What [processChat] resolves to: a response with a text body, or the
    response [{ action: 'response', body: null }] of a reply that has
    neither content nor tool call. *)
Inductive Answer : Type :=
| Reply (response : ChatResponse)
| ReplyWithoutBody.

Definition productRelatedTerms : list string :=
  [ "product"; "item"; "sell"; "price"; "cost"; "available"; "stock";
    "what do you have"; "what do you sell"; "merchandise"; "catalog" ].

(** [productRelatedTerms.some(term => query.toLowerCase().includes(term))] *)
Definition isProductQuery (query : string) : bool :=
  existsb (fun term => JsString.includes (JsString.toLowerCase query) term)
          productRelatedTerms.

Definition lift {A} (m : Eff Event A) : Eff Call A :=
  (map Tool (trace m), outcome m).

Definition apology : Answer := Reply Chatbot.apology.

Section WithEnv.
Variable env : Env.
Variable BASE_URL : string.
Variable LLM_API_KEY : string.
(** The first request to the language model, by the messages sent. *)
Variable llmFirst : History.Found -> FirstReply.
(** [JSON.parse] of an argument text; [None] when it throws. *)
Variable JSON_parse : string -> option Arguments.
(** [content.replace(pattern, replacement)] with a string pattern. *)
Variable replace : string -> string -> string -> string.

(** [p => `${p.name} - $${p.price}`] *)
Definition productLine (p : Row) : string :=
  toString env (Catalog.column p "name") ++ " - $"
  ++ toString env (Catalog.column p "price").

(** The reply of the direct product answer. *)
Definition productReply (products : list Row) : string :=
  let productList :=
    Catalog.join Catalog.nl (map productLine (take 5 products)) in
  let totalProducts := length products in
  if 5 <? totalProducts then
    "Here are some of our products:" ++ Catalog.nl ++ Catalog.nl
    ++ productList ++ Catalog.nl ++ Catalog.nl ++ "...and "
    ++ toString env (JNum (Fin (inject_Z (Z.of_nat (totalProducts - 5)))))
    ++ " more. Would you like more details about any specific product?"
  else
    "Here are our products:" ++ Catalog.nl ++ Catalog.nl
    ++ productList ++ Catalog.nl ++ Catalog.nl
    ++ "Would you like more details about any of these?".

Definition userMessage (query : string) : History.Message :=
  {| History.role := History.user; History.content := query;
     History.name := None |}.

Definition assistantMessage (content : string) (name : option string)
  : History.Message :=
  {| History.role := History.assistant; History.content := content;
     History.name := name |}.

(** [if (username && history.length === 1)
       history[0].content = history[0].content.replace(...)]: the store
    afterwards, or [None] when the assignment throws.  An inherited
    property of length 1 passes the test and has no entry 0, so that
    reading [history[0].content] throws a [TypeError]. *)
Definition customize (userId : string) (username : option string)
    (history : History.Found)
    (conversationHistories : History.ConversationHistory)
  : option History.ConversationHistory :=
  match username with
  | Some name =>
      if JsString.nonEmpty name then
        match history with
        | History.Messages [m] =>
            Some (History.personalize userId
                    (replace (History.content m) "<customer-name>" name)
                    conversationHistories)
        | History.Messages _ => Some conversationHistories
        | History.InheritedProperty property =>
            match inheritedLength property with
            | Some 1 => None
            | _ => Some conversationHistories
            end
        end
      else Some conversationHistories
  | None => Some conversationHistories
  end.

(** [processChat] from [getConversationHistory] on: the request to the
    model and what follows it.  [before] is the trace so far.  An
    exception ends the turn in the [catch] around the whole body, with
    the apology. *)
Definition askModel (userId query : string) (username : option string)
    (before : list Call)
    (conversationHistories : History.ConversationHistory)
  : History.ConversationHistory * Eff Call Answer :=
  let '(history, h1) := getConversationHistory env userId conversationHistories in
  match customize userId username history h1 with
  | None => (h1, (before, Normal apology))
  | Some h2 =>
  match addToConversationHistory env userId (userMessage query) h2 with
  | None => (h2, (before, Normal apology))
  | Some h3 =>
  let '(history, h4) := getConversationHistory env userId h3 in
  let t := (before ++ [LlmRequest history])%list in
  match llmFirst history with
  | Unreachable =>
      (h4, (t, Normal (Reply (response
         "Sorry, there was an error communicating with the AI service. Please try again later."
         None))))
  | Unreadable => (h4, (t, Normal apology))
  | Assistant content name toolCall =>
      match addToConversationHistory env userId
              (assistantMessage (default "" content) name) h4 with
      | None => (h4, (t, Normal apology))
      | Some h5 =>
      match toolCall with
      | Some (functionName, arguments) =>
          let '(h6, run) :=
            processChat_toolCall env userId functionName
                                 (JSON_parse arguments) h5 in
          (h6, ((t ++ map Tool (trace run))%list,
                match outcome run with
                | Normal r => Normal (Reply r)
                | Throw _ => Normal apology
                end))
      | None =>
          (h5, (t, Normal (match content with
                           | Some c => Reply (response c None)
                           | None => ReplyWithoutBody
                           end)))
      end
      end
  end
  end
  end.

(** [export async function processChat(userId, query, username)].  A
    query that is not a string has no [toLowerCase] method; the
    exception is caught by the [try] around the whole body.  An
    exception of the direct product answer is caught by the [try] around
    that answer, and the turn goes on with the language model. *)
Definition processChat (userId : string) (query : JsValue)
    (username : option string)
    (conversationHistories : History.ConversationHistory)
  : History.ConversationHistory * Eff Call Answer :=
  if negb (JsString.nonEmpty LLM_API_KEY) then
    (conversationHistories,
     ret (Reply (response
       "Sorry, I'm not properly configured at the moment. Please try again later or contact support."
       None)))
  else
    match query with
    | JStr q =>
        if isProductQuery q then
          let lookup := Catalog.getProductInformation env BASE_URL query in
          match outcome lookup with
          | Normal (Products ((_ :: _) as products)) =>
              let text := productReply products in
              match addToConversationHistory env userId (userMessage q)
                                             conversationHistories with
              | None =>
                  askModel userId q username (map Tool (trace lookup))
                           conversationHistories
              | Some h1 =>
              match addToConversationHistory env userId
                      (assistantMessage text None) h1 with
              | None =>
                  askModel userId q username (map Tool (trace lookup)) h1
              | Some h2 =>
                  (h2, (map Tool (trace lookup),
                        Normal (Reply
                          {| action := "response"; body := text;
                             data := Some (DataResult
                                       (OfProductInformation (Products products)))
                          |})))
              end
              end
          | _ =>
              askModel userId q username (map Tool (trace lookup))
                       conversationHistories
          end
        else askModel userId q username [] conversationHistories
    | _ => (conversationHistories, ret apology)
    end.

End WithEnv.

(** The operations of the agent with the command tool on its store:
    all but the read and the reset of the base agent. *)
Definition extendedOp (o : History.Op) : bool :=
  match o with
  | History.OpGetBase _ | History.OpClearBase _ => false
  | _ => true
  end.

(** Every stored history has at least two entries. *)
Definition greeted (h : History.ConversationHistory) : Prop :=
  forall userId l, h !! userId = Some l -> 2 <= length l.

End Turn.

(* ===================================================================== *)
(** ** The other chat routes                                               *)
(* ===================================================================== *)

Module ChatRoutes.
Import Js.

(** The fields of the request body the handlers read. *)
Record Body : Type := mkBody {
  message : JsValue;                   (* req.body.message *)
  role : JsValue                       (* req.body.role *)
}.

Inductive Json : Type :=
| ErrorJson (error : string)                      (* { error } *)
| StatusJson (status : bool) (body : string)      (* { status, body } *)
| RowJson (row : Chatbot.Row)                     (* a stored message *)
| RowsJson (rows : list Chatbot.Row)              (* an array of rows *)
| SuccessJson.                                    (* { success: true } *)

(** [res.status(s).json(j)] ([res.json(j)] is status 200) or
    [next(error)]. *)
Inductive Reply : Type :=
| Sent (status : nat) (json : Json)
| Next (error : string).

(** Calls to the message table. *)
Inductive Event : Type :=
| EvChatCreate (UserId message role : JsValue)
| EvChatFindAll (UserId : JsValue)
| EvChatDestroy (UserId : JsValue).

(** An entry of [security.authenticatedUsers]: [data] and, in it, [id]
    and [email]. *)
Record LoggedIn : Type := mkLoggedIn {
  data : option (JsValue * JsValue)    (* data.id, data.email *)
}.

(** [loggedInUser?.data?.email], when truthy, with [data.id]. *)
Definition authorized (loggedInUser : option LoggedIn) : option JsValue :=
  match loggedInUser with
  | Some {| data := Some (id, email) |} =>
      if truthy email then Some id else None
  | _ => None
  end.

Fixpoint dropString (n : nat) (s : string) : string :=
  match n, s with
  | S n', String _ s' => dropString n' s'
  | _, _ => s
  end.

(** [s.replace(pattern, '')] for a string pattern: the first occurrence
    is removed. *)
Fixpoint removeFirst (pattern s : string) : string :=
  if JsString.startsWith s pattern then dropString (String.length pattern) s
  else match s with
       | String c s' => String c (removeFirst pattern s')
       | EmptyString => EmptyString
       end.

(** [req.headers.authorization?.replace('Bearer ', '')] *)
Definition bearer (req : Routes.Request) : option string :=
  match Routes.authorization req with
  | Some header => Some (removeFirst "Bearer " header)
  | None => None
  end.

Section WithEnv.
Variable env : Routes.Env.
(** [chatbot.getChatbotStatus().available] and the configured name of
    the bot. *)
Variable available : bool.
Variable botName : string.
(** [chatbot.clearConversationHistory] *)
Variable clearConversationHistory :
  string -> History.ConversationHistory -> option History.ConversationHistory.
(** The message table. *)
Variable ChatModel_create : JsValue -> JsValue -> JsValue -> Completion Chatbot.Row.
Variable ChatModel_findAll : JsValue -> Completion (list Chatbot.Row).
Variable ChatModel_destroy : JsValue -> Completion unit.
(** [security.authenticatedUsers.get] *)
Variable authenticatedUsers_get : option string -> option LoggedIn.

(** The user of the request, as the handlers for signed-in users find
    it: [None] when there is no token or it resolves to no user. *)
Definition userOf (req : Routes.Request) : option Routes.User :=
  let token := Routes.tokenOf env req in
  if negb (Routes.hasToken token) then None
  else Routes.getUserFromJwt env (default "" token).

(** [export const status] *)
Definition status (req : Routes.Request) : Reply :=
  if negb available then
    Sent 200 (StatusJson false
      (botName ++ " isn't ready at the moment, please check the configuration."))
  else
    let token := Routes.tokenOf env req in
    if negb (Routes.hasToken token) then
      Sent 200 (StatusJson true
        ("Hi there! I'm " ++ botName
         ++ ". Sign in to continue our conversation."))
    else
      match Routes.getUserFromJwt env (default "" token) with
      | None => Sent 401 (ErrorJson "Unauthenticated user")
      | Some user =>
          Sent 200 (StatusJson true
                      (Routes.getGreeting env (Some (Routes.username user))))
      end.

(** [export const clearHistory]: the reply and the store afterwards
    ([None] as for [History.clearConversationHistory]). *)
Definition clearHistory (req : Routes.Request)
    (conversationHistories : History.ConversationHistory)
  : Reply * option History.ConversationHistory :=
  let token := Routes.tokenOf env req in
  if negb (Routes.hasToken token) then
    (Sent 401 (ErrorJson "Unauthenticated user"), Some conversationHistories)
  else
    match Routes.getUserFromJwt env (default "" token) with
    | None =>
        (Sent 401 (ErrorJson "Unauthenticated user"),
         Some conversationHistories)
    | Some user =>
        let userId := Routes.toString env (Routes.id user) in
        (Sent 200 (StatusJson true
                     (Routes.getGreeting env (Some (Routes.username user)))),
         clearConversationHistory userId conversationHistories)
    end.

(** [export const saveMessage] *)
Definition saveMessage (req : Routes.Request) (body : Body)
  : Eff Event Reply :=
  let token := Routes.tokenOf env req in
  if negb (Routes.hasToken token) then
    ret (Sent 401 (ErrorJson "Unauthenticated user"))
  else
    match Routes.getUserFromJwt env (default "" token) with
    | None => ret (Sent 401 (ErrorJson "Unauthenticated user"))
    | Some user =>
        if negb (truthy (message body)) || negb (truthy (role body)) then
          ret (Sent 400 (ErrorJson "Message and role are required"))
        else
          try_catch
            (let* chatMessage :=
               call (EvChatCreate (Routes.id user) (message body) (role body))
                    (ChatModel_create (Routes.id user) (message body)
                                      (role body)) in
             ret (Sent 200 (RowJson chatMessage)))
            (fun error => ret (Next error))
    end.

(** [export const getMessages] *)
Definition getMessages (req : Routes.Request) : Eff Event Reply :=
  let token := Routes.tokenOf env req in
  if negb (Routes.hasToken token) then
    ret (Sent 401 (ErrorJson "Unauthenticated user"))
  else
    match Routes.getUserFromJwt env (default "" token) with
    | None => ret (Sent 401 (ErrorJson "Unauthenticated user"))
    | Some user =>
        try_catch
          (let* messages :=
             call (EvChatFindAll (Routes.id user))
                  (ChatModel_findAll (Routes.id user)) in
           ret (Sent 200 (RowsJson messages)))
          (fun error => ret (Next error))
    end.

(** The handlers of routes/chat, which read the session from
    [security.authenticatedUsers]. *)
Definition sessionUserId (req : Routes.Request) : option JsValue :=
  authorized (authenticatedUsers_get (bearer req)).

Definition chat_getMessages (req : Routes.Request) : Eff Event Reply :=
  match sessionUserId req with
  | None => ret (Next "Unauthorized")
  | Some id =>
      try_catch
        (let* messages := call (EvChatFindAll id) (ChatModel_findAll id) in
         ret (Sent 200 (RowsJson messages)))
        (fun error => ret (Next error))
  end.

Definition chat_saveMessage (req : Routes.Request) (body : Body)
  : Eff Event Reply :=
  match sessionUserId req with
  | None => ret (Next "Unauthorized")
  | Some id =>
      try_catch
        (let* chatMessage :=
           call (EvChatCreate id (message body) (role body))
                (ChatModel_create id (message body) (role body)) in
         ret (Sent 200 (RowJson chatMessage)))
        (fun error => ret (Next error))
  end.

Definition chat_clearHistory (req : Routes.Request) : Eff Event Reply :=
  match sessionUserId req with
  | None => ret (Next "Unauthorized")
  | Some id =>
      try_catch
        (let* _destroyed := call (EvChatDestroy id) (ChatModel_destroy id) in
         ret (Sent 200 SuccessJson))
        (fun error => ret (Next error))
  end.

End WithEnv.

(** The user a call to the message table is about. *)
Definition eventUserId (ev : Event) : JsValue :=
  match ev with
  | EvChatCreate u _ _ | EvChatFindAll u | EvChatDestroy u => u
  end.

End ChatRoutes.

(* ===================================================================== *)
(** ** The storefront's service: a whole message ([sendMessage])           *)
(* ===================================================================== *)

Module ServiceTurn.
Import Js.

(** [a === b].  An array or an object is equal to itself only, and no
    value of the order history is a value of the request. *)
Definition strictEquals (a b : JsValue) : bool :=
  match a, b with
  | JUndefined, JUndefined | JNull, JNull => true
  | JBool x, JBool y => Bool.eqb x y
  | JNum (Fin p), JNum (Fin q) => Qeq_bool p q
  | JNum PosInf, JNum PosInf | JNum NegInf, JNum NegInf => true
  | JStr x, JStr y => String.eqb x y
  | _, _ => false
  end.

Record ProductSearchParams : Type := mkSearchParams {
  query : option string
}.

Record ProfileParams : Type := mkProfileParams {
  pf_action : JsValue;
  field : JsValue;
  value : JsValue
}.

Record OrderParams : Type := mkOrderParams {
  o_action : JsValue;
  o_orderId : JsValue
}.

Record CustomParams : Type := mkCustomParams {
  objective : JsValue
}.

Record ParsedParameters : Type := mkParsed {
  productSearch : option ProductSearchParams;
  basket : option ChatbotService.BasketParams;
  profile : option ProfileParams;
  order : option OrderParams;
  custom : option CustomParams
}.

Record Profile : Type := mkProfile {
  email : JsValue; username : JsValue; role : JsValue; isAdmin : JsValue;
  lastLoginIp : JsValue; profileImage : JsValue; deluxeToken : JsValue;
  totpEnabled : JsValue
}.

Record Order : Type := mkOrder {
  orderId : JsValue;
  delivered : JsValue;
  totalPrice : JsValue;
  products : list Chatbot.Row
}.

Inductive Action : Type :=
| DisplayProducts (products : list ChatbotService.Product)
| DisplayProfile (profile : Profile)
| DisplayOrder (id : JsValue) (status : string) (total : JsValue)
               (items : list Chatbot.Row)
| DisplayCustomResult (result : list Chatbot.Row)
| OfBasket (action : ChatbotService.Action).

Record Response : Type := mkResponse {
  text : string;
  error : option bool;
  success : option bool;
  requiresConfirmation : option bool;
  suggestions : option (list string);
  action : option Action
}.

Definition failure (t : string) : Response :=
  {| text := t; error := Some true; success := None;
     requiresConfirmation := None; suggestions := None; action := None |}.

Definition plain (t : string) (s : option (list string)) (a : option Action)
  : Response :=
  {| text := t; error := None; success := None;
     requiresConfirmation := None; suggestions := s; action := a |}.

Definition ofBasket (r : ChatbotService.ChatResponse) : Response :=
  {| text := ChatbotService.text r; error := ChatbotService.error r;
     success := ChatbotService.success r;
     requiresConfirmation := ChatbotService.requiresConfirmation r;
     suggestions := ChatbotService.suggestions r;
     action := option_map OfBasket (ChatbotService.action r) |}.

(** [this.context]: empty, or what the last message left. *)
Definition Context : Type := option (string * ParsedParameters * Response).

Inductive Event : Type :=
| EvSaveMessage (message role : string)   (* POST /rest/chatbot/messages *)
| EvClassifyIntent (message : string) (context : Context)
| EvParseParameters (message intentType : string) (context : Context)
| EvGenerateResponse (message : string) (context : Context)
| EvGenerateSQL (objective : JsValue)
| EvExecuteSql (sql : string)             (* POST /rest/chatbot/execute-sql *)
| EvWhoAmI
| EvUserSave (field value : JsValue)
| EvOrderHistory
| EvService (ev : ChatbotService.Event).

Record Env : Type := mkEnv {
  service : ChatbotService.Env;
  http_post_messages : string -> string -> Completion unit;
  (* an array of rows, or something that is not a non-empty array *)
  http_post_execute_sql : string -> Completion (option (list Chatbot.Row));
  llm_classifyIntent : string -> Context -> Completion string;
  llm_parseParameters : string -> string -> Context
                        -> Completion ParsedParameters;
  llm_generateResponse : string -> Context -> Completion string;
  llm_generateSQL : JsValue -> Completion string;
  userService_whoAmI : Completion (option Profile);
  userService_save : JsValue -> JsValue -> Completion unit;
  orderHistoryService_get : Completion (list Order)
}.

(** The same environment with another outcome of the posts to
    [/rest/chatbot/messages]. *)
Definition withPost (env : Env) (post : string -> string -> Completion unit)
  : Env :=
  {| service := service env;
     http_post_messages := post;
     http_post_execute_sql := http_post_execute_sql env;
     llm_classifyIntent := llm_classifyIntent env;
     llm_parseParameters := llm_parseParameters env;
     llm_generateResponse := llm_generateResponse env;
     llm_generateSQL := llm_generateSQL env;
     userService_whoAmI := userService_whoAmI env;
     userService_save := userService_save env;
     orderHistoryService_get := orderHistoryService_get env |}.

Definition lift {A} (m : Eff ChatbotService.Event A) : Eff Event A :=
  (map EvService (trace m), outcome m).

Section WithEnv.
Variable env : Env.

Local Abbreviation toString := (ChatbotService.toString (service env)).

Definition count {A} (l : list A) : string :=
  toString (JNum (Fin (inject_Z (Z.of_nat (length l))))).

(** [private async saveMessage(message)]: a failure is logged and
    nothing else. *)
Definition saveMessage (message role : string) : Eff Event unit :=
  try_catch
    (call (EvSaveMessage message role) (http_post_messages env message role))
    (fun _ => ret tt).

(** [private async handleProductSearch(params)] *)
Definition handleProductSearch (params : ProductSearchParams)
  : Eff Event Response :=
  try_catch
    (let query := match query params with
                  | Some q => q
                  | None => ""
                  end in
     let* products :=
       lift (call (ChatbotService.EvSearch (Some query))
                  (ChatbotService.productService_search (service env)
                     (Some query))) in
     match products with
     | [] =>
         ret (plain (if JsString.nonEmpty query
                     then "I couldn't find any products matching "
                          ++ ChatbotService.quote ++ query
                          ++ ChatbotService.quote ++ "."
                     else "I couldn't find any products.")
                    (Some ["View all products"; "Search by category"]) None)
     | _ :: _ =>
         ret (plain (if JsString.nonEmpty query
                     then "I found " ++ count products
                          ++ " products matching " ++ ChatbotService.quote
                          ++ query ++ ChatbotService.quote ++ ":"
                     else "Here are all " ++ count products
                          ++ " available products:")
                    None (Some (DisplayProducts products)))
     end)
    (fun _ => ret (failure "Sorry, I had trouble searching for products.")).

(** [private async handleProfileAction(params)] *)
Definition handleProfileAction (params : ProfileParams) : Eff Event Response :=
  if ChatbotService.strictEq (pf_action params) "view" then
    try_catch
      (let* profile := call EvWhoAmI (userService_whoAmI env) in
       match profile with
       | None => ret (failure "Sorry, I couldn't retrieve your profile.")
       | Some profile =>
           ret (plain "Here are your profile details:" None
                      (Some (DisplayProfile profile)))
       end)
      (fun _ => ret (failure "Sorry, I couldn't retrieve your profile."))
  else if ChatbotService.strictEq (pf_action params) "update"
          && truthy (field params) && truthy (value params) then
    try_catch
      ((* [{ [params.field]: params.value }]: the field is converted to
          a property name before the call *)
       if negb (convertible (field params)) then
         ([], Throw (ChatbotService.typeErrorMessage (service env)))
       else
       let* _saved :=
         call (EvUserSave (field params) (value params))
              (userService_save env (field params) (value params)) in
       ret {| text := "Updated your " ++ toString (field params)
                      ++ " successfully.";
              error := None; success := Some true;
              requiresConfirmation := None; suggestions := None;
              action := None |})
      (fun _ => ret (failure "Sorry, I couldn't update your profile."))
  else ret (failure "I'm not sure how to handle that profile action.").

(** [private async handleOrderQuery(params)] *)
Definition handleOrderQuery (params : OrderParams) : Eff Event Response :=
  try_catch
    (let* orders := call EvOrderHistory (orderHistoryService_get env) in
     if ChatbotService.strictEq (o_action params) "status"
        || ChatbotService.strictEq (o_action params) "details" then
       if negb (truthy (o_orderId params)) then
         ret (failure "Please provide an order ID.")
       else if negb (convertible (o_orderId params)) then
         (* both replies hold the text of the order id *)
         ([], Throw (ChatbotService.typeErrorMessage (service env)))
       else
         match List.find (fun o => strictEquals (orderId o) (o_orderId params))
                         orders with
         | None =>
             ret (failure ("I couldn't find order #"
                           ++ toString (o_orderId params) ++ "."))
         | Some order =>
             ret (plain ("Here are the details for order #"
                         ++ toString (o_orderId params) ++ ":")
                        None
                        (Some (DisplayOrder (orderId order)
                                 (if truthy (delivered order)
                                  then "Delivered" else "In Transit")
                                 (totalPrice order) (products order))))
         end
     else if ChatbotService.strictEq (o_action params) "track" then
       ret (failure "Order tracking is not implemented yet.")
     else ret (failure "I'm not sure how to handle that order action."))
    (fun _ =>
       ret (failure "Sorry, I had trouble retrieving order information.")).

(** [Object.entries(row).map(([key, value]) => `${key}: ${value}`)
      .join(', ')] *)
Definition formatRow (row : Chatbot.Row) : string :=
  Catalog.join ", "
    (map (fun kv => fst kv ++ ": " ++ toString (snd kv)) row).

(** [private async handleCustomAction(params)] *)
Definition handleCustomAction (params : CustomParams) : Eff Event Response :=
  try_catch
    (let* sql :=
       call (EvGenerateSQL (objective params))
            (llm_generateSQL env (objective params)) in
     let* results :=
       call (EvExecuteSql sql) (http_post_execute_sql env sql) in
     match results with
     | Some ((_ :: _) as results) =>
         ret (plain ("Here are the results:" ++ Catalog.nl
                     ++ Catalog.join Catalog.nl (map formatRow results))
                    None (Some (DisplayCustomResult results)))
     | _ =>
         ret (plain "No results found for your query."
                    (Some ["View Products"; "Check Orders"; "View Profile"])
                    None)
     end)
    (fun _ =>
       ret (failure "I apologize, but I couldn't fulfill your request. Please try being more specific or contact customer support for assistance.")).

(** [private async handleGeneralQuery(message)] *)
Definition handleGeneralQuery (message : string) (context : Context)
  : Eff Event Response :=
  try_catch
    (let* response :=
       call (EvGenerateResponse message context)
            (llm_generateResponse env message context) in
     ret (plain response None None))
    (fun _ =>
       ret (failure "I apologize, but I'm having trouble understanding. Could you rephrase that?")).

(** The [switch (intent.type)] of [sendMessage]. *)
Definition handleIntent (intentType message : string)
    (parameters : ParsedParameters) (context : Context)
  : Eff Event Response :=
  if String.eqb intentType "product_search" then
    handleProductSearch
      (default {| query := None |} (productSearch parameters))
  else if String.eqb intentType "basket" then
    let params :=
      default {| ChatbotService.p_action := JUndefined;
                 ChatbotService.productName := None;
                 ChatbotService.quantity := JUndefined |}
              (basket parameters) in
    let* r := lift (ChatbotService.handleBasketAction (service env) params) in
    ret (ofBasket r)
  else if String.eqb intentType "profile" then
    match profile parameters with
    | None =>
        ret (failure "I couldn't understand what you want to do with your profile.")
    | Some params => handleProfileAction params
    end
  else if String.eqb intentType "order" then
    match order parameters with
    | None =>
        ret (failure "I couldn't understand what you want to do with orders.")
    | Some params => handleOrderQuery params
    end
  else if String.eqb intentType "custom" then
    match custom parameters with
    | None => ret (failure "I couldn't understand your custom request.")
    | Some params => handleCustomAction params
    end
  else handleGeneralQuery message context.

(** [async sendMessage(message)]: the response and [this.context]
    afterwards. *)
Definition sendMessage (message : string) (context : Context)
  : Eff Event (Response * Context) :=
  try_catch
    (let* _stored := saveMessage message "user" in
     let* intentType :=
       call (EvClassifyIntent message context)
            (llm_classifyIntent env message context) in
     let* parameters :=
       call (EvParseParameters message intentType context)
            (llm_parseParameters env message intentType context) in
     let* response := handleIntent intentType message parameters context in
     let* _stored := saveMessage (text response) "assistant" in
     ret (response, Some (intentType, parameters, response)))
    (fun _ =>
       ret (failure "I apologize, but I encountered an error. Please try again.",
            context)).

End WithEnv.

End ServiceTurn.

(* ===================================================================== *)
(** ** The basket and profile tools, over the models they call             *)
(* ===================================================================== *)

Module BasketTools.
Import Js Chatbot.

Record UserRow : Type := mkUserRow {
  user_id : JsValue; user_email : JsValue; user_username : JsValue
}.

Record ProductRow : Type := mkProductRow {
  product_id : JsValue; product_name : JsValue;
  product_description : JsValue; product_price : JsValue;
  product_image : JsValue;
  product_quantity : option JsValue    (* product.BasketItem?.quantity *)
}.

Record BasketRow : Type := mkBasketRow {
  basket_id : JsValue;
  basket_Products : option (list ProductRow)
}.

Record ItemRow : Type := mkItemRow {
  quantity : JsValue
}.

(** Calls to the models.  An item found by [BasketItemModel.findOne] is
    named by the basket and the product it was asked for. *)
Inductive Event : Type :=
| UserFindByPk (id : JsValue)
| BasketFindOne (UserId : JsValue)
| BasketCreate (UserId : JsValue)
| ProductFindByPk (id : JsValue)
| BasketItemFindOne (BasketId ProductId : JsValue)
| BasketItemUpdate (BasketId ProductId quantity : JsValue)
| BasketItemCreate (BasketId ProductId quantity : JsValue)
| BasketItemDestroy (BasketId ProductId : JsValue).



Record Db : Type := mkDb {
  UserModel_findByPk : JsValue -> Completion (option UserRow);
  BasketModel_findOne : JsValue -> Completion (option BasketRow);
  BasketModel_create : JsValue -> Completion BasketRow;
  ProductModel_findByPk : JsValue -> Completion (option ProductRow);
  BasketItemModel_findOne : JsValue -> JsValue -> Completion (option ItemRow);
  basketItem_update : JsValue -> JsValue -> JsValue -> Completion unit;
  BasketItemModel_create : JsValue -> JsValue -> JsValue -> Completion unit;
  basketItem_destroy : JsValue -> JsValue -> Completion unit;
  (* the engine: [a + b] and [a - b] *)
  plus : JsValue -> JsValue -> JsValue;
  minus : JsValue -> JsValue -> JsNum
}.

(** [n <= 0] *)
Definition notPositive (n : JsNum) : bool :=
  match n with
  | NaN | PosInf => false
  | NegInf => true
  | Fin q => Qle_bool q 0
  end.

Section WithEnv.
Variable env : Env.
Variable db : Db.
Variable BASE_URL : string.

(** [parseInt(v, 10)] *)
Definition parseIntOf (v : JsValue) : JsNum :=
  match v with
  | JStr s => parseInt10 env s
  | _ => parseInt10 env (toString env v)
  end.

Definition isNaN (n : JsNum) : bool :=
  match n with NaN => true | _ => false end.

(** [typeof user.id === 'number' ? user.id
                                 : parseInt(String(user.id), 10)] *)
Definition numericIdOf (user : UserRow) : JsValue :=
  match user_id user with
  | JNum n => JNum n
  | v => JNum (parseInt10 env (toString env v))
  end.

(** [async function getUserInformation(userId)] *)
Definition getUserInformation (userId : JsValue) : Eff Event UserInformation :=
  try_catch
    (let* user := call (UserFindByPk userId) (UserModel_findByPk db userId) in
     match user with
     | None => ret (UserError "User not found")
     | Some user =>
         ret (UserInfo (user_id user) (user_email user) (user_username user))
     end)
    (fun _ => ret (UserError "Failed to get user information")).

(** The lookup of the user that [addToBasket] and [removeFromBasket]
    start with: the error to return, or [userIdToUse]. *)
Definition userIdToUse (notFound : string) (userId : JsValue)
  : Eff Event (BasketMutation + JsValue) :=
  let* user := call (UserFindByPk userId) (UserModel_findByPk db userId) in
  match user with
  | Some user => ret (inr (numericIdOf user))
  | None =>
      (* For numeric IDs, try direct conversion *)
      let numericUserId := parseIntOf userId in
      if negb (isNaN numericUserId) then
        let* numericUser :=
          call (UserFindByPk (JNum numericUserId))
               (UserModel_findByPk db (JNum numericUserId)) in
        match numericUser with
        | None => ret (inl (MutationError notFound None))
        | Some _ => ret (inr (JNum (parseIntOf userId)))
        end
      else ret (inl (MutationError notFound None))
  end.

(** The first statement of the basket tools writes their arguments to
    the log, which converts each of them to text. *)
Definition logged (arguments : list JsValue) : bool :=
  forallb convertible arguments.

(** [async function addToBasket(userId, productId, quantity)] *)
Definition addToBasket (userId productId quantity : JsValue)
  : Eff Event BasketMutation :=
  try_catch
    (if negb (logged [userId; productId; quantity]) then
       ([], Throw (typeErrorMessage env))
     else if negb (truthy userId) then
       ret (MutationError "User ID is required" None)
     else
       let* resolved :=
         userIdToUse "User not found - could not add item to basket" userId in
       match resolved with
       | inl error => ret error
       | inr userIdToUse =>
           (* Get or create basket for user *)
           let* found :=
             call (BasketFindOne userIdToUse)
                  (BasketModel_findOne db userIdToUse) in
           let* basket :=
             match found with
             | Some basket => ret (Some basket)
             | None =>
                 try_catch
                   (let* created :=
                      call (BasketCreate userIdToUse)
                           (BasketModel_create db userIdToUse) in
                    ret (Some created))
                   (fun _ => ret None)
             end in
           match basket with
           | None => ret (MutationError "Could not create basket" None)
           | Some basket =>
               let* product :=
                 call (ProductFindByPk productId)
                      (ProductModel_findByPk db productId) in
               match product with
               | None => ret (MutationError "Product not found" None)
               | Some product =>
                   let* basketItem :=
                     call (BasketItemFindOne (basket_id basket) productId)
                          (BasketItemModel_findOne db (basket_id basket)
                                                   productId) in
                   let* _written :=
                     match basketItem with
                     | Some basketItem =>
                         let newQuantity :=
                           plus db (BasketTools.quantity basketItem) quantity in
                         call (BasketItemUpdate (basket_id basket) productId
                                                newQuantity)
                              (basketItem_update db (basket_id basket)
                                                 productId newQuantity)
                     | None =>
                         call (BasketItemCreate (basket_id basket) productId
                                                quantity)
                              (BasketItemModel_create db (basket_id basket)
                                                      productId quantity)
                     end in
                   ret (Mutated ("Added " ++ toString env quantity ++ " x "
                                 ++ toString env (product_name product)
                                 ++ " to basket")
                                (basket_id basket))
               end
           end
       end)
    (fun message =>
       ret (MutationError ("Failed to add product to basket: " ++ message)
                          (Some false))).

(** [async function removeFromBasket(userId, productId, quantity = 1)] *)
Definition removeFromBasket (userId productId quantity : JsValue)
  : Eff Event BasketMutation :=
  let quantity :=
    match quantity with JUndefined => JNum (Fin 1) | _ => quantity end in
  try_catch
    (if negb (logged [userId; productId; quantity]) then
       ([], Throw (typeErrorMessage env))
     else if negb (truthy userId) then
       ret (MutationError "User ID is required" None)
     else
       let* resolved :=
         userIdToUse "User not found - could not remove item from basket"
                     userId in
       match resolved with
       | inl error => ret error
       | inr userIdToUse =>
           let* basket :=
             call (BasketFindOne userIdToUse)
                  (BasketModel_findOne db userIdToUse) in
           match basket with
           | None => ret (MutationError "Basket not found" None)
           | Some basket =>
               let* product :=
                 call (ProductFindByPk productId)
                      (ProductModel_findByPk db productId) in
               match product with
               | None => ret (MutationError "Product not found" None)
               | Some product =>
                   let* basketItem :=
                     call (BasketItemFindOne (basket_id basket) productId)
                          (BasketItemModel_findOne db (basket_id basket)
                                                   productId) in
                   match basketItem with
                   | None => ret (MutationError "Item not found in basket" None)
                   | Some basketItem =>
                       let newQuantity :=
                         minus db (BasketTools.quantity basketItem) quantity in
                       if notPositive newQuantity then
                         let* _destroyed :=
                           call (BasketItemDestroy (basket_id basket) productId)
                                (basketItem_destroy db (basket_id basket)
                                                    productId) in
                         ret (Mutated ("Removed "
                                       ++ toString env (product_name product)
                                       ++ " from basket")
                                      (basket_id basket))
                       else
                         let* _updated :=
                           call (BasketItemUpdate (basket_id basket) productId
                                                  (JNum newQuantity))
                                (basketItem_update db (basket_id basket)
                                                   productId (JNum newQuantity)) in
                         ret (Mutated ("Updated quantity of "
                                       ++ toString env (product_name product)
                                       ++ " to "
                                       ++ toString env (JNum newQuantity))
                                      (basket_id basket))
                   end
               end
           end
       end)
    (fun message =>
       ret (MutationError ("Failed to remove product from basket: " ++ message)
                          (Some false))).

(** [product => ({ id, name, description, price, image, quantity })] *)
Definition basketProduct (product : ProductRow) : BasketProduct :=
  {| bp_id := product_id product; bp_name := product_name product;
     bp_description := product_description product;
     bp_price := product_price product;
     bp_image :=
       if truthy (product_image product)
       then JStr (BASE_URL ++ "/assets/public/images/products/"
                  ++ toString env (product_image product))
       else JNull;
     bp_quantity :=
       match product_quantity product with
       | Some q => if truthy q then q else JNum (Fin 1)
       | None => JNum (Fin 1)
       end |}.

(** The part of [getBasket] that its two branches share: the basket of
    [userIdToUse]. *)
Definition basketOf (userIdToUse : JsValue) : Eff Event Basket :=
  let* basket :=
    call (BasketFindOne userIdToUse) (BasketModel_findOne db userIdToUse) in
  match basket with
  | None => ret (BasketContents JNull [] true "Your basket is empty")
  | Some basket =>
      let products :=
        map basketProduct (default [] (basket_Products basket)) in
      ret (BasketContents (basket_id basket) products
             (length products =? 0)
             (if 0 <? length products
              then "Your basket has "
                   ++ toString env
                        (JNum (Fin (inject_Z (Z.of_nat (length products)))))
                   ++ " product(s)"
              else "Your basket is empty"))
  end.

(** [async function getBasket(userId)] *)
Definition getBasket (userId : JsValue) : Eff Event Basket :=
  try_catch
    (if negb (logged [userId]) then
       ([], Throw (typeErrorMessage env))
     else if negb (truthy userId) then
       ret (BasketError "User ID is required" None)
     else
       let* user := call (UserFindByPk userId) (UserModel_findByPk db userId) in
       match user with
       | None =>
           if negb (isNaN (parseIntOf userId)) then
             let numericUserId := parseIntOf userId in
             let* numericUser :=
               call (UserFindByPk (JNum numericUserId))
                    (UserModel_findByPk db (JNum numericUserId)) in
             match numericUser with
             | None =>
                 ret (BasketError "User not found - could not retrieve basket"
                                  None)
             | Some _ => basketOf (JNum numericUserId)
             end
           else
             ret (BasketError "User not found - could not retrieve basket" None)
       | Some user => basketOf (numericIdOf user)
       end)
    (fun message =>
       ret (BasketError ("Failed to retrieve basket: " ++ message)
                        (Some false))).

End WithEnv.

End BasketTools.

(* ===================================================================== *)
(** ** Further sample environments                                         *)
(* ===================================================================== *)

Module Fixtures.
Import Js.

(** The sample shop with another SQL guardrail and another database. *)
Definition shop (guard : JsValue -> bool)
    (select : string -> Completion (list Chatbot.Row))
    (update : string -> Completion (JsValue * JsValue)) : Chatbot.Env :=
  {| Chatbot.getProductInformation :=
       Chatbot.getProductInformation Sample.chatbotEnv;
     Chatbot.getUserInformation := Chatbot.getUserInformation Sample.chatbotEnv;
     Chatbot.addToBasket := Chatbot.addToBasket Sample.chatbotEnv;
     Chatbot.removeFromBasket := Chatbot.removeFromBasket Sample.chatbotEnv;
     Chatbot.getBasket := Chatbot.getBasket Sample.chatbotEnv;
     Chatbot.security_generateCoupon :=
       Chatbot.security_generateCoupon Sample.chatbotEnv;
     Chatbot.security_isDatabaseOperationAllowed := guard;
     Chatbot.security_isSystemCommandAllowed :=
       Chatbot.security_isSystemCommandAllowed Sample.chatbotEnv;
     Chatbot.sequelize_select := select;
     Chatbot.sequelize_update := update;
     Chatbot.sequelize_select_array :=
       Chatbot.sequelize_select_array Sample.chatbotEnv;
     Chatbot.sequelize_update_array :=
       Chatbot.sequelize_update_array Sample.chatbotEnv;
     Chatbot.execAsync := Chatbot.execAsync Sample.chatbotEnv;
     Chatbot.llmFollowUp := Chatbot.llmFollowUp Sample.chatbotEnv;
     Chatbot.parseInt10 := Chatbot.parseInt10 Sample.chatbotEnv;
     Chatbot.stringToNumber := Chatbot.stringToNumber Sample.chatbotEnv;
     Chatbot.toString := Chatbot.toString Sample.chatbotEnv;
     Chatbot.typeErrorMessage := Chatbot.typeErrorMessage Sample.chatbotEnv;
     Chatbot.JSON_stringify := Chatbot.JSON_stringify Sample.chatbotEnv;
     Chatbot.LLM_SYSTEM_PROMPT := Chatbot.LLM_SYSTEM_PROMPT Sample.chatbotEnv;
     Chatbot.greeting := Chatbot.greeting Sample.chatbotEnv |}.

(** A guardrail that approves everything, a database that is down. *)
Definition approving : Chatbot.Env :=
  shop (fun _ => true)
       (Chatbot.sequelize_select Sample.chatbotEnv)
       (Chatbot.sequelize_update Sample.chatbotEnv).

Definition databaseDown : Chatbot.Env :=
  shop (fun _ => true)
       (fun _ => Throw "SQLITE_BUSY: database is locked")
       (fun _ => Throw "SQLITE_BUSY: database is locked").

(** A language model that answers in plain text. *)
Definition llmPlain : History.Found -> Turn.FirstReply :=
  fun _ => Turn.Assistant (Some "Hello! How can I help?") None None.

(** Argument texts that do not parse. *)
Definition parseNothing : string -> option Chatbot.Arguments :=
  fun _ => None.

(** Replacement of the first occurrence of [pattern], for replacement
    texts without a dollar sign. *)
Fixpoint replaceFirst (content pattern replacement : string) : string :=
  if JsString.startsWith content pattern then
    replacement ++ string_of_list_ascii
                     (drop (String.length pattern)
                           (list_ascii_of_string content))
  else match content with
       | String c content' =>
           String c (replaceFirst content' pattern replacement)
       | EmptyString => EmptyString
       end.

Definition BASE_URL : string := "http://localhost:3000".
Definition LLM_API_KEY : string := "sk-sample".

(** A turn in the sample shop. *)
Definition processChat :=
  Turn.processChat Sample.chatbotEnv BASE_URL LLM_API_KEY llmPlain
                   parseNothing replaceFirst.

(** Requests: one without a token, one with a bearer token. *)
Definition anonymous : Routes.Request :=
  {| Routes.cookies_token := None; Routes.authorization := None;
     Routes.body_userId := JUndefined; Routes.body_query := JStr "Hello" |}.

Definition withBearer : Routes.Request :=
  {| Routes.cookies_token := None;
     Routes.authorization := Some "Bearer jims-token";
     Routes.body_userId := JUndefined; Routes.body_query := JStr "Hello" |}.

Definition helloBody : ChatRoutes.Body :=
  {| ChatRoutes.message := JStr "Hello"; ChatRoutes.role := JStr "user" |}.

(** A message table that stores what it is given and holds nothing. *)
Definition storeMessage (UserId message role : JsValue)
  : Completion Chatbot.Row :=
  Normal [("UserId", UserId); ("message", message); ("role", role)].

Definition noMessages (UserId : JsValue) : Completion (list Chatbot.Row) :=
  Normal [].

Definition destroyMessages (UserId : JsValue) : Completion unit := Normal tt.

(** The sessions of [security.authenticatedUsers]: jim's. *)
Definition sessions (token : option string) : option ChatRoutes.LoggedIn :=
  match token with
  | Some t =>
      if String.eqb t "jims-token"
      then Some {| ChatRoutes.data :=
                     Some (JNum (Fin 2), JStr "jim@juice-sh.op") |}
      else None
  | None => None
  end.

(** The storefront's service with a message store that is offline and a
    language model that reads every message as a basket request. *)
Definition appleJuice : ChatbotService.BasketParams :=
  {| ChatbotService.p_action := JStr "add";
     ChatbotService.productName := Some "apple juice";
     ChatbotService.quantity := JUndefined |}.

Definition basketRequest : ServiceTurn.ParsedParameters :=
  {| ServiceTurn.productSearch := None;
     ServiceTurn.basket := Some appleJuice;
     ServiceTurn.profile := None;
     ServiceTurn.order := None;
     ServiceTurn.custom := None |}.

Definition orders : list ServiceTurn.Order :=
  [ {| ServiceTurn.orderId := JStr "5267-f73dcd000abcc353";
       ServiceTurn.delivered := JBool true;
       ServiceTurn.totalPrice := JNum (Fin 8);
       ServiceTurn.products := [] |};
    {| ServiceTurn.orderId := JStr "5267-829f123593e9d098";
       ServiceTurn.delivered := JBool false;
       ServiceTurn.totalPrice := JNum (Fin 26);
       ServiceTurn.products := [] |} ].

Definition storefront : ServiceTurn.Env :=
  {| ServiceTurn.service := Sample.serviceEnv;
     ServiceTurn.http_post_messages := fun _ _ => Throw "offline";
     ServiceTurn.http_post_execute_sql := fun _ => Normal None;
     ServiceTurn.llm_classifyIntent := fun _ _ => Normal "basket";
     ServiceTurn.llm_parseParameters := fun _ _ _ => Normal basketRequest;
     ServiceTurn.llm_generateResponse := fun _ _ => Normal "Hello!";
     ServiceTurn.llm_generateSQL := fun _ => Normal "SELECT 1";
     ServiceTurn.userService_whoAmI := Normal None;
     ServiceTurn.userService_save := fun _ _ => Normal tt;
     ServiceTurn.orderHistoryService_get := Normal orders |}.

(** A database with user 1, who has basket 4 holding two of product 9. *)
Definition db : BasketTools.Db :=
  {| BasketTools.UserModel_findByPk :=
       fun id => Normal (Some {| BasketTools.user_id := JNum (Fin 1);
                                 BasketTools.user_email := JStr "admin@juice-sh.op";
                                 BasketTools.user_username := JStr "admin" |});
     BasketTools.BasketModel_findOne :=
       fun _ => Normal (Some {| BasketTools.basket_id := JNum (Fin 4);
                                BasketTools.basket_Products := None |});
     BasketTools.BasketModel_create :=
       fun _ => Normal {| BasketTools.basket_id := JNum (Fin 5);
                          BasketTools.basket_Products := None |};
     BasketTools.ProductModel_findByPk :=
       fun id => Normal (Some {| BasketTools.product_id := id;
                                 BasketTools.product_name := JStr "Battery";
                                 BasketTools.product_description := JNull;
                                 BasketTools.product_price := JNum (Fin 10);
                                 BasketTools.product_image := JNull;
                                 BasketTools.product_quantity := None |});
     BasketTools.BasketItemModel_findOne :=
       fun _ _ => Normal (Some {| BasketTools.quantity := JNum (Fin 2) |});
     BasketTools.basketItem_update := fun _ _ _ => Normal tt;
     BasketTools.BasketItemModel_create := fun _ _ _ => Normal tt;
     BasketTools.basketItem_destroy := fun _ _ => Normal tt;
     BasketTools.plus :=
       fun a b => match a, b with
                  | JNum (Fin p), JNum (Fin q) => JNum (Fin (p + q))
                  | _, _ => JNum NaN
                  end;
     BasketTools.minus :=
       fun a b => match a, b with
                  | JNum (Fin p), JNum (Fin q) => Fin (p - q)
                  | _, _ => NaN
                  end |}.

End Fixtures.

(* ===================================================================== *)
(** * Properties                                                          *)
(* ===================================================================== *)

(** ** The matcher computes the matches *)

Section MatcherCorrect.
Import RegExp.
Variable input : list ascii.

Lemma Matches_range (r : regex) (i j : nat) :
  Matches input r i j -> i <= j /\ (i = j \/ j <= length input).
Proof.
  induction 1 as [i|p i c Hc Hp|r1 r2 i k j _ IH1 _ IH2|r i
                 |r i k j _ IH1 _ IH2| | |i H]; try lia.
  apply lookup_lt_Some in Hc. lia.
Qed.

Lemma star_ends_sound (r : regex) (f : nat -> list nat) :
  (forall i j, In j (f i) -> Matches input r i j) ->
  forall fuel i j, In j (star_ends f fuel i) -> Matches input (Star r) i j.
Proof.
  intros Hf. induction fuel as [|n IH]; intros i j; cbn [star_ends].
  - intros [<-|[]]. apply MStarNil.
  - intros [<-|H]; [apply MStarNil|].
    apply in_flat_map in H as (k & Hk & Hj).
    apply filter_In in Hk as [Hk _].
    eapply MStarCons; [apply Hf; exact Hk|apply IH; exact Hj].
Qed.

Lemma ends_sound (r : regex) :
  forall i j, In j (ends input r i) -> Matches input r i j.
Proof.
  induction r as [|p|r1 IH1 r2 IH2|r IH| | |]; intros i j; cbn [ends].
  - intros [<-|[]]. apply MEps.
  - destruct (input !! i) as [c|] eqn:E; [|intros []].
    destruct (p c) eqn:Hp; [|intros []].
    intros [<-|[]]. eapply MClass; eassumption.
  - intros H. apply in_flat_map in H as (k & Hk & Hj).
    eapply MSeq; [apply IH1; exact Hk|apply IH2; exact Hj].
  - apply star_ends_sound. exact IH.
  - destruct i; [|intros []]. intros [<-|[]]. apply MBol.
  - destruct (i =? length input) eqn:E; [|intros []].
    apply Nat.eqb_eq in E. subst i. intros [<-|[]]. apply MEol.
  - destruct (xorb _ _) eqn:E; [|intros []].
    intros [<-|[]]. apply MWordBoundary. exact E.
Qed.

Lemma star_ends_head (f : nat -> list nat) (fuel i : nat) :
  In i (star_ends f fuel i).
Proof. destruct fuel; left; reflexivity. Qed.

Lemma star_ends_mono (f : nat -> list nat) :
  forall fuel fuel' i j,
    fuel <= fuel' -> In j (star_ends f fuel i) -> In j (star_ends f fuel' i).
Proof.
  induction fuel as [|n IH]; intros fuel' i j Hle; cbn [star_ends].
  - intros [<-|[]]. apply star_ends_head.
  - destruct fuel' as [|n']; [lia|]. cbn [star_ends].
    intros [<-|H]; [left; reflexivity|]. right.
    apply in_flat_map in H as (k & Hk & Hj).
    apply in_flat_map. exists k. split; [exact Hk|].
    apply (IH n'); [lia|exact Hj].
Qed.

Lemma ends_complete (r : regex) (i j : nat) :
  Matches input r i j -> In j (ends input r i).
Proof.
  induction 1 as [i|p i c Hc Hp|r1 r2 i k j _ IH1 _ IH2|r i
                 |r i k j H1 IH1 _ IH2| | |i H]; cbn [ends].
  - left; reflexivity.
  - rewrite Hc, Hp. left; reflexivity.
  - apply in_flat_map. exists k. split; assumption.
  - apply star_ends_head.
  - cbn [ends] in IH2. apply Matches_range in H1 as [Hik Hk].
    destruct (Nat.eq_dec i k) as [->|Hne]; [exact IH2|].
    assert (Hlen : k <= length input) by lia.
    destruct (length input - i) as [|n] eqn:E; [lia|].
    cbn [star_ends]. right. apply in_flat_map. exists k. split.
    + apply filter_In. split; [exact IH1|]. apply Nat.ltb_lt. lia.
    + apply (star_ends_mono _ (length input - k)); [lia|exact IH2].
  - left; reflexivity.
  - rewrite Nat.eqb_refl. left; reflexivity.
  - rewrite H. left; reflexivity.
Qed.

(** The positions [ends] lists are exactly the ends of the matches. *)
Lemma ends_Matches (r : regex) (i j : nat) :
  In j (ends input r i) <-> Matches input r i j.
Proof. split; [apply ends_sound|apply ends_complete]. Qed.

End MatcherCorrect.

(** [test] holds exactly when the pattern matches somewhere in the
    string. *)
Lemma test_Matches (r : RegExp.regex) (s : string) :
  RegExp.test r s = true
  <-> exists i j, i <= length (list_ascii_of_string s)
                  /\ RegExp.Matches (list_ascii_of_string s) r i j.
Proof.
  unfold RegExp.test, RegExp.matchesAt. rewrite existsb_exists. split.
  - intros (i & Hi & H). apply in_seq in Hi.
    destruct (RegExp.ends _ r i) as [|j l] eqn:E; [discriminate|].
    exists i, j. split; [lia|]. apply ends_Matches. rewrite E. left; reflexivity.
  - intros (i & j & Hi & H). exists i. split; [apply in_seq; lia|].
    apply ends_Matches in H.
    destruct (RegExp.ends _ r i); [destruct H|reflexivity].
Qed.

(** ** Guardrail: deny wins over allow *)

Lemma existsb_true_intro {A} (f : A -> bool) (l : list A) (x : A) :
  In x l -> f x = true -> existsb f l = true.
Proof. intros Hin Hf. apply existsb_exists. exists x. split; assumption. Qed.

Lemma isQueryAllowed_true_inv (query : string) :
  Guardrail.isQueryAllowed query = true ->
  Guardrail.isAllowedPattern query = true
  /\ Guardrail.hasDisallowedPattern query = false
  /\ Guardrail.hasRestrictedTable query = false.
Proof.
  unfold Guardrail.isQueryAllowed.
  destruct (Guardrail.isAllowedPattern query); simpl; [|discriminate].
  destruct (Guardrail.hasDisallowedPattern query); [discriminate|].
  destruct (Guardrail.hasRestrictedTable query); [discriminate|].
  auto.
Qed.

(** C3.  A query that matches one of the deny patterns, or that names the
    restricted table after FROM or JOIN, is rejected by [isQueryAllowed],
    whatever the allow patterns say about it. *)
Theorem guardrail_deny_precedence (query : string) :
  (exists pattern, In pattern Guardrail.DISALLOWED_SQL_PATTERNS
                   /\ RegExp.test pattern query = true)
  \/ RegExp.test (Guardrail.fromTable "SecurityAnswers") query = true
  \/ RegExp.test (Guardrail.joinTable "SecurityAnswers") query = true ->
  Guardrail.isQueryAllowed query = false.
Proof.
  intros H.
  destruct (Guardrail.isQueryAllowed query) eqn:E; [|reflexivity].
  apply isQueryAllowed_true_inv in E as (_ & Hdeny & Hrestricted).
  destruct H as [(pattern & Hin & Hmatch) | H].
  - unfold Guardrail.hasDisallowedPattern in Hdeny.
    rewrite (existsb_true_intro _ _ pattern Hin Hmatch) in Hdeny.
    discriminate.
  - unfold Guardrail.hasRestrictedTable, Guardrail.RESTRICTED_TABLES in Hrestricted.
    simpl in Hrestricted.
    destruct H as [H | H]; rewrite H in Hrestricted;
      rewrite ?orb_true_r in Hrestricted; discriminate.
Qed.

(** A query that the first allow pattern accepts and that holds a UNION is
    rejected. *)
Lemma guardrail_deny_precedence_witness :
  Guardrail.isAllowedPattern
    "SELECT * FROM Users UNION SELECT answer FROM SecurityAnswers" = true
  /\ Guardrail.isQueryAllowed
       "SELECT * FROM Users UNION SELECT answer FROM SecurityAnswers" = false.
Proof.
  split; [vm_compute; reflexivity|].
  apply (guardrail_deny_precedence
           "SELECT * FROM Users UNION SELECT answer FROM SecurityAnswers").
  left. exists (RegExp.Seq (RegExp.lit_i "UNION") (RegExp.Plus RegExp.ws)).
  split; [simpl; tauto | vm_compute; reflexivity].
Defined.

(** Each deny keyword and each form of the restricted-table reference,
    inside a statement the allow patterns accept. *)
Example guardrail_denied_statements :
  forallb (fun q => Guardrail.isAllowedPattern q
                    && negb (Guardrail.isQueryAllowed q))
    [ "SELECT 1 FROM t; DROP TABLE Users";
      "SELECT 1 FROM t; alter table Users add c int";
      "SELECT 1 FROM t; CREATE TABLE x (a int)";
      "SELECT 1 FROM t; truncate table Users";
      "SELECT 1 FROM t; EXEC sp_who";
      "SELECT 1 FROM t UNION SELECT 2 FROM u";
      "SELECT BENCHMARK(1000000, MD5('a')) FROM t";
      "SELECT answer FROM SecurityAnswers";
      "SELECT * FROM Users u JOIN securityanswers s ON s.UserId = u.id" ]
  = true.
Proof. vm_compute. reflexivity. Qed.

(** Statements of the injection exercises pass. *)
Example guardrail_allowed_statements :
  forallb Guardrail.isQueryAllowed
    [ "SELECT * FROM Users WHERE email = 'admin@juice-sh.op' OR 1=1--";
      "select name from Products";
      "WITH t AS (SELECT 1) SELECT * FROM t";
      "SELECT * FROM Users LIMIT 1000" ]
  = true.
Proof. vm_compute. reflexivity. Qed.

(** ** Coupon tool: the discount is clamped *)

Section DispatcherFacts.
Import Js Chatbot.
Variable env : Env.

Lemma Math_max_10_bounds (d : JsNum) :
  d <> NaN ->
  num_le (Fin 10) (Math_max d (Fin 10)) /\ Math_max d (Fin 10) <> NaN.
Proof.
  intros Hd. destruct d as [| | |q]; simpl; try congruence.
  - split; [exact I|discriminate].
  - split; [apply Qle_refl|discriminate].
  - destruct (Qle_bool q 10) eqn:E; simpl.
    + split; [apply Qle_refl|discriminate].
    + split; [|discriminate].
      destruct (Qlt_le_dec 10 q) as [Hlt|Hle].
      * apply Qlt_le_weak. exact Hlt.
      * apply Qle_bool_iff in Hle. congruence.
Qed.

Lemma Math_min_20_bounds (x : JsNum) :
  num_le (Fin 10) x ->
  num_le (Fin 10) (Math_min x (Fin 20)) /\ num_le (Math_min x (Fin 20)) (Fin 20).
Proof.
  destruct x as [| | |q]; simpl; try tauto.
  - intros _. split; [discriminate|apply Qle_refl].
  - intros Hq. destruct (Qle_bool q 20) eqn:E; simpl.
    + split; [exact Hq|]. apply Qle_bool_iff. exact E.
    + split; [discriminate|apply Qle_refl].
Qed.

Lemma clamp_bounds (d : JsNum) :
  d <> NaN ->
  num_le (Fin 10) (Math_min (Math_max d (Fin 10)) (Fin 20))
  /\ num_le (Math_min (Math_max d (Fin 10)) (Fin 20)) (Fin 20).
Proof.
  intros Hd. apply Math_min_20_bounds. apply Math_max_10_bounds. exact Hd.
Qed.

Lemma generateCoupon_run (discount : JsValue) (d : JsNum) :
  ToNumber env discount = Normal d ->
  let safeDiscount := Math_min (Math_max d (Fin 10)) (Fin 20) in
  generateCoupon env discount
  = ([EvSecurityGenerateCoupon safeDiscount],
     match security_generateCoupon env safeDiscount with
     | Normal couponCode => Normal (CouponIssued couponCode safeDiscount)
     | Throw _ => Normal (CouponError "Failed to generate coupon")
     end).
Proof.
  intros Hd. unfold generateCoupon, try_catch, bind, call, ret.
  rewrite Hd. simpl.
  destruct (security_generateCoupon env _); reflexivity.
Qed.

(** A discount whose conversion to a number throws: no coupon. *)
Lemma generateCoupon_unconvertible (discount : JsValue) (m : string) :
  ToNumber env discount = Throw m ->
  generateCoupon env discount
  = ([], Normal (CouponError "Failed to generate coupon")).
Proof.
  intros Hd. unfold generateCoupon, try_catch, bind, call, ret.
  rewrite Hd. reflexivity.
Qed.

(** For a requested discount whose numeric value [d] is a number (finite
    or infinite), [generateCoupon] hands [min(max(d, 10), 20)] to the
    coupon generator and reports that same value as the discount of the
    coupon; the value lies between 10 and 20. *)
Lemma generateCoupon_clamps_numbers (requested : JsValue) (d : JsNum) :
  ToNumber env requested = Normal d ->
  d <> NaN ->
  let safeDiscount := Math_min (Math_max d (Fin 10)) (Fin 20) in
  num_le (Fin 10) safeDiscount /\ num_le safeDiscount (Fin 20)
  /\ trace (generateCoupon env requested)
     = [EvSecurityGenerateCoupon safeDiscount]
  /\ (forall couponCode discount,
        outcome (generateCoupon env requested)
        = Normal (CouponIssued couponCode discount) ->
        discount = safeDiscount).
Proof.
  intros Hn Hd safeDiscount.
  destruct (clamp_bounds _ Hd) as [Hlo Hhi].
  pose proof (generateCoupon_run requested d Hn) as Hrun. simpl in Hrun.
  fold safeDiscount in Hrun.
  repeat split; try assumption.
  - rewrite Hrun. reflexivity.
  - intros couponCode discount. rewrite Hrun. simpl.
    destruct (security_generateCoupon env safeDiscount); intros H;
      inversion H; reflexivity.
Qed.

(** C10 (the code departs from the claim).  A requested discount whose
    conversion to a number gives NaN, such as an absent argument or a
    text that is not a number, is not clamped: [Math.max] and [Math.min]
    return NaN, [generateCoupon] hands NaN to the coupon generator and,
    when that returns a code, issues a coupon whose discount is NaN, a
    value that is neither at least 10 nor at most 20.  The dispatcher
    passes the argument through unchanged, so a [generate_coupon] call
    whose arguments carry such a discount, or none, gets that coupon. *)
Theorem coupon_discount_nan_is_not_clamped (requested : JsValue)
    (couponCode : string) (parameters : gmap string JsValue) :
  ToNumber env requested = Normal NaN ->
  security_generateCoupon env NaN = Normal couponCode ->
  field parameters "discount" = requested ->
  generateCoupon env requested
  = ([EvSecurityGenerateCoupon NaN], Normal (CouponIssued couponCode NaN))
  /\ executeToolFunction env "generate_coupon" (ArgObject parameters)
     = ([EvSecurityGenerateCoupon NaN],
        Normal (OfCoupon (CouponIssued couponCode NaN)))
  /\ ~ num_le (Fin 10) NaN
  /\ ~ num_le NaN (Fin 20).
Proof.
  intros Hd Hcode Hp.
  assert (Hrun : generateCoupon env requested
                 = ([EvSecurityGenerateCoupon NaN],
                    Normal (CouponIssued couponCode NaN))).
  { rewrite (generateCoupon_run requested NaN Hd). cbn.
    rewrite Hcode. reflexivity. }
  split; [exact Hrun|]. split.
  - unfold executeToolFunction. cbn. rewrite Hp, Hrun. reflexivity.
  - split; intros H; exact H.
Qed.

End DispatcherFacts.

(** A [generate_coupon] call without a [discount] argument, in the
    sample shop. *)
Lemma coupon_discount_nan_is_not_clamped_witness :
  Chatbot.executeToolFunction Sample.chatbotEnv "generate_coupon"
    (Chatbot.ArgObject ∅)
  = ([Chatbot.EvSecurityGenerateCoupon Js.NaN],
     Js.Normal (Chatbot.OfCoupon (Chatbot.CouponIssued "n<MibgC7sn" Js.NaN))).
Proof.
  refine (proj1 (proj2 (coupon_discount_nan_is_not_clamped Sample.chatbotEnv
                          Js.JUndefined "n<MibgC7sn" ∅ _ _ _)));
    reflexivity.
Defined.

(** ** Dispatcher: the command tool *)

(** What [executeLinuxCommand] does with any command that has a text:
    one call to [exec], nothing before it. *)
Lemma executeLinuxCommand_run (env : Chatbot.Env) (command userId : Js.JsValue) :
  Js.convertible command = true ->
  Chatbot.executeLinuxCommand env command userId
  = ([Chatbot.EvExec command 30000%N],
     match Chatbot.execAsync env command 30000%N with
     | Js.Normal out =>
         Js.Normal (Chatbot.CommandOutput (fst out) (snd out)
           ("Command executed successfully: " ++ Chatbot.toString env command)
           "Command execution completed successfully")
     | Js.Throw message =>
         Js.Normal (Chatbot.CommandError
           ("Failed to execute Linux command: " ++ message)
           ("Command execution failed: " ++ Chatbot.toString env command))
     end).
Proof.
  intros Hc.
  unfold Chatbot.executeLinuxCommand, Js.try_catch, Js.bind, Js.call, Js.ret.
  rewrite Hc.
  destruct (Chatbot.execAsync env command 30000%N); reflexivity.
Qed.

(** With a command that has no text, it throws. *)
Lemma executeLinuxCommand_unconvertible (env : Chatbot.Env)
    (command userId : Js.JsValue) :
  Js.convertible command = false ->
  Chatbot.executeLinuxCommand env command userId
  = ([Chatbot.EvExec command 30000%N],
     Js.Throw (Chatbot.typeErrorMessage env)).
Proof.
  intros Hc. unfold Chatbot.executeLinuxCommand. rewrite Hc. reflexivity.
Qed.

Lemma executeToolFunction_command (env : Chatbot.Env)
    (parameters : gmap string Js.JsValue) :
  Js.convertible (Chatbot.field parameters "command") = true ->
  Chatbot.executeToolFunction env "execute_linux_command"
    (Chatbot.ArgObject parameters)
  = ([Chatbot.EvExec (Chatbot.field parameters "command") 30000%N],
     match Chatbot.execAsync env (Chatbot.field parameters "command") 30000%N with
     | Js.Normal out =>
         Js.Normal (Chatbot.OfCommand (Chatbot.CommandOutput (fst out) (snd out)
           ("Command executed successfully: "
            ++ Chatbot.toString env (Chatbot.field parameters "command"))
           "Command execution completed successfully"))
     | Js.Throw message =>
         Js.Normal (Chatbot.OfCommand (Chatbot.CommandError
           ("Failed to execute Linux command: " ++ message)
           ("Command execution failed: "
            ++ Chatbot.toString env (Chatbot.field parameters "command"))))
     end).
Proof.
  intros Hc. unfold Chatbot.executeToolFunction. simpl.
  rewrite (executeLinuxCommand_run _ _ _ Hc).
  unfold Js.try_catch, Js.bind, Js.ret.
  destruct (Chatbot.execAsync env _ _); reflexivity.
Qed.

(** The SQL tool, for comparison: the guardrail is asked first, and a
    statement it rejects never reaches the database. *)
Lemma executeSqlQuery_denied (env : Chatbot.Env) (query explanation : Js.JsValue) :
  Chatbot.security_isDatabaseOperationAllowed env query = false ->
  Chatbot.executeSqlQuery env query explanation
  = ([Chatbot.EvIsDatabaseOperationAllowed query],
     Js.Normal (Chatbot.SqlError
       "This query cannot be executed for security reasons. Only SELECT queries and safe UPDATE operations are allowed."
       explanation)).
Proof.
  intros H.
  unfold Chatbot.executeSqlQuery, Chatbot.isQueryAllowed,
    Js.try_catch, Js.bind, Js.call, Js.ret.
  rewrite H. reflexivity.
Qed.

(** C1 (the code departs from the claim).  The command tool, asked to run
    [shutdown -h now] in an environment whose command guardrail rejects
    that command: the trace holds the call to [exec] with the command and
    no consultation of the guardrail, and when [exec] succeeds the result
    is the command's output, not an error. *)
Theorem command_tool_runs_without_guardrail (env : Chatbot.Env)
    (stdout stderr : string) :
  Chatbot.security_isSystemCommandAllowed env (Js.JStr "shutdown -h now") = false ->
  Chatbot.execAsync env (Js.JStr "shutdown -h now") 30000%N
  = Js.Normal (stdout, stderr) ->
  let run :=
    Chatbot.executeToolFunction env "execute_linux_command"
      (Chatbot.ArgObject
         (<["command" := Js.JStr "shutdown -h now"]>
            (<["userId" := Js.JStr "1"]> ∅))) in
  Js.trace run = [Chatbot.EvExec (Js.JStr "shutdown -h now") 30000%N]
  /\ (forall command, ~ In (Chatbot.EvIsSystemCommandAllowed command) (Js.trace run))
  /\ Chatbot.error_of
       (match Js.outcome run with
        | Js.Normal r => r
        | Js.Throw m => Chatbot.DispatchError m
        end) = None.
Proof.
  intros _ Hexec run. subst run.
  assert (Hf : Chatbot.field
                 (<["command" := Js.JStr "shutdown -h now"]>
                    (<["userId" := Js.JStr "1"]> ∅)) "command"
               = Js.JStr "shutdown -h now").
  { unfold Chatbot.field. rewrite lookup_insert_eq. reflexivity. }
  rewrite executeToolFunction_command by (rewrite Hf; reflexivity).
  rewrite Hf, Hexec. simpl.
  split; [reflexivity|]. split; [|reflexivity].
  intros command [H|[]]. discriminate.
Qed.

(** The sample environment rejects the command, [exec] runs it. *)
Lemma command_tool_runs_without_guardrail_witness :
  let run :=
    Chatbot.executeToolFunction Sample.chatbotEnv "execute_linux_command"
      (Chatbot.ArgObject
         (<["command" := Js.JStr "shutdown -h now"]>
            (<["userId" := Js.JStr "1"]> ∅))) in
  Chatbot.security_isSystemCommandAllowed Sample.chatbotEnv
    (Js.JStr "shutdown -h now") = false
  /\ Js.trace run = [Chatbot.EvExec (Js.JStr "shutdown -h now") 30000%N].
Proof.
  split; [reflexivity|].
  apply (command_tool_runs_without_guardrail Sample.chatbotEnv "" "");
    reflexivity.
Defined.

(** ** Dispatcher: names outside the catalog *)

Lemma eqb_false_of_not_In (name tool : string) (catalog : list string) :
  ~ In name catalog -> In tool catalog -> String.eqb name tool = false.
Proof.
  intros Hnot Hin. apply String.eqb_neq. intros ->. exact (Hnot Hin).
Qed.

Ltac not_a_tool H :=
  repeat match goal with
  | |- context [String.eqb ?n ?t] =>
      rewrite (eqb_false_of_not_In n t _ H) by (simpl; tauto)
  end.

(** The line written to the log for the user-related tools only. *)
Lemma logUserId_other (env : Chatbot.Env) (functionName : string)
    (parameters : Chatbot.Arguments) :
  ~ In functionName Chatbot.userRelatedFunctions ->
  Chatbot.logUserId env functionName parameters = Js.ret tt.
Proof.
  intros H. unfold Chatbot.logUserId.
  destruct (JsString.arrayIncludes Chatbot.userRelatedFunctions functionName)
    eqn:E; [|reflexivity].
  exfalso. apply H. unfold JsString.arrayIncludes in E.
  apply existsb_exists in E as (x & Hx & Ex).
  apply String.eqb_eq in Ex. subst x. exact Hx.
Qed.

Lemma executeToolFunction_unknown (env : Chatbot.Env) (functionName : string)
    (parameters : Chatbot.Arguments) :
  ~ In functionName Chatbot.botTools ->
  Chatbot.executeToolFunction env functionName parameters
  = ([], Js.Normal (Chatbot.DispatchError
       ("Error executing function " ++ functionName ++ ": "
        ++ "Unknown function: " ++ functionName))).
Proof.
  intros H. unfold Chatbot.executeToolFunction.
  rewrite (logUserId_other env functionName parameters)
    by (intros Hu; apply H; revert Hu; simpl; tauto).
  not_a_tool H. reflexivity.
Qed.

Lemma ensureUserId_unknown (userId functionName : string)
    (parameters : Chatbot.Arguments) :
  ~ In functionName Chatbot.botTools ->
  Chatbot.ensureUserId userId functionName parameters = Some parameters.
Proof.
  intros H. unfold Chatbot.ensureUserId, JsString.arrayIncludes,
    Chatbot.userRelatedFunctions. simpl.
  not_a_tool H. reflexivity.
Qed.

Lemma immediateResponse_unknown (env : Chatbot.Env)
    (userId functionName : string) (r : Chatbot.ToolResult) :
  ~ In functionName Chatbot.botTools ->
  Js.trace (Chatbot.immediateResponse env userId functionName r) = []
  /\ exists o, Js.outcome (Chatbot.immediateResponse env userId functionName r)
               = Js.Normal o.
Proof.
  intros H. unfold Chatbot.immediateResponse.
  not_a_tool H. simpl.
  destruct (Chatbot.hasError r && _); simpl; eauto.
Qed.

(** C9.  A tool call whose name is not one of the names declared in
    [botTools] runs no tool: [executeToolFunction] makes no call at all and
    returns an object whose [error] field is set; the turn built around it
    ends with an ordinary response, having called nothing but, at most
    once, the language model for the follow-up. *)
Theorem unknown_tool_fails_closed (env : Chatbot.Env)
    (userId functionName : string) (parameters : Chatbot.Arguments)
    (conversationHistories : History.ConversationHistory) :
  ~ In functionName Chatbot.botTools ->
  let dispatched := Chatbot.executeToolFunction env functionName parameters in
  let turn :=
    snd (Chatbot.processChat_toolCall env userId functionName
           (Some parameters) conversationHistories) in
  Js.trace dispatched = []
  /\ (exists r, Js.outcome dispatched = Js.Normal r
                /\ Chatbot.error_of r
                   = Some ("Error executing function " ++ functionName
                           ++ ": Unknown function: " ++ functionName)
                /\ Chatbot.hasError r = true)
  /\ (exists response, Js.outcome turn = Js.Normal response)
  /\ (forall ev, In ev (Js.trace turn) ->
        exists messages, ev = Chatbot.EvLlmFollowUp messages)
  /\ length (Js.trace turn) <= 1.
Proof.
  intros H dispatched turn. subst dispatched turn.
  rewrite (executeToolFunction_unknown env functionName parameters H).
  split; [reflexivity|].
  split; [eexists; repeat split; reflexivity|].
  unfold Chatbot.processChat_toolCall.
  rewrite (ensureUserId_unknown userId functionName parameters H).
  rewrite (executeToolFunction_unknown env functionName parameters H).
  cbn [Js.outcome Js.trace fst snd].
  destruct (immediateResponse_unknown env userId functionName
              (Chatbot.DispatchError
                 ("Error executing function " ++ functionName ++ ": "
                  ++ "Unknown function: " ++ functionName)) H)
    as [Ht [o Ho]].
  rewrite Ho, Ht.
  destruct o as [r|].
  - cbn. split; [eauto|]. split; [intros ev []|lia].
  - destruct (Chatbot.addToConversationHistory env userId _ _) as [h1|];
      [|cbn; split; [eauto|]; split; [intros ev []|lia]].
    destruct (Chatbot.getConversationHistory env userId h1)
      as [[history|property] h2];
      [|cbn; split; [eauto|]; split; [intros ev []|lia]].
    destruct (Chatbot.llmFollowUp env _); cbn;
      try destruct (Chatbot.addToConversationHistory env userId _ h2); cbn;
      (split; [eauto|]); (split; [|lia]);
      intros ev [<-|[]]; eauto.
Qed.

(** A name the model may invent. *)
Lemma unknown_tool_fails_closed_witness :
  Js.trace (Chatbot.executeToolFunction Sample.chatbotEnv "delete_all_users"
              (Chatbot.ArgObject ∅))
  = []
  /\ length (Js.trace (snd (Chatbot.processChat_toolCall Sample.chatbotEnv
                              "1" "delete_all_users"
                              (Some (Chatbot.ArgObject ∅)) ∅))) <= 1.
Proof.
  assert (H : ~ In "delete_all_users" Chatbot.botTools).
  { simpl. intros [H|[H|[H|[H|[H|[H|[H|[H|[]]]]]]]]]; discriminate H. }
  pose proof (unknown_tool_fails_closed Sample.chatbotEnv "1"
                "delete_all_users" (Chatbot.ArgObject ∅) ∅ H)
    as (Ht & _ & _ & _ & Hlen).
  split; [exact Ht | exact Hlen].
Defined.

(** ** Dispatcher: whose basket, whose profile *)

(** For the three names of [userRelatedFunctions], the [userId] the tool
    receives is the session's. *)
Lemma ensureUserId_session (userId functionName : string)
    (parameters : Chatbot.Arguments) :
  In functionName Chatbot.userRelatedFunctions ->
  Chatbot.ensureUserId userId functionName parameters = None
  \/ exists fields,
       Chatbot.ensureUserId userId functionName parameters
       = Some (Chatbot.ArgObject fields)
       /\ Chatbot.field fields "userId" = Js.JStr userId.
Proof.
  intros H. unfold Chatbot.ensureUserId.
  assert (E : JsString.arrayIncludes Chatbot.userRelatedFunctions functionName
              = true).
  { apply existsb_exists. exists functionName. split; [exact H|].
    apply String.eqb_refl. }
  rewrite E. destruct parameters as [| |fields]; [left; reflexivity..|].
  right. eexists. split; [reflexivity|].
  unfold Chatbot.field. rewrite lookup_insert_eq. reflexivity.
Qed.

(** For those three names the dispatch does not depend on the [userId]
    the model proposed. *)
Lemma toolCall_ignores_proposed_userId (env : Chatbot.Env)
    (userId functionName : string) (proposed : Js.JsValue)
    (parameters : gmap string Js.JsValue) :
  In functionName Chatbot.userRelatedFunctions ->
  Chatbot.ensureUserId userId functionName
    (Chatbot.ArgObject (<["userId" := proposed]> parameters))
  = Chatbot.ensureUserId userId functionName (Chatbot.ArgObject parameters).
Proof.
  intros H. unfold Chatbot.ensureUserId.
  assert (E : JsString.arrayIncludes Chatbot.userRelatedFunctions functionName
              = true).
  { apply existsb_exists. exists functionName. split; [exact H|].
    apply String.eqb_refl. }
  rewrite E. rewrite insert_insert_eq. reflexivity.
Qed.

(** C2 (the code departs from the claim).  In the session of user 1, a
    tool call [remove_from_basket] that names user 2: the arguments reach
    the dispatcher unchanged, and the first call of the turn is
    [removeFromBasket] on the basket of user 2. *)
Theorem remove_from_basket_keeps_proposed_userId (env : Chatbot.Env)
    (conversationHistories : History.ConversationHistory) :
  let parameters : gmap string Js.JsValue :=
    <["userId" := Js.JStr "2"]>
      (<["productId" := Js.JNum (Js.Fin 1)]>
         (<["quantity" := Js.JNum (Js.Fin 1)]> ∅)) in
  Chatbot.ensureUserId "1" "remove_from_basket" (Chatbot.ArgObject parameters)
  = Some (Chatbot.ArgObject parameters)
  /\ head (Js.trace (snd (Chatbot.processChat_toolCall env "1"
                            "remove_from_basket"
                            (Some (Chatbot.ArgObject parameters))
                            conversationHistories)))
     = Some (Chatbot.EvRemoveFromBasket (Js.JStr "2") (Js.JNum (Js.Fin 1))
                                         (Js.JNum (Js.Fin 1))).
Proof.
  intros parameters. split; [reflexivity|].
  unfold Chatbot.processChat_toolCall.
  change (Chatbot.ensureUserId "1" "remove_from_basket"
            (Chatbot.ArgObject parameters))
    with (Some (Chatbot.ArgObject parameters)).
  cbv beta iota.
  assert (Hrun :
    Chatbot.executeToolFunction env "remove_from_basket"
      (Chatbot.ArgObject parameters)
    = ([Chatbot.EvRemoveFromBasket (Js.JStr "2") (Js.JNum (Js.Fin 1))
                                    (Js.JNum (Js.Fin 1))],
       Js.Normal (Chatbot.OfRemoveFromBasket
         (Chatbot.removeFromBasket env (Js.JStr "2") (Js.JNum (Js.Fin 1))
                                   (Js.JNum (Js.Fin 1)))))).
  { reflexivity. }
  rewrite Hrun. cbn [Js.outcome Js.trace fst snd].
  destruct (Js.outcome (Chatbot.immediateResponse env "1" "remove_from_basket" _))
    as [[r|]|message]; try reflexivity.
  destruct (Chatbot.addToConversationHistory env "1" _ _) as [h1|];
    [|reflexivity].
  destruct (Chatbot.getConversationHistory env "1" h1)
    as [[history|property] h2]; [|reflexivity].
  destruct (Chatbot.llmFollowUp env _); try reflexivity.
  destruct (Chatbot.addToConversationHistory env "1" _ h2); reflexivity.
Qed.

(** ** Routes: a request without a query *)

(** C8 (the code departs from the claim).  [respond], for a caller whose
    token resolves to a user and whose query is falsy (absent, null or the
    empty string), answers with status 200 and the greeting.  [process],
    the handler for any caller, answers the same body with status 400. *)
Theorem respond_without_query_greets (env : Routes.Env) (req : Routes.Request)
    (token : string) (user : Routes.User) :
  Routes.tokenOf env req = Some token ->
  JsString.nonEmpty token = true ->
  Routes.getUserFromJwt env token = Some user ->
  Js.truthy (Routes.body_query req) = false ->
  Routes.respond env req
  = Routes.Sent 200
      (Routes.ChatJson
         {| Chatbot.action := "response";
            Chatbot.body := Routes.getGreeting env (Some (Routes.username user));
            Chatbot.data := None |})
  /\ Routes.process env req = Routes.Sent 400 (Routes.ErrorJson "No query provided").
Proof.
  intros Htoken Hnonempty Huser Hquery.
  unfold Routes.respond, Routes.process.
  rewrite Htoken. simpl. rewrite Hnonempty. simpl.
  rewrite Huser, Hquery. simpl. split; reflexivity.
Qed.

(** The authenticated request with the empty query of the API test. *)
Lemma respond_without_query_greets_witness :
  Routes.respond Sample.routesEnv Sample.emptyQuery
  = Routes.Sent 200
      (Routes.ChatJson
         {| Chatbot.action := "response"; Chatbot.body := "Hello, jim";
            Chatbot.data := None |}).
Proof.
  apply (respond_without_query_greets Sample.routesEnv Sample.emptyQuery
           "jims-token" Sample.jim); reflexivity.
Defined.

(** ** History window *)

Section HistoryFacts.
Import History.
Variable LLM_SYSTEM_PROMPT greeting : string.

Local Open Scope list_scope.

Local Abbreviation add := (addToConversationHistory LLM_SYSTEM_PROMPT).

Lemma window_length (l : list Message) :
  length (window l) <= MAX_HISTORY_LENGTH.
Proof. unfold window. rewrite length_drop. unfold MAX_HISTORY_LENGTH. lia. Qed.

Lemma window_short (l : list Message) :
  length l <= MAX_HISTORY_LENGTH -> window l = l.
Proof.
  intros H. unfold window.
  replace (length l - MAX_HISTORY_LENGTH) with 0 by lia. reflexivity.
Qed.

Lemma window_long (l : list Message) :
  MAX_HISTORY_LENGTH <= length l -> length (window l) = MAX_HISTORY_LENGTH.
Proof. intros H. unfold window. rewrite length_drop. lia. Qed.

(** Appending to a window and cutting again is cutting the whole. *)
Lemma window_app (l k : list Message) :
  window (window l ++ k) = window (l ++ k).
Proof.
  unfold window.
  rewrite <- (drop_app_le l k (length l - MAX_HISTORY_LENGTH)) by lia.
  rewrite drop_drop. f_equal.
  rewrite !length_app, length_drop, !length_app. lia.
Qed.

(** The value found under a name that has just been assigned. *)
Lemma stored_insert (userId : string) (l : list Message)
    (h : ConversationHistory) :
  stored userId (<[userId := l]> h) = Own l.
Proof. unfold stored. rewrite lookup_insert_eq. reflexivity. Qed.

Lemma stored_own (userId : string) (l : list Message)
    (h : ConversationHistory) :
  h !! userId = Some l -> stored userId h = Own l.
Proof. intros H. unfold stored. rewrite H. reflexivity. Qed.

Lemma stored_own_inv (userId : string) (l : list Message)
    (h : ConversationHistory) :
  stored userId h = Own l -> h !! userId = Some l.
Proof.
  unfold stored. destruct (h !! userId); [congruence|].
  destruct (JsString.arrayIncludes _ _); discriminate.
Qed.

Lemma stored_not_own (userId : string) (h : ConversationHistory) :
  (forall l, stored userId h <> Own l) -> h !! userId = None.
Proof.
  intros H. destruct (h !! userId) as [l|] eqn:E; [|reflexivity].
  destruct (H l). apply stored_own. exact E.
Qed.

Lemma current_None (userId : string) (h : ConversationHistory) :
  current LLM_SYSTEM_PROMPT userId h = None <-> stored userId h = Inherited.
Proof.
  unfold current. destruct (stored userId h); split; congruence.
Qed.

Lemma current_insert (userId : string) (l : list Message)
    (h : ConversationHistory) :
  current LLM_SYSTEM_PROMPT userId (<[userId := l]> h) = Some l.
Proof. unfold current. rewrite stored_insert. reflexivity. Qed.

(** The store after a push: the first entry stays, the rest is the
    window of the old rest followed by the new message. *)
Lemma push_spec (userId : string) (message : Message)
    (h : ConversationHistory) (s : Message) (rest : list Message) :
  push userId message (s :: rest) h
  = <[userId := s :: window (rest ++ [message])]> h.
Proof.
  unfold push, window.
  change ((s :: rest) ++ [message]) with (s :: (rest ++ [message])).
  set (tail := rest ++ [message]).
  cbn [length].
  destruct (MAX_HISTORY_LENGTH + 1 <? S (length tail)) eqn:E.
  - apply Nat.ltb_lt in E. unfold MAX_HISTORY_LENGTH in *.
    replace (S (length tail) - 10) with (S (length tail - 10)) by lia.
    reflexivity.
  - apply Nat.ltb_ge in E. unfold MAX_HISTORY_LENGTH in *.
    replace (length tail - 10) with 0 by lia. reflexivity.
Qed.

(** An append pushes onto the current array, and throws when there is
    none. *)
Lemma add_current (userId : string) (message : Message)
    (h : ConversationHistory) :
  add userId message h
  = option_map (fun l => push userId message l h)
               (current LLM_SYSTEM_PROMPT userId h).
Proof.
  unfold addToConversationHistory, current.
  destruct (stored userId h); reflexivity.
Qed.

Lemma add_spec (userId : string) (message : Message)
    (h : ConversationHistory) (s : Message) (rest : list Message) :
  current LLM_SYSTEM_PROMPT userId h = Some (s :: rest) ->
  add userId message h
  = Some (<[userId := s :: window (rest ++ [message])]> h).
Proof.
  intros Hc. rewrite add_current, Hc. cbn. rewrite push_spec. reflexivity.
Qed.

Lemma add_inherited (userId : string) (message : Message)
    (h : ConversationHistory) :
  stored userId h = Inherited <-> add userId message h = None.
Proof.
  rewrite add_current, <- current_None.
  destruct (current LLM_SYSTEM_PROMPT userId h); cbn; split; congruence.
Qed.

(** The store after several appends. *)
Lemma appendAll_spec (userId : string) (messages : list Message) :
  forall (h : ConversationHistory) (s : Message) (rest : list Message),
  current LLM_SYSTEM_PROMPT userId h = Some (s :: rest) ->
  length rest <= MAX_HISTORY_LENGTH ->
  exists h',
    appendAll LLM_SYSTEM_PROMPT userId messages h = Some h'
    /\ current LLM_SYSTEM_PROMPT userId h'
       = Some (s :: window (rest ++ messages))
    /\ (messages <> [] ->
        h' !! userId = Some (s :: window (rest ++ messages)))
    /\ (forall other, other <> userId -> h' !! other = h !! other).
Proof.
  induction messages as [|m ms IH]; intros h s rest Hc Hlen.
  - exists h. cbn. rewrite app_nil_r, window_short by exact Hlen.
    split; [reflexivity|]. split; [exact Hc|]. split; [congruence|].
    reflexivity.
  - cbn [appendAll]. rewrite (add_spec _ _ _ _ _ Hc).
    destruct (IH (<[userId := s :: window (rest ++ [m])]> h) s
                 (window (rest ++ [m])))
      as (h' & Happ & Hcur & Hsto & Hother).
    + apply current_insert.
    + apply window_length.
    + rewrite window_app, <- app_assoc in Hcur, Hsto. cbn [app] in Hcur, Hsto.
      exists h'. split; [exact Happ|]. split; [exact Hcur|].
      split.
      * intros _. destruct ms as [|m' ms'].
        -- cbn in Happ. injection Happ as <-.
           rewrite lookup_insert_eq. reflexivity.
        -- apply Hsto. discriminate.
      * intros other Hne. rewrite (Hother other Hne).
        apply lookup_insert_ne. congruence.
Qed.

Lemma appendAll_cons (userId : string) (m : Message) (ms : list Message)
    (h : ConversationHistory) (s : Message) (rest : list Message) :
  current LLM_SYSTEM_PROMPT userId h = Some (s :: rest) ->
  exists h',
    appendAll LLM_SYSTEM_PROMPT userId (m :: ms) h = Some h'
    /\ h' !! userId = Some (s :: window (rest ++ m :: ms))
    /\ (forall other, other <> userId -> h' !! other = h !! other).
Proof.
  intros Hc. cbn [appendAll]. rewrite (add_spec _ _ _ _ _ Hc).
  destruct (appendAll_spec userId ms
              (<[userId := s :: window (rest ++ [m])]> h) s
              (window (rest ++ [m])))
    as (h' & Happ & Hcur & Hsto & Hother).
  - apply current_insert.
  - apply window_length.
  - rewrite window_app, <- app_assoc in Hsto. cbn [app] in Hsto.
    exists h'. split; [exact Happ|]. split.
    + destruct ms as [|m' ms'].
      * cbn in Happ. injection Happ as <-.
        rewrite lookup_insert_eq. reflexivity.
      * apply Hsto. discriminate.
    + intros other Hne. rewrite (Hother other Hne).
      apply lookup_insert_ne. congruence.
Qed.

Lemma appendAll_inherited (userId : string) (m : Message)
    (messages : list Message) (h : ConversationHistory) :
  stored userId h = Inherited ->
  appendAll LLM_SYSTEM_PROMPT userId (m :: messages) h = None.
Proof.
  intros H. cbn [appendAll].
  apply (add_inherited userId m) in H. rewrite H. reflexivity.
Qed.

(** The invariant holds of the empty store and is kept by every
    operation on the store. *)
Lemma wellFormed_empty : wellFormed ∅.
Proof. intros u h H. rewrite lookup_empty in H. discriminate. Qed.

Lemma wellFormed_insert (h : ConversationHistory) (userId : string)
    (s : Message) (rest : list Message) :
  wellFormed h -> role s = system -> wellFormed (<[userId := s :: rest]> h).
Proof.
  intros Hwf Hs u l. destruct (decide (userId = u)) as [->|Hne].
  - rewrite lookup_insert_eq. intros [= <-]. eauto.
  - rewrite lookup_insert_ne by exact Hne. apply Hwf.
Qed.

Lemma current_wellFormed (h : ConversationHistory) (userId : string)
    (l : list Message) :
  wellFormed h ->
  current LLM_SYSTEM_PROMPT userId h = Some l ->
  exists s rest, l = s :: rest /\ role s = system.
Proof.
  intros Hwf. unfold current. destruct (stored userId h) as [l'| |] eqn:E.
  - intros [= <-]. apply stored_own_inv in E. exact (Hwf _ _ E).
  - discriminate.
  - intros [= <-].
    exists (systemPrompt LLM_SYSTEM_PROMPT), []. split; reflexivity.
Qed.

Lemma current_not_inherited (h : ConversationHistory) (userId : string) :
  wellFormed h ->
  stored userId h <> Inherited ->
  exists s rest, current LLM_SYSTEM_PROMPT userId h = Some (s :: rest)
                 /\ role s = system.
Proof.
  intros Hwf Hni.
  destruct (current LLM_SYSTEM_PROMPT userId h) as [l|] eqn:E.
  - destruct (current_wellFormed h userId l Hwf E) as (s & rest & -> & Hs).
    eauto.
  - apply current_None in E. contradiction.
Qed.

Lemma wellFormed_add (h h' : ConversationHistory) (userId : string)
    (message : Message) :
  wellFormed h -> add userId message h = Some h' -> wellFormed h'.
Proof.
  intros Hwf Hadd.
  destruct (current LLM_SYSTEM_PROMPT userId h) as [l|] eqn:E.
  - destruct (current_wellFormed h userId l Hwf E) as (s & rest & -> & Hs).
    rewrite (add_spec _ _ _ _ _ E) in Hadd. injection Hadd as <-.
    apply wellFormed_insert; assumption.
  - rewrite add_current, E in Hadd. discriminate.
Qed.

Lemma wellFormed_get (h : ConversationHistory) (userId : string) :
  wellFormed h ->
  wellFormed (snd (getConversationHistory LLM_SYSTEM_PROMPT greeting userId h))
  /\ wellFormed (snd (getConversationHistory_base LLM_SYSTEM_PROMPT userId h)).
Proof.
  intros Hwf. unfold getConversationHistory, getConversationHistory_base.
  destruct (stored userId h); cbn; split; try exact Hwf;
    (apply wellFormed_insert; [exact Hwf|reflexivity]).
Qed.

Lemma wellFormed_clear (h h' : ConversationHistory) (userId : string) :
  wellFormed h ->
  clearConversationHistory greeting userId h = Some h'
  \/ clearConversationHistory_base userId h = Some h' ->
  wellFormed h'.
Proof.
  intros Hwf. unfold clearConversationHistory, clearConversationHistory_base.
  destruct (stored userId h) as [[|s rest]| |] eqn:E;
    intros [H|H]; try discriminate H; injection H as <-; try exact Hwf;
    apply stored_own_inv in E;
    destruct (Hwf _ _ E) as (s' & rest' & [= <- <-] & Hs);
    (apply wellFormed_insert; assumption).
Qed.

Lemma wellFormed_personalize (h : ConversationHistory) (userId c : string) :
  wellFormed h -> wellFormed (personalize userId c h).
Proof.
  intros Hwf. unfold personalize.
  destruct (h !! userId) as [[|s [|? ?]]|] eqn:E; try exact Hwf.
  destruct (Hwf _ _ E) as (s' & rest' & [= <- <-] & Hs).
  apply wellFormed_insert; [exact Hwf|exact Hs].
Qed.

Lemma wellFormed_runOp (o : Op) (h h' : ConversationHistory) :
  wellFormed h ->
  runOp LLM_SYSTEM_PROMPT greeting o h = Some h' ->
  wellFormed h'.
Proof.
  intros Hwf. destruct o as [u m|u|u|u|u|u c]; cbn.
  - intros [= <-].
    destruct (add u m h) as [h1|] eqn:E; cbn; [|exact Hwf].
    exact (wellFormed_add _ _ _ _ Hwf E).
  - intros [= <-]. apply wellFormed_get. exact Hwf.
  - intros H. apply (wellFormed_clear h h' u Hwf). left. exact H.
  - intros [= <-]. apply wellFormed_get. exact Hwf.
  - intros H. apply (wellFormed_clear h h' u Hwf). right. exact H.
  - intros [= <-]. apply wellFormed_personalize. exact Hwf.
Qed.

Lemma wellFormed_runOps (os : list Op) :
  forall h h' : ConversationHistory,
  wellFormed h ->
  runOps LLM_SYSTEM_PROMPT greeting os h = Some h' ->
  wellFormed h'.
Proof.
  induction os as [|o os IH]; intros h h' Hwf; cbn [runOps].
  - intros [= <-]. exact Hwf.
  - destruct (runOp LLM_SYSTEM_PROMPT greeting o h) as [h1|] eqn:E;
      [|discriminate].
    apply IH. exact (wellFormed_runOp _ _ _ Hwf E).
Qed.

End HistoryFacts.

(** C4.  In a store where every history starts with a system message
    (the empty store is one, and every operation keeps it so), appending a
    message to a user's history leaves the same first entry [s], a system
    message, followed by the last [MAX_HISTORY_LENGTH] of the earlier
    entries and the new one, in their order: the length is at most
    [MAX_HISTORY_LENGTH + PINNED] and what is dropped is the oldest
    entries after [s].  After [MAX_HISTORY_LENGTH + 5] appends the length
    is [MAX_HISTORY_LENGTH + PINNED] and the first entry is still [s].
    The one case in which no append takes place is a user id that names
    a property the store inherits and does not hold itself: the call
    throws before it stores anything. *)
Theorem history_append_window (LLM_SYSTEM_PROMPT : string)
    (h : History.ConversationHistory) (userId : string)
    (message : History.Message) (messages : list History.Message) :
  History.wellFormed h ->
  length messages = History.MAX_HISTORY_LENGTH + 5 ->
  (History.stored userId h <> History.Inherited ->
   exists s rest h1 hn,
     History.current LLM_SYSTEM_PROMPT userId h = Some (s :: rest)
     /\ History.role s = History.system
     /\ History.addToConversationHistory LLM_SYSTEM_PROMPT userId message h
        = Some h1
     /\ h1 !! userId = Some (s :: History.window (rest ++ [message])%list)
     /\ length (s :: History.window (rest ++ [message])%list)
        <= History.MAX_HISTORY_LENGTH + History.PINNED
     /\ (exists evicted,
           (rest ++ [message])%list
           = (evicted ++ History.window (rest ++ [message]))%list)
     /\ History.wellFormed h1
     /\ History.appendAll LLM_SYSTEM_PROMPT userId messages h = Some hn
     /\ hn !! userId = Some (s :: History.window (rest ++ messages)%list)
     /\ length (s :: History.window (rest ++ messages)%list)
        = History.MAX_HISTORY_LENGTH + History.PINNED)
  /\ (History.stored userId h = History.Inherited ->
      History.addToConversationHistory LLM_SYSTEM_PROMPT userId message h
      = None
      /\ History.appendAll LLM_SYSTEM_PROMPT userId messages h = None).
Proof.
  intros Hwf Hlen.
  destruct messages as [|m ms]; [discriminate Hlen|].
  split.
  - intros Hni.
    destruct (current_not_inherited LLM_SYSTEM_PROMPT h userId Hwf Hni)
      as (s & rest & Hc & Hs).
    destruct (appendAll_cons LLM_SYSTEM_PROMPT userId m ms h s rest Hc)
      as (hn & Happ & Hsto & _).
    exists s, rest, (<[userId := s :: History.window (rest ++ [message])]> h),
      hn.
    split; [exact Hc|]. split; [exact Hs|].
    split; [apply add_spec; exact Hc|].
    split; [apply lookup_insert_eq|].
    split.
    { cbn [length]. pose proof (window_length (rest ++ [message])%list).
      unfold History.PINNED. lia. }
    split.
    { exists (take (length (rest ++ [message])%list
                    - History.MAX_HISTORY_LENGTH)
                   (rest ++ [message])%list).
      unfold History.window. symmetry. apply take_drop. }
    split; [apply wellFormed_insert; assumption|].
    split; [exact Happ|]. split; [exact Hsto|].
    cbn [length]. rewrite window_long.
    + unfold History.PINNED. lia.
    + rewrite length_app, Hlen. lia.
  - intros Hi. split.
    + apply add_inherited. exact Hi.
    + apply appendAll_inherited. exact Hi.
Qed.

(** Fifteen messages appended for a new user. *)
Lemma history_append_window_witness :
  History.wellFormed ∅
  /\ History.stored "1" ∅ <> History.Inherited
  /\ exists hn l,
       History.appendAll "You are a helpful AI shopping assistant." "1"
         (map Sample.hello (seq 0 15)) ∅ = Some hn
       /\ hn !! "1" = Some l
       /\ length l = 11.
Proof.
  assert (Hni : History.stored "1" (∅ : History.ConversationHistory)
                <> History.Inherited) by (vm_compute; discriminate).
  split; [apply wellFormed_empty|]. split; [exact Hni|].
  destruct (history_append_window "You are a helpful AI shopping assistant."
              ∅ "1" (Sample.hello 0) (map Sample.hello (seq 0 15))
              wellFormed_empty eq_refl)
    as [Hown _].
  destruct (Hown Hni)
    as (s & rest & h1 & hn & _ & _ & _ & _ & _ & _ & _ & Happ & Hstored & Hlen).
  exists hn. eexists. split; [exact Happ|]. split; [exact Hstored | exact Hlen].
Defined.

(** In the extended agent a fresh history starts with the system prompt
    and the greeting; ten appends later the greeting is gone. *)
Example greeting_is_evicted :
  let h0 := snd (History.getConversationHistory "prompt" "Hello!" "1" ∅) in
  h0 !! "1" = Some [History.systemPrompt "prompt"; History.greetingMessage "Hello!"]
  /\ match History.appendAll "prompt" "1" (map Sample.hello (seq 0 10)) h0 with
     | Some h => h !! "1"
     | None => None
     end = Some (History.systemPrompt "prompt" :: map Sample.hello (seq 0 10)).
Proof. vm_compute. split; reflexivity. Qed.

(** The name [constructor], as any caller of the route without
    authentication may send it: nothing is appended, and a read returns
    the inherited property. *)
Example inherited_name_is_not_a_history :
  History.addToConversationHistory "prompt" "constructor" (Sample.hello 0) ∅
  = None
  /\ History.getConversationHistory "prompt" "Hello!" "constructor" ∅
     = (History.InheritedProperty "constructor", ∅).
Proof. split; reflexivity. Qed.

(** ** Fuzzy matcher *)

Section StringFacts.
Import JsString.

Lemma startsWith_iff (s t : string) :
  startsWith s t = true <-> exists post, s = t ++ post.
Proof.
  revert s. induction t as [|b t IH]; intros s.
  - cbn. split; [intros _; exists s; reflexivity|reflexivity].
  - destruct s as [|a s]; cbn.
    + split; [discriminate|intros [post H]; discriminate H].
    + rewrite andb_true_iff, Ascii.eqb_eq, IH. split.
      * intros [-> [post ->]]. exists post. reflexivity.
      * intros [post [= -> ->]]. split; [reflexivity|]. exists post. reflexivity.
Qed.

Lemma includes_startsWith (s t : string) :
  startsWith s t = true -> includes s t = true.
Proof. intros H. destruct s; cbn [includes]; rewrite H; reflexivity. Qed.

Lemma includes_iff (s t : string) :
  includes s t = true <-> MatcherSpec.contains s t.
Proof.
  unfold MatcherSpec.contains. split.
  - induction s as [|c s IH].
    + cbn [includes]. rewrite orb_false_r. intros H.
      apply startsWith_iff in H as [post H].
      exists EmptyString, post. exact H.
    + cbn [includes]. rewrite orb_true_iff. intros [H|H].
      * apply startsWith_iff in H as [post H]. exists EmptyString, post. exact H.
      * destruct (IH H) as (pre & post & ->).
        exists (String c pre), post. reflexivity.
  - intros (pre & post & ->). induction pre as [|c pre IH].
    + change (includes (t ++ post) t = true). apply includes_startsWith.
      apply startsWith_iff. exists post. reflexivity.
    + change (includes (String c (pre ++ t ++ post)) t = true).
      cbn [includes]. rewrite IH. apply orb_true_r.
Qed.

Lemma split_pieces (sep : ascii) (s : string) :
  split sep s = MatcherSpec.pieces (fun c => Ascii.eqb c sep) s.
Proof.
  induction s as [|c s IH]; cbn; [reflexivity|]. rewrite IH. reflexivity.
Qed.

Lemma split_nonempty (sep : ascii) (s : string) : 1 <= length (split sep s).
Proof.
  induction s as [|c s IH]; cbn; [lia|].
  destruct (Ascii.eqb c sep); cbn; [lia|].
  destruct (split sep s); cbn in *; lia.
Qed.

Lemma arrayIncludes_iff (arr : list string) (x : string) :
  arrayIncludes arr x = true <-> In x arr.
Proof.
  unfold arrayIncludes. rewrite existsb_exists. split.
  - intros (y & Hin & Heq). apply String.eqb_eq in Heq. subst y. exact Hin.
  - intros Hin. exists x. split; [exact Hin|apply String.eqb_refl].
Qed.

Lemma arrayIncludes_in_dec (arr : list string) (x : string) :
  arrayIncludes arr x = if in_dec string_dec x arr then true else false.
Proof.
  destruct (in_dec string_dec x arr) as [Hin|Hnot].
  - apply arrayIncludes_iff. exact Hin.
  - destruct (arrayIncludes arr x) eqn:E; [|reflexivity].
    apply arrayIncludes_iff in E. contradiction.
Qed.

End StringFacts.

Section MatcherFacts.
Import MatcherSpec.

(** The relation determines the score, and [score] computes it. *)
Lemma MatchScore_score (tokens : string -> list string)
    (search candidate : string) (q : Q) :
  MatchScore tokens search candidate q <-> q = score tokens search candidate.
Proof.
  unfold score.
  destruct (string_dec (JsString.toLowerCase search)
                       (JsString.toLowerCase candidate)) as [Heq|Hne].
  { split.
    - intros H. inversion H; subst; try contradiction. reflexivity.
    - intros ->. apply ExactMatch. exact Heq. }
  destruct (JsString.includes (JsString.toLowerCase candidate)
                              (JsString.toLowerCase search)) eqn:E1.
  { apply includes_iff in E1. split.
    - intros H. inversion H; subst; try contradiction. reflexivity.
    - intros ->. apply CandidateContainsSearch; assumption. }
  assert (N1 : ~ contains (JsString.toLowerCase candidate)
                          (JsString.toLowerCase search)).
  { intros H. apply includes_iff in H. congruence. }
  destruct (JsString.includes (JsString.toLowerCase search)
                              (JsString.toLowerCase candidate)) eqn:E2.
  { apply includes_iff in E2. split.
    - intros H. inversion H; subst; try contradiction. reflexivity.
    - intros ->. apply SearchContainsCandidate; assumption. }
  assert (N2 : ~ contains (JsString.toLowerCase search)
                          (JsString.toLowerCase candidate)).
  { intros H. apply includes_iff in H. congruence. }
  split.
  - intros H. inversion H; subst; try contradiction. reflexivity.
  - intros ->. apply WordOverlap; assumption.
Qed.

(** The code computes the score whose tokens are split at single spaces. *)
Lemma calculateNameMatchScore_score (search actual : string) :
  ChatbotService.calculateNameMatchScore search actual
  = score spaceTokens search actual.
Proof.
  unfold ChatbotService.calculateNameMatchScore, score, overlap, spaceTokens.
  destruct (string_dec _ _) as [Heq|Hne].
  - rewrite Heq, String.eqb_refl. reflexivity.
  - apply String.eqb_neq in Hne. rewrite Hne.
    destruct (JsString.includes _ _); [reflexivity|].
    destruct (JsString.includes _ _); [reflexivity|].
    rewrite !split_pieces.
    erewrite List.filter_ext; [reflexivity|].
    intros w. apply arrayIncludes_in_dec.
Qed.

Lemma ratio_bounds (c m : nat) :
  c <= m -> 1 <= m ->
  (0 <= inject_Z (Z.of_nat c) / inject_Z (Z.of_nat m) <= 1)%Q.
Proof.
  intros Hc Hm.
  assert (Hpos : (0 < inject_Z (Z.of_nat m))%Q).
  { change 0%Q with (inject_Z 0). rewrite <- Zlt_Qlt. lia. }
  split.
  - apply Qle_shift_div_l; [exact Hpos|]. rewrite Qmult_0_l.
    change 0%Q with (inject_Z 0). rewrite <- Zle_Qle. lia.
  - apply Qle_shift_div_r; [exact Hpos|]. rewrite Qmult_1_l.
    rewrite <- Zle_Qle. lia.
Qed.

Lemma calculateNameMatchScore_bounds (search actual : string) :
  (0 <= ChatbotService.calculateNameMatchScore search actual <= 1)%Q.
Proof.
  unfold ChatbotService.calculateNameMatchScore.
  destruct (String.eqb _ _); [split; discriminate|].
  destruct (JsString.includes _ _); [split; discriminate|].
  destruct (JsString.includes _ _); [split; discriminate|].
  apply ratio_bounds.
  - etransitivity; [apply List.filter_length_le|]. apply Nat.le_max_l.
  - etransitivity; [|apply Nat.le_max_l]. apply split_nonempty.
Qed.

End MatcherFacts.

(** C5, as the code has it.  [calculateNameMatchScore] is the reference
    algorithm in strict precedence order: equal after lower-casing gives
    1; the candidate containing the search term gives 0.9; the search term
    containing the candidate gives 0.8; otherwise the number of search
    tokens found among the candidate's tokens over the larger token count,
    where a token is a piece between two single space characters (empty
    pieces included).  The score lies between 0 and 1, and a name scores 1
    against itself. *)
Theorem match_score_reference (search actual : string) :
  MatcherSpec.MatchScore MatcherSpec.spaceTokens search actual
    (ChatbotService.calculateNameMatchScore search actual)
  /\ (forall q, MatcherSpec.MatchScore MatcherSpec.spaceTokens search actual q ->
                q = ChatbotService.calculateNameMatchScore search actual)
  /\ (0 <= ChatbotService.calculateNameMatchScore search actual <= 1)%Q
  /\ ChatbotService.calculateNameMatchScore search search = 1%Q.
Proof.
  split; [|split; [|split]].
  - apply MatchScore_score. apply calculateNameMatchScore_score.
  - intros q H. rewrite calculateNameMatchScore_score.
    apply MatchScore_score. exact H.
  - apply calculateNameMatchScore_bounds.
  - unfold ChatbotService.calculateNameMatchScore.
    rewrite String.eqb_refl. reflexivity.
Qed.

(** C5, as stated, fails for names whose words are separated by a tab:
    with whitespace-separated tokens both names have the tokens apple and
    juice and the reference score is 1; the code splits at spaces only,
    finds one token on each side and no common one, and returns 0. *)
Lemma match_score_whitespace_counterexample :
  (ChatbotService.calculateNameMatchScore
     MatcherSpec.appleTabJuice MatcherSpec.juiceTabApple == 0)%Q
  /\ (exists q, MatcherSpec.MatchScore MatcherSpec.whitespaceTokens
                  MatcherSpec.appleTabJuice MatcherSpec.juiceTabApple q
                /\ (q == 1)%Q)
  /\ ~ MatcherSpec.MatchScore MatcherSpec.whitespaceTokens
         MatcherSpec.appleTabJuice MatcherSpec.juiceTabApple
         (ChatbotService.calculateNameMatchScore
            MatcherSpec.appleTabJuice MatcherSpec.juiceTabApple).
Proof.
  split; [vm_compute; reflexivity|]. split.
  - eexists. split; [apply MatchScore_score; reflexivity|].
    vm_compute. reflexivity.
  - intros H. apply MatchScore_score in H. vm_compute in H. discriminate H.
Qed.

(** The examples of the specification, and a doubled space. *)
Example match_score_examples :
  (ChatbotService.calculateNameMatchScore "juice" "Apple Juice" == 9 # 10)%Q
  /\ (ChatbotService.calculateNameMatchScore "zzz" "Apple Juice" == 0)%Q
  /\ (ChatbotService.calculateNameMatchScore "apple  juice" "Juice Apple"
      == 2 # 3)%Q.
Proof. repeat split; vm_compute; reflexivity. Qed.

(** A request for 50 percent is granted 20. *)
Example coupon_for_50_is_20 :
  Chatbot.generateCoupon Sample.chatbotEnv (Js.JNum (Js.Fin 50))
  = ([Chatbot.EvSecurityGenerateCoupon (Js.Fin 20)],
     Js.Normal (Chatbot.CouponIssued "n<MibgC7sn" (Js.Fin 20))).
Proof. reflexivity. Qed.

(** ** Basket action of the storefront service *)

Section ServiceFacts.
Import Js ChatbotService.
Local Open Scope Q_scope.

Lemma Qltb_lt (a b : Q) : Qltb a b = true <-> a < b.
Proof.
  unfold Qltb. rewrite negb_true_iff. split.
  - intros H. apply Qnot_le_lt. intros Hle.
    apply Qle_bool_iff in Hle. congruence.
  - intros H. destruct (Qle_bool b a) eqn:E; [|reflexivity].
    apply Qle_bool_iff in E. exfalso. exact (Qlt_not_le _ _ H E).
Qed.

Lemma Qltb_ge (a b : Q) : Qltb a b = false <-> b <= a.
Proof.
  unfold Qltb. rewrite negb_false_iff. apply Qle_bool_iff.
Qed.

(** The first element of the sorted array is one of the products, and no
    product scores higher. *)
Lemma head_sortByMatches (l : list ResolvedProduct) :
  l <> [] ->
  exists top, head (sortByMatches l) = Some top
              /\ In top l
              /\ forall y, In y l -> matches y <= matches top.
Proof.
  induction l as [|a l IH]; [congruence|]. intros _.
  destruct l as [|b l].
  - exists a. cbn. split; [reflexivity|]. split; [tauto|].
    intros y [<-|[]]. apply Qle_refl.
  - destruct IH as (top & Hhead & Hin & Hmax); [discriminate|].
    change (sortByMatches (a :: b :: l))
      with (insertByMatches a (sortByMatches (b :: l))).
    destruct (sortByMatches (b :: l)) as [|y rest]; [discriminate Hhead|].
    cbn in Hhead. injection Hhead as ->.
    cbn [insertByMatches].
    destruct (Qltb (matches a) (matches top)) eqn:E.
    + exists top. split; [reflexivity|]. split; [right; exact Hin|].
      intros z [<-|Hz]; [|apply Hmax; exact Hz].
      apply Qlt_le_weak. apply Qltb_lt. exact E.
    + exists a. split; [reflexivity|]. split; [left; reflexivity|].
      apply Qltb_ge in E.
      intros z [<-|Hz]; [apply Qle_refl|].
      eapply Qle_trans; [apply Hmax; exact Hz|exact E].
Qed.

Variable env : Env.

Lemma resolveProductFromName_run (search : string) (products : list Product) :
  productService_search env (Some search) = Normal products ->
  resolveProductFromName env (Some search)
  = ([EvSearch (Some search)],
     Normal (head (sortByMatches (map (scoreOf search) products)))).
Proof.
  intros H. unfold resolveProductFromName, try_catch, bind, call, ret.
  rewrite H. destruct products; reflexivity.
Qed.

(** The product [resolveProductFromName] returns scores what the best
    product scores. *)
Lemma resolved_is_best (search : string) (products : list Product)
    (best : Product) :
  In best products ->
  (forall p, In p products ->
     calculateNameMatchScore search (name p)
     <= calculateNameMatchScore search (name best)) ->
  exists top,
    head (sortByMatches (map (scoreOf search) products)) = Some top
    /\ matches top == calculateNameMatchScore search (name best).
Proof.
  intros Hin Hbest.
  destruct (head_sortByMatches (map (scoreOf search) products))
    as (top & Hhead & Htop & Hmax).
  { destruct products; [destruct Hin|discriminate]. }
  exists top. split; [exact Hhead|].
  apply Qle_antisym.
  - apply in_map_iff in Htop as (p & <- & Hp). cbn. apply Hbest. exact Hp.
  - apply (Hmax (scoreOf search best)). apply in_map. exact Hin.
Qed.

End ServiceFacts.

Ltac no_save :=
  cbn; let H := fresh in
  intros H; repeat (destruct H as [H|H]; [discriminate H|]); destruct H.

(** A call to [basketService.save] is only ever made for a resolved
    product whose score is at least [MATCH_THRESHOLD]. *)
Lemma save_only_above_threshold (env : ChatbotService.Env)
    (params : ChatbotService.BasketParams)
    (productId : Js.JsValue) (basketId : string) (quantity : Js.JsValue) :
  In (ChatbotService.EvSave productId basketId quantity)
     (Js.trace (ChatbotService.handleBasketAction env params)) ->
  exists search products top,
    ChatbotService.productName params = Some search
    /\ ChatbotService.productService_search env (Some search)
       = Js.Normal products
    /\ head (ChatbotService.sortByMatches
               (map (ChatbotService.scoreOf search) products)) = Some top
    /\ ChatbotService.r_id top = productId
    /\ (ChatbotService.MATCH_THRESHOLD <= ChatbotService.matches top)%Q.
Proof.
  unfold ChatbotService.handleBasketAction.
  destruct (ChatbotService.strictEq _ "view").
  { unfold ChatbotService.viewBranch, Js.try_catch, Js.bind, Js.call, Js.ret.
    destruct (ChatbotService.basketService_find env _) as [[[|e l]|]|m];
      [no_save| |no_save|no_save].
    destruct (forallb _ (e :: l)); no_save. }
  destruct (ChatbotService.strictEq _ "add"); [|intros []].
  unfold ChatbotService.addBranch, ChatbotService.resolveProductFromName,
    Js.try_catch, Js.bind, Js.call, Js.ret.
  destruct (ChatbotService.productName params) as [search|] eqn:Hname.
  - destruct (ChatbotService.productService_search env (Some search))
      as [products|m] eqn:Hsearch; [|no_save].
    destruct products as [|p products]; [no_save|].
    destruct (head (ChatbotService.sortByMatches
                      (map (ChatbotService.scoreOf search) (p :: products))))
      as [top|] eqn:Hhead; [|no_save].
    destruct (ChatbotService.Qltb (ChatbotService.matches top)
                ChatbotService.MATCH_THRESHOLD) eqn:E; [no_save|].
    apply Qltb_ge in E.
    destruct (ChatbotService.sessionStorage_bid env) as [[|c bid]|];
      [no_save| |no_save].
    destruct (ChatbotService.basketService_save env _ _ _);
      try destruct (negb (Js.convertible _)); cbn;
      intros [H|[H|[]]]; try discriminate H;
      injection H as <- _ _;
      exists search, (p :: products), top; auto.
  - destruct (ChatbotService.productService_search env None)
      as [[|p products]|m]; no_save.
Qed.

(** What [resolveProductFromName] makes of a request without a name, of
    a search that fails and of a search that returns nothing: no
    product. *)
Lemma resolveProductFromName_nothing (env : ChatbotService.Env)
    (productName : option string) :
  productName = None
  \/ ChatbotService.productService_search env productName = Js.Normal []
  \/ (exists m, ChatbotService.productService_search env productName
                = Js.Throw m) ->
  ChatbotService.resolveProductFromName env productName
  = ([ChatbotService.EvSearch productName], Js.Normal None).
Proof.
  unfold ChatbotService.resolveProductFromName,
    Js.try_catch, Js.bind, Js.call, Js.ret.
  intros [->|[H|[m H]]]; try (rewrite H; reflexivity).
  destruct (ChatbotService.productService_search env None) as [[|p l]|m];
    reflexivity.
Qed.

(** C6, as the code has it.  The candidates of a basket-add request are
    the products its search returns.  When there are some, [best] being
    one that no other outscores: a score of [best] below
    [MATCH_THRESHOLD] gives a response with [requiresConfirmation: true],
    the only call made being the search.  When the request names no
    product, or the search fails or returns nothing, the response says
    that no matching product was found: it carries neither
    [requiresConfirmation] nor an action, and the only call made is the
    search.  A call to [basketService.save] occurs only for a product
    the search returned and whose score is at least [MATCH_THRESHOLD]. *)
Theorem basket_add_below_threshold_asks (env : ChatbotService.Env)
    (params : ChatbotService.BasketParams) :
  ChatbotService.p_action params = Js.JStr "add" ->
  let run := ChatbotService.handleBasketAction env params in
  (forall search products best,
     ChatbotService.productName params = Some search ->
     ChatbotService.productService_search env (Some search)
     = Js.Normal products ->
     In best products ->
     (forall p, In p products ->
        (ChatbotService.calculateNameMatchScore search (ChatbotService.name p)
         <= ChatbotService.calculateNameMatchScore search
              (ChatbotService.name best))%Q) ->
     let bestScore :=
       ChatbotService.calculateNameMatchScore search
         (ChatbotService.name best) in
     ((bestScore < ChatbotService.MATCH_THRESHOLD)%Q ->
        exists response,
          Js.outcome run = Js.Normal response
          /\ ChatbotService.requiresConfirmation response = Some true
          /\ Js.trace run = [ChatbotService.EvSearch (Some search)])
     /\ (forall productId basketId quantity,
           In (ChatbotService.EvSave productId basketId quantity)
              (Js.trace run) ->
           (ChatbotService.MATCH_THRESHOLD <= bestScore)%Q))
  /\ (ChatbotService.productName params = None
      \/ ChatbotService.productService_search env
           (ChatbotService.productName params) = Js.Normal []
      \/ (exists m, ChatbotService.productService_search env
                      (ChatbotService.productName params) = Js.Throw m) ->
      exists response,
        Js.outcome run = Js.Normal response
        /\ ChatbotService.text response
           = "I couldn't find a product matching " ++ ChatbotService.quote
             ++ ChatbotService.nameOrUndefined params ++ ChatbotService.quote
             ++ ". Could you please be more specific?"
        /\ ChatbotService.requiresConfirmation response = None
        /\ ChatbotService.action response = None
        /\ Js.trace run
           = [ChatbotService.EvSearch (ChatbotService.productName params)])
  /\ (forall productId basketId quantity,
        In (ChatbotService.EvSave productId basketId quantity)
           (Js.trace run) ->
        exists search products top,
          ChatbotService.productName params = Some search
          /\ ChatbotService.productService_search env (Some search)
             = Js.Normal products
          /\ head (ChatbotService.sortByMatches
                     (map (ChatbotService.scoreOf search) products))
             = Some top
          /\ ChatbotService.r_id top = productId
          /\ (ChatbotService.MATCH_THRESHOLD <= ChatbotService.matches top)%Q).
Proof.
  intros Haction run.
  assert (Hrun : run = ChatbotService.addBranch env params).
  { subst run. unfold ChatbotService.handleBasketAction.
    rewrite Haction. reflexivity. }
  split; [|split].
  - intros search products best Hname Hsearch Hin Hbest bestScore.
    destruct (resolved_is_best search products best Hin Hbest)
      as (top & Hhead & Htop).
    rewrite Hrun. clear Hrun run.
    unfold ChatbotService.addBranch.
    rewrite Hname, (resolveProductFromName_run env search products Hsearch).
    rewrite Hhead. unfold Js.bind, Js.try_catch, Js.ret, Js.call.
    destruct (ChatbotService.Qltb (ChatbotService.matches top)
                ChatbotService.MATCH_THRESHOLD) eqn:E.
    + split.
      * intros _. eexists. cbn. repeat split; reflexivity.
      * cbn. intros productId basketId quantity [H|[]]. discriminate H.
    + apply Qltb_ge in E. split.
      * intros Hlt. exfalso. apply (Qlt_not_le _ _ Hlt).
        fold bestScore in Htop. rewrite <- Htop. exact E.
      * intros _ _ _ _. fold bestScore in Htop. rewrite <- Htop. exact E.
  - intros Hnothing. rewrite Hrun. clear Hrun run.
    unfold ChatbotService.addBranch.
    rewrite (resolveProductFromName_nothing env _ Hnothing).
    eexists. cbn. repeat split; reflexivity.
  - intros productId basketId quantity.
    apply save_only_above_threshold.
Qed.

(** "xyz juice" against a catalog of two juices: both score 1/2. *)
Lemma basket_add_below_threshold_asks_witness :
  let params :=
    {| ChatbotService.p_action := Js.JStr "add";
       ChatbotService.productName := Some "xyz juice";
       ChatbotService.quantity := Js.JUndefined |} in
  let run := ChatbotService.handleBasketAction Sample.serviceEnv params in
  (exists response,
     Js.outcome run = Js.Normal response
     /\ ChatbotService.requiresConfirmation response = Some true
     /\ Js.trace run = [ChatbotService.EvSearch (Some "xyz juice")]).
Proof.
  intros params run.
  refine (proj1 (proj1 (basket_add_below_threshold_asks Sample.serviceEnv
                          params eq_refl)
                   "xyz juice" Sample.catalog
                   (nth 0 Sample.catalog
                      {| ChatbotService.id := Js.JNull;
                         ChatbotService.name := "";
                         ChatbotService.price := Js.JNull;
                         ChatbotService.description := Js.JNull |})
                   eq_refl eq_refl _ _) _).
  - left. reflexivity.
  - intros p [<-|[<-|[]]]; vm_compute; discriminate.
  - vm_compute. reflexivity.
Defined.

(** C6, as stated, fails for a name the search finds nothing for.  In a
    shop whose search returns the products with the criteria in their
    name, "xyz" finds nothing.  No product of the catalog scores 0.8 or
    more against it (each scores 0), and the response is not a request
    for confirmation: it has no [requiresConfirmation] at all. *)
Lemma basket_add_nothing_found_counterexample :
  let params :=
    {| ChatbotService.p_action := Js.JStr "add";
       ChatbotService.productName := Some "xyz";
       ChatbotService.quantity := Js.JUndefined |} in
  let run := ChatbotService.handleBasketAction Sample.searchingEnv params in
  (forall p, In p Sample.catalog ->
     (ChatbotService.calculateNameMatchScore "xyz" (ChatbotService.name p)
      < ChatbotService.MATCH_THRESHOLD)%Q)
  /\ ChatbotService.productService_search Sample.searchingEnv (Some "xyz")
     = Js.Normal []
  /\ exists response,
       Js.outcome run = Js.Normal response
       /\ ChatbotService.requiresConfirmation response <> Some true
       /\ ChatbotService.text response
          = "I couldn't find a product matching " ++ ChatbotService.quote
            ++ "xyz" ++ ChatbotService.quote
            ++ ". Could you please be more specific?".
Proof.
  intros params run. split; [|split].
  - intros p [<-|[<-|[]]]; vm_compute; reflexivity.
  - vm_compute. reflexivity.
  - eexists. split; [vm_compute; reflexivity|].
    split; [discriminate|vm_compute; reflexivity].
Qed.

(** The same request for a name in the catalog is saved. *)
Example basket_add_exact_name_saves :
  Js.trace (ChatbotService.handleBasketAction Sample.serviceEnv
              {| ChatbotService.p_action := Js.JStr "add";
                 ChatbotService.productName := Some "apple juice";
                 ChatbotService.quantity := Js.JUndefined |})
  = [ ChatbotService.EvSearch (Some "apple juice");
      ChatbotService.EvSave (Js.JNum (Js.Fin 1)) "7" (Js.JNum (Js.Fin 1)) ].
Proof. vm_compute. reflexivity. Qed.

(** ** SQL tool: the row limit *)

Lemma limited_cases (query : string) :
  (JsString.includes query "LIMIT" = false ->
   Chatbot.limited query = query ++ " LIMIT 100")
  /\ (JsString.includes query "LIMIT" = true -> Chatbot.limited query = query).
Proof.
  unfold Chatbot.limited.
  destruct (JsString.includes query "LIMIT"); split; congruence.
Qed.

Lemma executeSqlQuery_read (env : Chatbot.Env) (query : string)
    (explanation : Js.JsValue) :
  Chatbot.security_isDatabaseOperationAllowed env (Js.JStr query) = true ->
  RegExp.test Chatbot.updatePattern query = false ->
  Chatbot.executeSqlQuery env (Js.JStr query) explanation
  = ([Chatbot.EvIsDatabaseOperationAllowed (Js.JStr query);
      Chatbot.EvSequelizeQuery (Chatbot.limited query) Chatbot.SELECT],
     match Chatbot.sequelize_select env (Chatbot.limited query) with
     | Js.Normal results =>
         Js.Normal (Chatbot.SqlRows results explanation (length results))
     | Js.Throw message =>
         Js.Normal (Chatbot.SqlError
                      ("Failed to execute SQL query: " ++ message) explanation)
     end).
Proof.
  intros Hallowed Hread.
  unfold Chatbot.executeSqlQuery, Chatbot.isQueryAllowed,
    Js.try_catch, Js.bind, Js.call, Js.ret.
  rewrite Hallowed, Hread. cbn.
  destruct (Chatbot.sequelize_select env _); reflexivity.
Qed.

Lemma executeSqlQuery_base_read (env : Chatbot.Env) (query : string)
    (explanation : Js.JsValue) :
  Guardrail.isQueryAllowed query = true ->
  ChatbotBase.executeSqlQuery env (Js.JStr query) explanation
  = ([Chatbot.EvSequelizeQuery (Chatbot.limited query) Chatbot.SELECT],
     match Chatbot.sequelize_select env (Chatbot.limited query) with
     | Js.Normal results =>
         Js.Normal (Chatbot.SqlRows results explanation (length results))
     | Js.Throw message =>
         Js.Normal (Chatbot.SqlError
                      ("Failed to execute SQL query: " ++ message) explanation)
     end).
Proof.
  intros Hallowed.
  unfold ChatbotBase.executeSqlQuery, ChatbotBase.isQueryAllowed,
    Js.try_catch, Js.bind, Js.call, Js.ret.
  rewrite Hallowed. cbn.
  destruct (Chatbot.sequelize_select env _); reflexivity.
Qed.

(** C7 (the code departs from the claim).  Whether [ LIMIT 100] is
    appended depends on the text of the statement alone: an approved
    read whose text contains the capital letters LIMIT is sent to the
    database exactly as it is, and the tool returns every row the
    database returns for it, whatever their number.  The base agent,
    whose guardrail is [Guardrail.isQueryAllowed] and which runs every
    approved statement as a read, does the same. *)
Theorem sql_read_keeps_own_limit (env : Chatbot.Env) (query : string)
    (explanation : Js.JsValue) (rows : list Chatbot.Row) :
  Chatbot.security_isDatabaseOperationAllowed env (Js.JStr query) = true ->
  RegExp.test Chatbot.updatePattern query = false ->
  JsString.includes query "LIMIT" = true ->
  Chatbot.sequelize_select env query = Js.Normal rows ->
  Chatbot.executeSqlQuery env (Js.JStr query) explanation
  = ([Chatbot.EvIsDatabaseOperationAllowed (Js.JStr query);
      Chatbot.EvSequelizeQuery query Chatbot.SELECT],
     Js.Normal (Chatbot.SqlRows rows explanation (length rows)))
  /\ (Guardrail.isQueryAllowed query = true ->
      ChatbotBase.executeSqlQuery env (Js.JStr query) explanation
      = ([Chatbot.EvSequelizeQuery query Chatbot.SELECT],
         Js.Normal (Chatbot.SqlRows rows explanation (length rows)))).
Proof.
  intros Hallowed Hread Hlimit Hrows.
  destruct (limited_cases query) as [_ Hyes].
  split.
  - rewrite (executeSqlQuery_read env query explanation Hallowed Hread).
    rewrite (Hyes Hlimit), Hrows. reflexivity.
  - intros Hbase.
    rewrite (executeSqlQuery_base_read env query explanation Hbase).
    rewrite (Hyes Hlimit), Hrows. reflexivity.
Qed.

(** A statement with a limit of 1000, over the 101 users of the sample
    shop: both agents run it unchanged and return 101 rows. *)
Lemma sql_read_keeps_own_limit_witness :
  Chatbot.executeSqlQuery Sample.chatbotEnv
    (Js.JStr "SELECT * FROM Users LIMIT 1000") Js.JUndefined
  = ([Chatbot.EvIsDatabaseOperationAllowed
        (Js.JStr "SELECT * FROM Users LIMIT 1000");
      Chatbot.EvSequelizeQuery "SELECT * FROM Users LIMIT 1000"
                               Chatbot.SELECT],
     Js.Normal (Chatbot.SqlRows Sample.users Js.JUndefined 101))
  /\ ChatbotBase.executeSqlQuery Sample.chatbotEnv
       (Js.JStr "SELECT * FROM Users LIMIT 1000") Js.JUndefined
     = ([Chatbot.EvSequelizeQuery "SELECT * FROM Users LIMIT 1000"
                                  Chatbot.SELECT],
        Js.Normal (Chatbot.SqlRows Sample.users Js.JUndefined 101))
  /\ ~ 101 <= 100.
Proof.
  destruct (sql_read_keeps_own_limit Sample.chatbotEnv
              "SELECT * FROM Users LIMIT 1000" Js.JUndefined Sample.users)
    as [Hrun Hbase]; try (vm_compute; reflexivity).
  split; [exact Hrun|]. split; [apply Hbase; vm_compute; reflexivity | lia].
Defined.

(** The test for the keyword is case-sensitive: a statement with a limit
    written in lower case gets a second clause. *)
Example sql_lower_case_limit_gets_second_clause :
  Js.trace (ChatbotBase.executeSqlQuery Sample.chatbotEnv
              (Js.JStr "SELECT * FROM Users limit 5") Js.JUndefined)
  = [Chatbot.EvSequelizeQuery "SELECT * FROM Users limit 5 LIMIT 100"
                              Chatbot.SELECT].
Proof. vm_compute. reflexivity. Qed.

(** A comment at the end of the statement takes the appended clause
    with it. *)
Example sql_comment_swallows_the_limit :
  Guardrail.isQueryAllowed "SELECT * FROM Users WHERE id = 1 OR 1=1--" = true
  /\ Js.trace (ChatbotBase.executeSqlQuery Sample.chatbotEnv
                 (Js.JStr "SELECT * FROM Users WHERE id = 1 OR 1=1--")
                 Js.JUndefined)
     = [Chatbot.EvSequelizeQuery
          "SELECT * FROM Users WHERE id = 1 OR 1=1-- LIMIT 100"
          Chatbot.SELECT].
Proof. split; vm_compute; reflexivity. Qed.

(* ===================================================================== *)
(** * Further properties                                                  *)
(* ===================================================================== *)
(** ** More on the history store *)

Section HistoryStoreFacts.
Import History.
Variable LLM_SYSTEM_PROMPT greeting : string.

Local Open Scope list_scope.

Local Abbreviation add' := (addToConversationHistory LLM_SYSTEM_PROMPT).

(** Appending for one user leaves every other user's entry alone. *)
Lemma push_other (userId other : string) (message : Message)
    (l : list Message) (h : ConversationHistory) :
  userId <> other -> push userId message l h !! other = h !! other.
Proof.
  intros Hne. unfold push.
  destruct (_ <? _); [destruct (_ ++ _)|]; apply lookup_insert_ne; exact Hne.
Qed.

Lemma add_other (userId other : string) (message : Message)
    (h h' : ConversationHistory) :
  add' userId message h = Some h' ->
  userId <> other -> h' !! other = h !! other.
Proof.
  unfold addToConversationHistory.
  destruct (stored userId h); intros [= <-] Hne; apply push_other; exact Hne.
Qed.

(** After an append the name holds an array of its own. *)
Lemma add_own (userId : string) (message : Message)
    (h h' : ConversationHistory) :
  add' userId message h = Some h' -> exists l, h' !! userId = Some l.
Proof.
  assert (Hpush : forall l, exists l',
            push userId message l h !! userId = Some l').
  { intros l. unfold push.
    destruct (Nat.ltb _ _); [destruct (l ++ [message])|];
      rewrite lookup_insert_eq; eauto. }
  unfold addToConversationHistory.
  destruct (stored userId h); intros [= <-]; apply Hpush.
Qed.

Lemma get_other (userId other : string) (h : ConversationHistory) :
  userId <> other ->
  snd (getConversationHistory LLM_SYSTEM_PROMPT greeting userId h) !! other
  = h !! other
  /\ snd (getConversationHistory_base LLM_SYSTEM_PROMPT userId h) !! other
     = h !! other.
Proof.
  intros Hne. unfold getConversationHistory, getConversationHistory_base.
  destruct (stored userId h); cbn; split; try reflexivity;
    apply lookup_insert_ne; exact Hne.
Qed.

Lemma personalize_other (userId other c : string) (h : ConversationHistory) :
  userId <> other -> personalize userId c h !! other = h !! other.
Proof.
  intros Hne. unfold personalize.
  destruct (h !! userId) as [[|s [|? ?]]|]; try reflexivity.
  apply lookup_insert_ne. exact Hne.
Qed.

Lemma runOp_other (o : Op) (h h' : ConversationHistory) (other : string) :
  runOp LLM_SYSTEM_PROMPT greeting o h = Some h' ->
  HistoryOps.opUser o <> other ->
  h' !! other = h !! other.
Proof.
  destruct o as [u m|u|u|u|u|u c]; cbn; intros H Hne.
  - injection H as <-.
    destruct (add' u m h) as [h1|] eqn:E; cbn; [|reflexivity].
    exact (add_other _ _ _ _ _ E Hne).
  - injection H as <-. apply get_other. exact Hne.
  - unfold clearConversationHistory in H.
    destruct (stored u h) as [[|s rest]| |]; try discriminate H;
      injection H as <-; try reflexivity.
    apply lookup_insert_ne. exact Hne.
  - injection H as <-. apply get_other. exact Hne.
  - unfold clearConversationHistory_base in H.
    destruct (stored u h) as [[|s rest]| |]; try discriminate H;
      injection H as <-; try reflexivity.
    apply lookup_insert_ne. exact Hne.
  - injection H as <-. apply personalize_other. exact Hne.
Qed.

Lemma bounded_insert (h : ConversationHistory) (userId : string)
    (l : list Message) :
  HistoryOps.bounded h -> length l <= MAX_HISTORY_LENGTH + 1 ->
  HistoryOps.bounded (<[userId := l]> h).
Proof.
  intros Hb Hl u l'. destruct (decide (userId = u)) as [->|Hne].
  - rewrite lookup_insert_eq. intros [= <-]. exact Hl.
  - rewrite lookup_insert_ne by exact Hne. apply Hb.
Qed.

Lemma bounded_empty : HistoryOps.bounded ∅.
Proof. intros u l H. rewrite lookup_empty in H. discriminate. Qed.

Lemma bounded_add (h h' : ConversationHistory) (userId : string)
    (message : Message) :
  wellFormed h -> HistoryOps.bounded h ->
  add' userId message h = Some h' -> HistoryOps.bounded h'.
Proof.
  intros Hwf Hb Hadd.
  destruct (current LLM_SYSTEM_PROMPT userId h) as [l|] eqn:E.
  - destruct (current_wellFormed LLM_SYSTEM_PROMPT h userId l Hwf E)
      as (s & rest & -> & _).
    rewrite (add_spec _ _ _ _ _ _ E) in Hadd. injection Hadd as <-.
    apply bounded_insert; [exact Hb|].
    cbn [length]. pose proof (window_length (rest ++ [message])). lia.
  - rewrite add_current, E in Hadd. discriminate.
Qed.

Lemma bounded_get (h : ConversationHistory) (userId : string) :
  HistoryOps.bounded h ->
  HistoryOps.bounded
    (snd (getConversationHistory LLM_SYSTEM_PROMPT greeting userId h))
  /\ HistoryOps.bounded
       (snd (getConversationHistory_base LLM_SYSTEM_PROMPT userId h)).
Proof.
  intros Hb. unfold getConversationHistory, getConversationHistory_base.
  destruct (stored userId h); cbn; split; try exact Hb;
    (apply bounded_insert; [exact Hb|]; cbn; unfold MAX_HISTORY_LENGTH; lia).
Qed.

Lemma bounded_personalize (h : ConversationHistory) (userId c : string) :
  HistoryOps.bounded h -> HistoryOps.bounded (personalize userId c h).
Proof.
  intros Hb. unfold personalize.
  destruct (h !! userId) as [[|s [|? ?]]|]; try exact Hb.
  apply bounded_insert; [exact Hb|]. cbn. unfold MAX_HISTORY_LENGTH. lia.
Qed.

Lemma bounded_runOp (o : Op) (h h' : ConversationHistory) :
  wellFormed h -> HistoryOps.bounded h ->
  runOp LLM_SYSTEM_PROMPT greeting o h = Some h' ->
  HistoryOps.bounded h'.
Proof.
  intros Hwf Hb. destruct o as [u m|u|u|u|u|u c]; cbn.
  - intros [= <-].
    destruct (add' u m h) as [h1|] eqn:E; cbn; [|exact Hb].
    exact (bounded_add _ _ _ _ Hwf Hb E).
  - intros [= <-]. apply bounded_get. exact Hb.
  - unfold clearConversationHistory.
    destruct (stored u h) as [[|s rest]| |]; try discriminate;
      intros [= <-]; try exact Hb.
    apply bounded_insert; [exact Hb|]. cbn. unfold MAX_HISTORY_LENGTH. lia.
  - intros [= <-]. apply bounded_get. exact Hb.
  - unfold clearConversationHistory_base.
    destruct (stored u h) as [[|s rest]| |]; try discriminate;
      intros [= <-]; try exact Hb.
    apply bounded_insert; [exact Hb|]. cbn. unfold MAX_HISTORY_LENGTH. lia.
  - intros [= <-]. apply bounded_personalize. exact Hb.
Qed.

Lemma bounded_runOps (os : list Op) :
  forall h h' : ConversationHistory,
  wellFormed h -> HistoryOps.bounded h ->
  runOps LLM_SYSTEM_PROMPT greeting os h = Some h' ->
  HistoryOps.bounded h'.
Proof.
  induction os as [|o os IH]; intros h h' Hwf Hb; cbn [runOps].
  - intros [= <-]. exact Hb.
  - destruct (runOp LLM_SYSTEM_PROMPT greeting o h) as [h1|] eqn:E;
      [|discriminate].
    apply IH.
    + exact (wellFormed_runOp _ _ _ _ _ Hwf E).
    + exact (bounded_runOp _ _ _ Hwf Hb E).
Qed.

(** In a store whose arrays are not empty, the only reset that leaves the
    store without description is one for a name the store inherits. *)
Lemma runOp_total (o : Op) (h : ConversationHistory) :
  wellFormed h -> HistoryOps.resetsInherited o = false ->
  exists h', runOp LLM_SYSTEM_PROMPT greeting o h = Some h'.
Proof.
  intros Hwf Hr. destruct o as [u m|u|u|u|u|u c]; cbn [runOp]; eauto;
    unfold HistoryOps.resetsInherited in Hr.
  - unfold clearConversationHistory, stored.
    destruct (h !! u) as [[|s rest]|] eqn:E; [|eauto|rewrite Hr; eauto].
    destruct (Hwf _ _ E) as (s & rest & [=] & _).
  - unfold clearConversationHistory_base, stored.
    destruct (h !! u) as [[|s rest]|] eqn:E; [|eauto|rewrite Hr; eauto].
    destruct (Hwf _ _ E) as (s & rest & [=] & _).
Qed.

Lemma runOps_total (os : list Op) :
  forall h : ConversationHistory,
  wellFormed h ->
  Forall (fun o => HistoryOps.resetsInherited o = false) os ->
  exists h', runOps LLM_SYSTEM_PROMPT greeting os h = Some h'.
Proof.
  induction os as [|o os IH]; intros h Hwf Hos; cbn [runOps]; [eauto|].
  inversion Hos as [|? ? Ho Hos']; subst.
  destruct (runOp_total o h Hwf Ho) as [h1 E]. rewrite E.
  apply IH; [|exact Hos'].
  exact (wellFormed_runOp _ _ _ _ _ Hwf E).
Qed.

End HistoryStoreFacts.

(** X1.  An operation on the history store changes the history of the
    user it is called for and of nobody else: for every other name, what
    the store holds or inherits under it is the same before and after an
    append, a read, the personalisation of the prompt, and a reset that
    finds an array with a first entry, or nothing.  The other resets are
    the ones after which the store is none that the embedding describes:
    a reset for a name that holds an empty array or that the store
    inherits.  (Under [__proto__] the code then replaces the prototype
    of the store, and with it what every name without a history
    finds.) *)
Theorem history_ops_touch_one_user (LLM_SYSTEM_PROMPT greeting : string)
    (o : History.Op) (h : History.ConversationHistory) :
  (forall h' other,
     History.runOp LLM_SYSTEM_PROMPT greeting o h = Some h' ->
     HistoryOps.opUser o <> other ->
     h' !! other = h !! other
     /\ History.stored other h' = History.stored other h)
  /\ (History.runOp LLM_SYSTEM_PROMPT greeting o h = None
      <-> exists userId,
            (o = History.OpClear userId \/ o = History.OpClearBase userId)
            /\ (History.stored userId h = History.Inherited
                \/ History.stored userId h = History.Own [])).
Proof.
  split.
  - intros h' other Hrun Hne.
    pose proof (runOp_other _ _ _ _ _ _ Hrun Hne) as E.
    split; [exact E|]. unfold History.stored. rewrite E. reflexivity.
  - destruct o as [u m|u|u|u|u|u c]; cbn [History.runOp];
      try (split; [discriminate|];
           intros (userId & [E|E] & _); discriminate E).
    + unfold History.clearConversationHistory.
      destruct (History.stored u h) as [[|s rest]| |] eqn:Es.
      * split; [intros _; exists u; auto|reflexivity].
      * split; [discriminate|].
        intros (userId & [[= <-]|[=]] & [E|E]); congruence.
      * split; [intros _; exists u; auto|reflexivity].
      * split; [discriminate|].
        intros (userId & [[= <-]|[=]] & [E|E]); congruence.
    + unfold History.clearConversationHistory_base.
      destruct (History.stored u h) as [[|s rest]| |] eqn:Es.
      * split; [intros _; exists u; auto|reflexivity].
      * split; [discriminate|].
        intros (userId & [[=]|[= <-]] & [E|E]); congruence.
      * split; [intros _; exists u; auto|reflexivity].
      * split; [discriminate|].
        intros (userId & [[=]|[= <-]] & [E|E]); congruence.
Qed.

(** An append for user 1 leaves the history of user 2 as it was. *)
Lemma history_ops_touch_one_user_witness :
  let h0 := snd (History.getConversationHistory "prompt" "Hello!" "2" ∅) in
  exists h',
    History.runOp "prompt" "Hello!" (History.OpAdd "1" (Sample.hello 0)) h0
    = Some h'
    /\ h' !! "2" = h0 !! "2".
Proof.
  intros h0. eexists. split; [reflexivity|].
  refine (proj1 (proj1 (history_ops_touch_one_user "prompt" "Hello!"
                          (History.OpAdd "1" (Sample.hello 0)) h0)
                   _ "2" eq_refl _)).
  cbn. discriminate.
Defined.

(** X2.  Whatever sequence of appends, reads, resets and prompt
    personalisations has run since the process started, for whatever
    users, every stored history starts with a system message and holds
    at most [MAX_HISTORY_LENGTH + 1] entries.  An append that throws is
    part of such a sequence; the sequences left out are those with a
    reset that stores an array without first entry, and there is none
    among the sequences whose resets are for names that
    [Object.prototype] does not define. *)
Theorem reachable_histories_bounded (LLM_SYSTEM_PROMPT greeting : string)
    (ops : list History.Op) :
  (Forall (fun o => HistoryOps.resetsInherited o = false) ops ->
   exists h, History.runOps LLM_SYSTEM_PROMPT greeting ops ∅ = Some h)
  /\ forall (h : History.ConversationHistory) (userId : string)
            (l : list History.Message),
       History.runOps LLM_SYSTEM_PROMPT greeting ops ∅ = Some h ->
       h !! userId = Some l ->
       (exists s rest, l = s :: rest /\ History.role s = History.system)
       /\ length l <= History.MAX_HISTORY_LENGTH + 1.
Proof.
  split.
  - apply runOps_total. apply wellFormed_empty.
  - intros h userId l Hrun H. split.
    + exact (wellFormed_runOps LLM_SYSTEM_PROMPT greeting ops _ _
               wellFormed_empty Hrun _ _ H).
    + exact (bounded_runOps LLM_SYSTEM_PROMPT greeting ops _ _
               wellFormed_empty bounded_empty Hrun _ _ H).
Qed.

(** A read followed by thirty appends. *)
Lemma reachable_histories_bounded_witness :
  exists h l,
    History.runOps "prompt" "Hello!"
      (History.OpGet "1" :: map (fun i => History.OpAdd "1" (Sample.hello i))
                                (seq 0 30)) ∅ = Some h
    /\ h !! "1" = Some l
    /\ length l <= 11.
Proof.
  destruct (proj1 (reachable_histories_bounded "prompt" "Hello!"
              (History.OpGet "1"
               :: map (fun i => History.OpAdd "1" (Sample.hello i))
                      (seq 0 30)))) as [h Hrun].
  { cbn. repeat constructor. }
  assert (Hl : exists l, h !! "1" = Some l).
  { destruct (h !! "1") as [l|] eqn:E; [eauto|].
    exfalso. revert E. vm_compute in Hrun. injection Hrun as <-.
    vm_compute. discriminate. }
  destruct Hl as [l Hl]. exists h, l.
  split; [exact Hrun|]. split; [exact Hl|].
  exact (proj2 (proj2 (reachable_histories_bounded "prompt" "Hello!"
                         (History.OpGet "1"
                          :: map (fun i => History.OpAdd "1" (Sample.hello i))
                                 (seq 0 30))) h "1" l Hrun Hl)).
Defined.

(** X3.  An append throws exactly when the user id names a property the
    store inherits and does not hold itself.  In every other case the
    message just appended is the last entry of the user's history: the
    eviction never drops the newest message, whatever the store held
    before. *)
Theorem appended_message_is_last (LLM_SYSTEM_PROMPT : string)
    (userId : string) (message : History.Message)
    (h : History.ConversationHistory) :
  (History.addToConversationHistory LLM_SYSTEM_PROMPT userId message h = None
   <-> History.stored userId h = History.Inherited)
  /\ (History.stored userId h <> History.Inherited ->
      exists h' l,
        History.addToConversationHistory LLM_SYSTEM_PROMPT userId message h
        = Some h'
        /\ h' !! userId = Some l
        /\ last l = Some message).
Proof.
  split; [symmetry; apply add_inherited|].
  intros Hni. unfold History.addToConversationHistory.
  assert (Hpush : forall cur,
    exists l, History.push userId message cur h !! userId = Some l
              /\ last l = Some message).
  { intros cur. unfold History.push. destruct (_ <? _) eqn:E.
    - destruct (cur ++ [message])%list as [|s pushed] eqn:Ep.
      { destruct cur; discriminate Ep. }
      eexists. split; [apply lookup_insert_eq|].
      apply Nat.ltb_lt in E. rewrite <- Ep in *.
      rewrite length_app in *. cbn [length] in *.
      unfold History.MAX_HISTORY_LENGTH in *.
      rewrite drop_app_le by lia.
      change (s :: (drop (length cur + 1 - 10) cur ++ [message])%list)
        with ((s :: drop (length cur + 1 - 10) cur) ++ [message])%list.
      apply last_snoc.
    - eexists. split; [apply lookup_insert_eq|]. apply last_snoc. }
  destruct (History.stored userId h) as [cur| |]; [|contradiction|].
  - destruct (Hpush cur) as (l & Hl & Hlast). eauto.
  - destruct (Hpush [History.systemPrompt LLM_SYSTEM_PROMPT])
      as (l & Hl & Hlast). eauto.
Qed.

(** The first append for a user. *)
Lemma appended_message_is_last_witness :
  exists h' l,
    History.addToConversationHistory "prompt" "1" (Sample.hello 0) ∅ = Some h'
    /\ h' !! "1" = Some l
    /\ last l = Some (Sample.hello 0).
Proof.
  apply (proj2 (appended_message_is_last "prompt" "1" (Sample.hello 0) ∅)).
  discriminate.
Defined.

(** X4.  Resetting a user's history after any number of appends leaves
    exactly two entries in the extended agent, the history's first entry
    and the greeting, and exactly the first entry in the base agent;
    resetting the history of a user for whom the store holds and
    inherits nothing stores nothing. *)
Theorem clear_keeps_first_entry_only (LLM_SYSTEM_PROMPT greeting : string)
    (h : History.ConversationHistory) (userId : string)
    (s : History.Message) (rest messages : list History.Message) :
  History.current LLM_SYSTEM_PROMPT userId h = Some (s :: rest) ->
  messages <> [] ->
  (exists h' hc hb,
     History.appendAll LLM_SYSTEM_PROMPT userId messages h = Some h'
     /\ History.clearConversationHistory greeting userId h' = Some hc
     /\ hc !! userId = Some [s; History.greetingMessage greeting]
     /\ History.clearConversationHistory_base userId h' = Some hb
     /\ hb !! userId = Some [s])
  /\ (History.stored userId h = History.Missing ->
      History.clearConversationHistory greeting userId h = Some h
      /\ History.clearConversationHistory_base userId h = Some h).
Proof.
  intros Hc Hne. split.
  - destruct messages as [|m ms]; [congruence|].
    destruct (appendAll_cons LLM_SYSTEM_PROMPT userId m ms h s rest Hc)
      as (h' & Happ & Hst & _).
    exists h'. do 2 eexists. split; [exact Happ|].
    unfold History.clearConversationHistory,
      History.clearConversationHistory_base.
    rewrite (stored_own _ _ _ Hst).
    split; [reflexivity|]. split; [apply lookup_insert_eq|].
    split; [reflexivity|]. apply lookup_insert_eq.
  - intros Hm. unfold History.clearConversationHistory,
      History.clearConversationHistory_base.
    rewrite Hm. split; reflexivity.
Qed.

(** Twelve appends for a new user, then a reset. *)
Lemma clear_keeps_first_entry_only_witness :
  exists h' hc,
    History.appendAll "prompt" "1" (map Sample.hello (seq 0 12)) ∅ = Some h'
    /\ History.clearConversationHistory "Hello!" "1" h' = Some hc
    /\ hc !! "1"
       = Some [History.systemPrompt "prompt"; History.greetingMessage "Hello!"].
Proof.
  destruct (clear_keeps_first_entry_only "prompt" "Hello!" ∅ "1"
              (History.systemPrompt "prompt") []
              (map Sample.hello (seq 0 12)))
    as [(h' & hc & hb & Happ & Hc & Hs & _) _].
  - reflexivity.
  - discriminate.
  - exists h', hc. split; [exact Happ|]. split; [exact Hc | exact Hs].
Defined.

(** X5.  For a user for whom the store holds and inherits nothing, the
    greeting entry exists only if the history was first read: reading
    after an append gives the system prompt and the message, appending
    after a read gives the system prompt, the greeting and the
    message. *)
Theorem greeting_depends_on_first_access
    (LLM_SYSTEM_PROMPT greeting : string)
    (h : History.ConversationHistory) (userId : string)
    (message : History.Message) :
  History.stored userId h = History.Missing ->
  (exists h1,
     History.addToConversationHistory LLM_SYSTEM_PROMPT userId message h
     = Some h1
     /\ fst (History.getConversationHistory LLM_SYSTEM_PROMPT greeting
               userId h1)
        = History.Messages [History.systemPrompt LLM_SYSTEM_PROMPT; message])
  /\ (exists h2,
        History.addToConversationHistory LLM_SYSTEM_PROMPT userId message
          (snd (History.getConversationHistory LLM_SYSTEM_PROMPT greeting
                  userId h))
        = Some h2
        /\ h2 !! userId
           = Some [History.systemPrompt LLM_SYSTEM_PROMPT;
                   History.greetingMessage greeting; message]).
Proof.
  intros Hm. split.
  - unfold History.getConversationHistory, History.addToConversationHistory.
    rewrite Hm. eexists. split; [reflexivity|].
    cbn. rewrite stored_insert. reflexivity.
  - unfold History.getConversationHistory, History.addToConversationHistory.
    rewrite Hm. cbn. rewrite stored_insert. eexists. split; [reflexivity|].
    cbn. rewrite lookup_insert_eq. reflexivity.
Qed.

Lemma greeting_depends_on_first_access_witness :
  exists h1,
    History.addToConversationHistory "prompt" "1" (Sample.hello 0) ∅ = Some h1
    /\ fst (History.getConversationHistory "prompt" "Hello!" "1" h1)
       = History.Messages [History.systemPrompt "prompt"; Sample.hello 0].
Proof.
  refine (proj1 (greeting_depends_on_first_access "prompt" "Hello!" ∅ "1"
                   (Sample.hello 0) _)).
  reflexivity.
Defined.

(** ** Literal words under the i flag *)

Section LiteralFacts.
Import JsString RegExp.

Local Open Scope list_scope.

Lemma In_allChars (c : ascii) : In c Chars.allChars.
Proof.
  unfold Chars.allChars. rewrite <- (ascii_nat_embedding c).
  apply in_map, in_seq. pose proof (nat_ascii_bounded c). lia.
Qed.

(** Two code units the i flag identifies have the same lower case. *)
Lemma canonicalize_toLowerChar (c x : ascii) :
  canonicalize c = canonicalize x -> toLowerChar c = toLowerChar x.
Proof.
  assert (H : forallb (fun c => forallb (fun x =>
                implb (Ascii.eqb (canonicalize c) (canonicalize x))
                      (Ascii.eqb (toLowerChar c) (toLowerChar x)))
                Chars.allChars) Chars.allChars = true)
    by (vm_compute; reflexivity).
  rewrite forallb_forall in H. specialize (H c (In_allChars c)).
  rewrite forallb_forall in H. specialize (H x (In_allChars x)).
  intros E. apply Ascii.eqb_eq in E. rewrite E in H. cbn in H.
  apply Ascii.eqb_eq. exact H.
Qed.

(** The converse, for an ASCII code unit of the pattern. *)
Lemma toLowerChar_canonicalize (c x : ascii) :
  (code x <? 128)%N = true ->
  toLowerChar c = toLowerChar x -> canonicalize c = canonicalize x.
Proof.
  assert (H : forallb (fun c => forallb (fun x =>
                implb ((code x <? 128)%N
                       && Ascii.eqb (toLowerChar c) (toLowerChar x))
                      (Ascii.eqb (canonicalize c) (canonicalize x)))
                Chars.allChars) Chars.allChars = true)
    by (vm_compute; reflexivity).
  rewrite forallb_forall in H. specialize (H c (In_allChars c)).
  rewrite forallb_forall in H. specialize (H x (In_allChars x)).
  intros Hx E. apply Ascii.eqb_eq in E. rewrite Hx, E in H. cbn in H.
  apply Ascii.eqb_eq. exact H.
Qed.

Lemma toLowerCase_of_list (l : list ascii) :
  toLowerCase (string_of_list_ascii l)
  = string_of_list_ascii (map toLowerChar l).
Proof. induction l as [|c l IH]; cbn; [reflexivity|]. rewrite IH. reflexivity. Qed.

Lemma string_of_list_ascii_app (l k : list ascii) :
  string_of_list_ascii (l ++ k)
  = (string_of_list_ascii l ++ string_of_list_ascii k)%string.
Proof.
  induction l as [|c l IH]; [reflexivity|].
  change (String c (string_of_list_ascii (l ++ k))
          = String c (string_of_list_ascii l ++ string_of_list_ascii k)%string).
  rewrite IH. reflexivity.
Qed.

Lemma string_app_assoc (a b c : string) :
  ((a ++ b) ++ c = a ++ (b ++ c))%string.
Proof.
  induction a as [|x a IH]; [reflexivity|].
  change (String x ((a ++ b) ++ c) = String x (a ++ (b ++ c)))%string.
  rewrite IH. reflexivity.
Qed.

Lemma drop_cons_lookup {A} (l : list A) (i : nat) (c : A) (rest : list A) :
  drop i l = c :: rest -> l !! i = Some c.
Proof.
  intros E. pose proof (lookup_drop l i 0) as H. rewrite E in H.
  rewrite Nat.add_0_r in H. symmetry. exact H.
Qed.

Variable input : list ascii.

Lemma Matches_Seq_inv (r1 r2 : regex) (i j : nat) :
  Matches input (Seq r1 r2) i j ->
  exists k, Matches input r1 i k /\ Matches input r2 k j.
Proof. inversion 1; subst. eauto. Qed.

Lemma Matches_Class_inv (p : ascii -> bool) (i j : nat) :
  Matches input (Class p) i j ->
  j = S i /\ exists c, input !! i = Some c /\ p c = true.
Proof. inversion 1; subst. eauto. Qed.

Lemma Matches_Bol_inv (i j : nat) :
  Matches input Bol i j -> i = 0 /\ j = 0.
Proof. inversion 1; subst. auto. Qed.

Lemma Matches_Plus_inv (p : ascii -> bool) (i j : nat) :
  Matches input (Plus (Class p)) i j ->
  S i <= j /\ exists c, input !! i = Some c /\ p c = true.
Proof.
  intros H. apply Matches_Seq_inv in H as (k & H1 & H2).
  apply Matches_Class_inv in H1 as (-> & c & Hc & Hp).
  apply Matches_range in H2. split; [lia|eauto].
Qed.

(** What a literal word matches: as many code units as the word has,
    each equal to the word's up to case. *)
Lemma lit_i_Matches (w : string) :
  forall i j,
  Matches input (lit_i w) i j <->
  j = i + String.length w
  /\ Forall2 (fun c x => canonicalize c = canonicalize x)
       (take (String.length w) (drop i input)) (list_ascii_of_string w).
Proof.
  induction w as [|x w IH]; intros i j.
  - cbn. split.
    + inversion 1; subst. split; [lia|constructor].
    + intros [-> _]. rewrite Nat.add_0_r. constructor.
  - assert (Hone : forall i j,
      Matches input (chr_i x) i j <->
      j = S i /\ exists c, input !! i = Some c
                           /\ canonicalize c = canonicalize x).
    { intros a b. unfold chr_i. split.
      - intros H. apply Matches_Class_inv in H as (-> & c & Hc & Hp).
        apply Ascii.eqb_eq in Hp. eauto.
      - intros (-> & c & Hc & Hp). econstructor; [exact Hc|].
        apply Ascii.eqb_eq. exact Hp. }
    destruct w as [|y w].
    + cbn [lit_i String.length list_ascii_of_string]. rewrite Hone. split.
      * intros (-> & c & Hc & Hp). split; [lia|].
        rewrite (drop_S _ _ _ Hc). cbn. repeat constructor. exact Hp.
      * intros (-> & HF). split; [lia|].
        destruct (drop i input) as [|c rest] eqn:E; cbn in HF;
          [inversion HF|].
        inversion HF; subst. exists c. split; [|assumption].
        apply drop_cons_lookup with (rest := rest). exact E.
    + change (lit_i (String x (String y w)))
        with (Seq (chr_i x) (lit_i (String y w))).
      set (w' := String y w) in *.
      change (String.length (String x w')) with (S (String.length w')).
      change (list_ascii_of_string (String x w'))
        with (x :: list_ascii_of_string w').
      split.
      * intros H. apply Matches_Seq_inv in H as (k & H1 & H2).
        apply Hone in H1 as (-> & c & Hc & Hp).
        apply IH in H2 as (-> & HF). split; [lia|].
        rewrite (drop_S _ _ _ Hc). cbn [take]. constructor; assumption.
      * intros (-> & HF).
        destruct (drop i input) as [|c rest] eqn:E; cbn in HF;
          [inversion HF|].
        inversion HF as [|? ? ? ? Hp HF']; subst.
        assert (Hc : input !! i = Some c)
          by (apply drop_cons_lookup with (rest := rest); exact E).
        apply MSeq with (k := S i).
        -- apply Hone. eauto.
        -- apply IH. split; [lia|].
           rewrite (drop_S _ _ _ Hc) in E. injection E as <-. exact HF'.
Qed.

End LiteralFacts.

Section WordFacts.
Import JsString RegExp.

Local Open Scope list_scope.

Lemma list_ascii_of_string_app (a b : string) :
  list_ascii_of_string (a ++ b)%string
  = list_ascii_of_string a ++ list_ascii_of_string b.
Proof.
  induction a as [|x a IH]; [reflexivity|].
  change (x :: list_ascii_of_string (a ++ b)%string
          = x :: (list_ascii_of_string a ++ list_ascii_of_string b)).
  rewrite IH. reflexivity.
Qed.

Lemma length_list_ascii_of_string (s : string) :
  length (list_ascii_of_string s) = String.length s.
Proof. induction s as [|x s IH]; cbn; [reflexivity|]. rewrite IH. reflexivity. Qed.

Lemma toLowerCase_list (s : string) :
  list_ascii_of_string (toLowerCase s)
  = map toLowerChar (list_ascii_of_string s).
Proof. induction s as [|x s IH]; cbn; [reflexivity|]. rewrite IH. reflexivity. Qed.

Lemma Forall2_canonicalize_lower (l k : list ascii) :
  Forall2 (fun c x => canonicalize c = canonicalize x) l k ->
  map toLowerChar l = map toLowerChar k.
Proof.
  induction 1 as [|c x l k Hcx _ IH]; cbn; [reflexivity|].
  rewrite IH, (canonicalize_toLowerChar c x Hcx). reflexivity.
Qed.

Lemma lower_Forall2_canonicalize (l k : list ascii) :
  Forall (fun x => (code x <? 128)%N = true) k ->
  map toLowerChar l = map toLowerChar k ->
  Forall2 (fun c x => canonicalize c = canonicalize x) l k.
Proof.
  intros Hk. revert l. induction Hk as [|x k Hx _ IH]; intros [|c l] E;
    try discriminate E; constructor.
  - injection E as E1 _. apply toLowerChar_canonicalize; assumption.
  - injection E as _ E2. apply IH. exact E2.
Qed.

(** A literal word followed by whitespace, at the start of the input. *)
Lemma word_then_space (w s : string) (k j : nat) :
  Matches (list_ascii_of_string s) (lit_i w) 0 k ->
  Matches (list_ascii_of_string s) (Plus ws) k j ->
  exists word c,
    s = (word ++ String c
           (string_of_list_ascii (drop (S k) (list_ascii_of_string s))))%string
    /\ toLowerCase word = toLowerCase w
    /\ isSpace c = true
    /\ k = String.length w.
Proof.
  set (input := list_ascii_of_string s).
  intros Hw Hs. apply lit_i_Matches in Hw as (-> & HF). cbn in HF |- *.
  apply Matches_Plus_inv in Hs as (_ & c & Hc & Hp). cbn in Hc.
  unfold drop in HF at 1.
  exists (string_of_list_ascii (take (String.length w) input)), c.
  split; [|split; [|split; [exact Hp|reflexivity]]].
  - rewrite <- (string_of_list_ascii_of_string s) at 1. fold input.
    rewrite <- (take_drop_middle _ _ _ Hc) at 1.
    rewrite string_of_list_ascii_app. reflexivity.
  - rewrite toLowerCase_of_list, (Forall2_canonicalize_lower _ _ HF).
    rewrite <- toLowerCase_list. apply string_of_list_ascii_of_string.
Qed.

(** The converse, for a word of ASCII code units. *)
Lemma space_after_word (w word rest : string) (c : ascii) :
  Forall (fun x => (code x <? 128)%N = true) (list_ascii_of_string w) ->
  toLowerCase word = toLowerCase w ->
  isSpace c = true ->
  let input := list_ascii_of_string (word ++ String c rest)%string in
  Matches input (lit_i w) 0 (String.length w)
  /\ Matches input (Plus ws) (String.length w) (S (String.length w)).
Proof.
  intros Hw Hl Hc input.
  assert (Hin : input = list_ascii_of_string word
                        ++ c :: list_ascii_of_string rest).
  { unfold input. rewrite list_ascii_of_string_app. reflexivity. }
  assert (Hlen : length (list_ascii_of_string word) = String.length w).
  { apply (f_equal list_ascii_of_string) in Hl. rewrite !toLowerCase_list in Hl.
    apply (f_equal length) in Hl. rewrite !length_map in Hl.
    rewrite Hl. apply length_list_ascii_of_string. }
  split.
  - apply lit_i_Matches. split; [reflexivity|].
    unfold drop at 1. rewrite Hin, <- Hlen, take_app_length.
    apply lower_Forall2_canonicalize; [exact Hw|].
    rewrite <- !toLowerCase_list. rewrite Hl. reflexivity.
  - unfold Plus. apply MSeq with (k := S (String.length w)); [|constructor].
    apply MClass with (c := c); [|exact Hc].
    rewrite Hin, <- Hlen. apply list_lookup_middle. reflexivity.
Qed.

(** A literal word matched at or after index [n] occurs, up to case, in
    the text from [n] on. *)
Lemma lit_i_contains (w : string) (input : list ascii) (n a b : nat) :
  n <= a ->
  Matches input (lit_i w) a b ->
  MatcherSpec.contains
    (toLowerCase (string_of_list_ascii (drop n input))) (toLowerCase w).
Proof.
  intros Hn Hw. apply lit_i_Matches in Hw as (-> & HF).
  apply Forall2_canonicalize_lower in HF.
  exists (string_of_list_ascii
            (map toLowerChar (take (a - n) (drop n input)))),
         (string_of_list_ascii
            (map toLowerChar (drop (String.length w) (drop a input)))).
  rewrite toLowerCase_of_list.
  rewrite <- (string_of_list_ascii_of_string (toLowerCase w)).
  rewrite toLowerCase_list, <- HF, <- !string_of_list_ascii_app, <- !map_app.
  rewrite take_drop. f_equal. f_equal.
  rewrite <- (take_drop (a - n) (drop n input)) at 1. f_equal.
  rewrite drop_drop. f_equal. lia.
Qed.

End WordFacts.

(** ** Guardrail: what an approved statement looks like *)

Lemma Matches_allowed_select (s : string) (i j : nat) (tail : RegExp.regex) :
  RegExp.Matches (list_ascii_of_string s)
    (RegExp.Seq RegExp.Bol
       (RegExp.Seq (RegExp.lit_i "SELECT")
          (RegExp.Seq (RegExp.Plus RegExp.ws)
             (RegExp.Seq (RegExp.Star RegExp.dot)
                (RegExp.Seq (RegExp.Plus RegExp.ws)
                   (RegExp.Seq (RegExp.lit_i "FROM") tail)))))) i j ->
  exists word c rest,
    s = word ++ String c rest
    /\ JsString.toLowerCase word = "select"
    /\ RegExp.isSpace c = true
    /\ JsString.includes (JsString.toLowerCase rest) "from" = true.
Proof.
  intros H.
  apply Matches_Seq_inv in H as (k0 & H0 & H).
  apply Matches_Bol_inv in H0 as (-> & ->).
  apply Matches_Seq_inv in H as (k1 & H1 & H).
  apply Matches_Seq_inv in H as (k2 & H2 & H).
  apply Matches_Seq_inv in H as (k3 & H3 & H).
  apply Matches_Seq_inv in H as (k4 & H4 & H).
  apply Matches_Seq_inv in H as (k5 & H5 & _).
  destruct (word_then_space _ _ _ _ H1 H2) as (word & c & Hs & Hl & Hc & Hk).
  exists word, c. eexists. split; [exact Hs|]. split; [exact Hl|].
  split; [exact Hc|].
  apply includes_iff.
  apply (lit_i_contains "FROM" _ _ k4 k5); [|exact H5].
  apply Matches_Plus_inv in H2 as (H2 & _).
  apply Matches_range in H3 as (H3 & _).
  apply Matches_range in H4 as (H4 & _). lia.
Qed.

(** X6.  A statement the guardrail of the base agent approves begins
    with the word SELECT or the word WITH, in any mix of cases, followed
    by a whitespace character, and the text after that contains FROM (in
    any mix of cases): no leading whitespace, comment or other keyword
    gets through. *)
Theorem allowed_query_starts_with_select_or_with (query : string) :
  Guardrail.isQueryAllowed query = true ->
  exists word c rest,
    query = word ++ String c rest
    /\ (JsString.toLowerCase word = "select"
        \/ JsString.toLowerCase word = "with")
    /\ RegExp.isSpace c = true
    /\ JsString.includes (JsString.toLowerCase rest) "from" = true.
Proof.
  intros H. apply isQueryAllowed_true_inv in H as (H & _).
  unfold Guardrail.isAllowedPattern, Guardrail.ALLOWED_SQL_PATTERNS in H.
  cbn [existsb] in H.
  apply orb_true_iff in H as [H|H].
  - apply test_Matches in H as (i & j & _ & H).
    apply Matches_allowed_select in H as (word & c & rest & ? & ? & ? & ?).
    exists word, c, rest. auto.
  - rewrite orb_false_r in H.
    apply test_Matches in H as (i & j & _ & H).
    cbn [RegExp.seqs] in H.
    apply Matches_Seq_inv in H as (k0 & H0 & H).
    apply Matches_Bol_inv in H0 as (-> & ->).
    apply Matches_Seq_inv in H as (k1 & H1 & H).
    apply Matches_Seq_inv in H as (k2 & H2 & H).
    apply Matches_Seq_inv in H as (k3 & H3 & H).
    apply Matches_Seq_inv in H as (k4 & H4 & H).
    apply Matches_Seq_inv in H as (k5 & H5 & H).
    apply Matches_Seq_inv in H as (k6 & H6 & H).
    apply Matches_Seq_inv in H as (k7 & H7 & H).
    apply Matches_Seq_inv in H as (k8 & H8 & H).
    apply Matches_Seq_inv in H as (k9 & H9 & _).
    destruct (word_then_space _ _ _ _ H1 H2) as (word & c & Hs & Hl & Hc & Hk).
    exists word, c. eexists. split; [exact Hs|]. split; [right; exact Hl|].
    split; [exact Hc|].
    apply includes_iff.
    apply (lit_i_contains "FROM" _ _ k8 k9); [|exact H9].
    apply Matches_Plus_inv in H2 as (H2 & _).
    apply Matches_range in H3 as (H3 & _).
    apply Matches_range in H4 as (H4 & _).
    apply Matches_range in H5 as (H5 & _).
    apply Matches_range in H6 as (H6 & _).
    apply Matches_range in H7 as (H7 & _).
    apply Matches_range in H8 as (H8 & _). lia.
Qed.

Lemma allowed_query_starts_with_select_or_with_witness :
  exists word c rest,
    "select id FROM Products" = word ++ String c rest
    /\ (JsString.toLowerCase word = "select"
        \/ JsString.toLowerCase word = "with")
    /\ RegExp.isSpace c = true
    /\ JsString.includes (JsString.toLowerCase rest) "from" = true.
Proof.
  apply (allowed_query_starts_with_select_or_with "select id FROM Products").
  vm_compute. reflexivity.
Defined.

(** ** The SQL tool: which statements reach the database, and how *)

(** [/^UPDATE\s+/i] holds of the statements that begin with the word
    UPDATE and a whitespace character. *)
Lemma updatePattern_startsWithWord (query : string) :
  RegExp.test Chatbot.updatePattern query = true
  <-> Chars.startsWithWord "update" query.
Proof.
  rewrite test_Matches. unfold Chatbot.updatePattern, Chars.startsWithWord.
  cbn [RegExp.seqs]. split.
  - intros (i & j & _ & H).
    apply Matches_Seq_inv in H as (k0 & H0 & H).
    apply Matches_Bol_inv in H0 as (-> & ->).
    apply Matches_Seq_inv in H as (k1 & H1 & H2).
    destruct (word_then_space _ _ _ _ H1 H2) as (word & c & Hs & Hl & Hc & Hk).
    exists word, c. eexists. split; [exact Hs|]. split; [exact Hl|exact Hc].
  - intros (word & c & rest & -> & Hl & Hc).
    destruct (space_after_word "UPDATE" word rest c) as (H1 & H2);
      [repeat constructor|exact Hl|exact Hc|].
    exists 0, 7. split; [lia|].
    apply RegExp.MSeq with (k := 0); [constructor|].
    apply RegExp.MSeq with (k := 6); assumption.
Qed.

Lemma executeSqlQuery_update (env : Chatbot.Env) (query : string)
    (explanation : Js.JsValue) :
  Chatbot.security_isDatabaseOperationAllowed env (Js.JStr query) = true ->
  RegExp.test Chatbot.updatePattern query = true ->
  Chatbot.executeSqlQuery env (Js.JStr query) explanation
  = ([Chatbot.EvIsDatabaseOperationAllowed (Js.JStr query);
      Chatbot.EvSequelizeQuery query Chatbot.UPDATE],
     match Chatbot.sequelize_update env query with
     | Js.Normal results =>
         Js.Normal (Chatbot.SqlUpdated results explanation
           "Update operation completed successfully"
           (if Js.truthy (snd results) then snd results
            else Js.JNum (Js.Fin 0)))
     | Js.Throw message =>
         Js.Normal (Chatbot.SqlError
           ("Failed to execute SQL query: " ++ message) explanation)
     end).
Proof.
  intros Ha Hu.
  unfold Chatbot.executeSqlQuery, Chatbot.isQueryAllowed,
    Js.try_catch, Js.bind, Js.call, Js.ret.
  rewrite Ha, Hu. cbn.
  destruct (Chatbot.sequelize_update env query); reflexivity.
Qed.

(** An approved query that is neither a string nor an array that has a
    text. *)
Lemma executeSqlQuery_other (env : Chatbot.Env)
    (query explanation : Js.JsValue) :
  (forall q, query <> Js.JStr q) ->
  (forall elements,
     query = Js.JArray elements -> Js.convertible query = false) ->
  Chatbot.security_isDatabaseOperationAllowed env query = true ->
  Chatbot.executeSqlQuery env query explanation
  = ([Chatbot.EvIsDatabaseOperationAllowed query],
     Js.Normal (Chatbot.SqlError
       ("Failed to execute SQL query: " ++ Chatbot.typeErrorMessage env)
       explanation)).
Proof.
  intros Hq Hl Ha.
  unfold Chatbot.executeSqlQuery, Chatbot.isQueryAllowed,
    Js.try_catch, Js.bind, Js.call, Js.ret.
  rewrite Ha. destruct query as [| |b|n|q|l|f]; try reflexivity.
  - exfalso. exact (Hq q eq_refl).
  - rewrite (Hl l eq_refl). reflexivity.
Qed.

(** An approved array that has a text: the call it leads to and the
    result. *)
Lemma executeSqlQuery_array (env : Chatbot.Env) (elements : list Js.JsValue)
    (explanation : Js.JsValue) :
  Js.convertible (Js.JArray elements) = true ->
  Chatbot.security_isDatabaseOperationAllowed env (Js.JArray elements) = true ->
  exists ev r,
    Chatbot.executeSqlQuery env (Js.JArray elements) explanation
    = ([Chatbot.EvIsDatabaseOperationAllowed (Js.JArray elements); ev],
       Js.Normal r)
    /\ ev = (if RegExp.test Chatbot.updatePattern
                  (Chatbot.toString env (Js.JArray elements))
             then Chatbot.EvSequelizeQueryArray elements Chatbot.UPDATE
             else if Js.arrayHasString elements "LIMIT"
             then Chatbot.EvSequelizeQueryArray elements Chatbot.SELECT
             else Chatbot.EvSequelizeQuery
                    (Chatbot.toString env (Js.JArray elements) ++ " LIMIT 100")
                    Chatbot.SELECT).
Proof.
  intros Hc Ha.
  unfold Chatbot.executeSqlQuery, Chatbot.isQueryAllowed,
    Js.try_catch, Js.bind, Js.call, Js.ret.
  rewrite Ha, Hc. cbn [negb].
  destruct (RegExp.test Chatbot.updatePattern _).
  - destruct (Chatbot.sequelize_update_array env elements); cbn; eauto.
  - destruct (Js.arrayHasString elements "LIMIT").
    + destruct (Chatbot.sequelize_select_array env elements); cbn; eauto.
    + destruct (Chatbot.sequelize_select env _); cbn; eauto.
Qed.

(** X7.  A statement the guardrail approves is run as an UPDATE exactly
    when it begins with the word UPDATE, in any mix of cases, followed by
    a whitespace character.  It is then sent to the database as it is,
    with no LIMIT clause added, and [affectedRows] is the second
    component of the database's answer, or 0 when that is falsy.  Every
    other approved statement is run as a SELECT. *)
Theorem sql_update_runs_verbatim (env : Chatbot.Env) (query : string)
    (explanation : Js.JsValue) :
  Chatbot.security_isDatabaseOperationAllowed env (Js.JStr query) = true ->
  let run := Chatbot.executeSqlQuery env (Js.JStr query) explanation in
  (Chars.startsWithWord "update" query ->
   Js.trace run = [Chatbot.EvIsDatabaseOperationAllowed (Js.JStr query);
                   Chatbot.EvSequelizeQuery query Chatbot.UPDATE]
   /\ forall results,
        Chatbot.sequelize_update env query = Js.Normal results ->
        Js.outcome run
        = Js.Normal (Chatbot.SqlUpdated results explanation
            "Update operation completed successfully"
            (if Js.truthy (snd results) then snd results
             else Js.JNum (Js.Fin 0))))
  /\ (~ Chars.startsWithWord "update" query ->
      Js.trace run = [Chatbot.EvIsDatabaseOperationAllowed (Js.JStr query);
                      Chatbot.EvSequelizeQuery (Chatbot.limited query)
                                               Chatbot.SELECT]).
Proof.
  intros Hallowed run. split.
  - intros Hu. apply updatePattern_startsWithWord in Hu.
    subst run. rewrite (executeSqlQuery_update env query explanation Hallowed Hu).
    split; [reflexivity|]. intros results E. cbn. rewrite E. reflexivity.
  - intros Hu.
    assert (E : RegExp.test Chatbot.updatePattern query = false).
    { destruct (RegExp.test Chatbot.updatePattern query) eqn:E; [|reflexivity].
      apply updatePattern_startsWithWord in E. contradiction. }
    subst run. rewrite (executeSqlQuery_read env query explanation Hallowed E).
    reflexivity.
Qed.

(** An approved UPDATE in a shop whose guardrail approves everything. *)
Lemma sql_update_runs_verbatim_witness :
  Js.trace (Chatbot.executeSqlQuery Fixtures.approving
              (Js.JStr "update Users SET role = 'admin'") Js.JNull)
  = [Chatbot.EvIsDatabaseOperationAllowed
       (Js.JStr "update Users SET role = 'admin'");
     Chatbot.EvSequelizeQuery "update Users SET role = 'admin'" Chatbot.UPDATE].
Proof.
  refine (proj1 (proj1 (sql_update_runs_verbatim Fixtures.approving
                   "update Users SET role = 'admin'" Js.JNull _) _)).
  - reflexivity.
  - exists "update", " "%char, "Users SET role = 'admin'".
    repeat split; reflexivity.
Defined.

(** X8.  The SQL tool never throws: for every query, explanation and
    environment it returns a result object.  When the guardrail rejects
    the query the database is not called at all, and neither is it for an
    approved query that is neither a string nor an array that has a
    text.  An approved array that has a text is handed to the database:
    as the array itself when its text begins with UPDATE or one of its
    elements is the string LIMIT, and otherwise as its text followed by
    [ LIMIT 100].  When the guardrail approves a string and the database
    call fails with message [m], the result is
    [{ error: 'Failed to execute SQL query: ' + m, explanation }]. *)
Theorem sql_tool_errors_are_results (env : Chatbot.Env)
    (query explanation : Js.JsValue) :
  let run := Chatbot.executeSqlQuery env query explanation in
  (exists r, Js.outcome run = Js.Normal r)
  /\ (Chatbot.security_isDatabaseOperationAllowed env query = false ->
      Js.trace run = [Chatbot.EvIsDatabaseOperationAllowed query])
  /\ ((forall q, query <> Js.JStr q) ->
      (forall elements,
         query = Js.JArray elements -> Js.convertible query = false) ->
      Js.trace run = [Chatbot.EvIsDatabaseOperationAllowed query])
  /\ (forall elements,
        query = Js.JArray elements ->
        Js.convertible query = true ->
        Chatbot.security_isDatabaseOperationAllowed env query = true ->
        Js.trace run
        = [Chatbot.EvIsDatabaseOperationAllowed query;
           if RegExp.test Chatbot.updatePattern (Chatbot.toString env query)
           then Chatbot.EvSequelizeQueryArray elements Chatbot.UPDATE
           else if Js.arrayHasString elements "LIMIT"
           then Chatbot.EvSequelizeQueryArray elements Chatbot.SELECT
           else Chatbot.EvSequelizeQuery
                  (Chatbot.toString env query ++ " LIMIT 100")
                  Chatbot.SELECT])
  /\ (forall q m,
        query = Js.JStr q ->
        Chatbot.security_isDatabaseOperationAllowed env query = true ->
        (if RegExp.test Chatbot.updatePattern q
         then Chatbot.sequelize_update env q = Js.Throw m
         else Chatbot.sequelize_select env (Chatbot.limited q) = Js.Throw m) ->
        Js.outcome run
        = Js.Normal (Chatbot.SqlError ("Failed to execute SQL query: " ++ m)
                                      explanation)).
Proof.
  intros run. subst run.
  destruct (Chatbot.security_isDatabaseOperationAllowed env query) eqn:Ha.
  - assert (Hs : (exists q, query = Js.JStr q)
                 \/ (exists l, query = Js.JArray l
                               /\ Js.convertible query = true)
                 \/ ((forall q, query <> Js.JStr q)
                     /\ forall l, query = Js.JArray l ->
                                  Js.convertible query = false)).
    { destruct query as [| |b|n|q|l|f];
        try (right; right; split; discriminate); eauto.
      destruct (Js.convertible (Js.JArray l)) eqn:Ec; [eauto|].
      right; right. split; [discriminate|]. intros l' _. reflexivity. }
    destruct Hs as [[q ->]|[(l & -> & Hc)|[Hs Hl]]].
    + destruct (RegExp.test Chatbot.updatePattern q) eqn:Eu.
      * rewrite (executeSqlQuery_update env q explanation Ha Eu).
        split; [destruct (Chatbot.sequelize_update env q); cbn; eauto|].
        split; [discriminate|].
        split; [intros H; exfalso; exact (H q eq_refl)|].
        split; [discriminate|].
        intros q' m [= <-] _ E. rewrite Eu in E. cbn. rewrite E. reflexivity.
      * rewrite (executeSqlQuery_read env q explanation Ha Eu).
        split; [destruct (Chatbot.sequelize_select env _); cbn; eauto|].
        split; [discriminate|].
        split; [intros H; exfalso; exact (H q eq_refl)|].
        split; [discriminate|].
        intros q' m [= <-] _ E. rewrite Eu in E. cbn. rewrite E. reflexivity.
    + destruct (executeSqlQuery_array env l explanation Hc Ha)
        as (ev & r & -> & ->).
      split; [cbn; eauto|]. split; [discriminate|].
      split; [intros _ H; specialize (H l eq_refl); congruence|].
      split; [intros l' [= <-] _ _; reflexivity|].
      discriminate.
    + rewrite (executeSqlQuery_other env query explanation Hs Hl Ha).
      split; [cbn; eauto|]. split; [discriminate|].
      split; [reflexivity|].
      split; [intros l H Hc; rewrite (Hl l H) in Hc; discriminate Hc|].
      intros q m H. exfalso. exact (Hs q H).
  - rewrite (executeSqlQuery_denied env query explanation Ha).
    split; [cbn; eauto|].
    split; [reflexivity|].
    split; [reflexivity|].
    split; [intros l _ _ H; discriminate H|].
    intros q m _ H. discriminate H.
Qed.

(** A locked database. *)
Lemma sql_tool_errors_are_results_witness :
  Js.outcome (Chatbot.executeSqlQuery Fixtures.databaseDown
                (Js.JStr "SELECT * FROM Products") Js.JNull)
  = Js.Normal (Chatbot.SqlError
      "Failed to execute SQL query: SQLITE_BUSY: database is locked" Js.JNull).
Proof.
  refine (proj2 (proj2 (proj2 (proj2 (sql_tool_errors_are_results
            Fixtures.databaseDown (Js.JStr "SELECT * FROM Products")
            Js.JNull))))
            "SELECT * FROM Products" "SQLITE_BUSY: database is locked" _ _ _);
    reflexivity.
Defined.

(** An array of one string, in the sample shop: the statement sent is
    its only element followed by the limit. *)
Example sql_array_query_reaches_the_database :
  Js.trace (Chatbot.executeSqlQuery Sample.chatbotEnv
              (Js.JArray [Js.JStr "SELECT * FROM Users"]) Js.JNull)
  = [Chatbot.EvIsDatabaseOperationAllowed
       (Js.JArray [Js.JStr "SELECT * FROM Users"]);
     Chatbot.EvSequelizeQuery "SELECT * FROM Users LIMIT 100" Chatbot.SELECT].
Proof. vm_compute. reflexivity. Qed.

Lemma includes_limited (query : string) :
  JsString.includes (Chatbot.limited query) "LIMIT" = true.
Proof.
  unfold Chatbot.limited.
  destruct (JsString.includes query "LIMIT") eqn:E; [exact E|].
  apply includes_iff. exists (query ++ " "), " 100".
  rewrite !string_app_assoc. reflexivity.
Qed.

(** X9.  The SQL tool of the base agent never throws and calls the
    database at most once, and only for a string the guardrail approves
    or an array that has a text, which the guardrail approves.  For a
    string, the statement it sends is run as a SELECT, is that string or
    that string followed by [ LIMIT 100], and contains LIMIT.  For an
    array it sends the array itself when one of the elements is the
    string LIMIT, and otherwise the text of the array followed by
    [ LIMIT 100]. *)
Theorem base_sql_tool_sends_guarded_reads (env : Chatbot.Env)
    (query explanation : Js.JsValue) :
  let run := ChatbotBase.executeSqlQuery env query explanation in
  (exists r, Js.outcome run = Js.Normal r)
  /\ length (Js.trace run) <= 1
  /\ forall ev, In ev (Js.trace run) ->
       (exists q,
          query = Js.JStr q
          /\ Guardrail.isQueryAllowed q = true
          /\ ev = Chatbot.EvSequelizeQuery (Chatbot.limited q) Chatbot.SELECT
          /\ (Chatbot.limited q = q \/ Chatbot.limited q = q ++ " LIMIT 100")
          /\ JsString.includes (Chatbot.limited q) "LIMIT" = true)
       \/ (exists elements,
             query = Js.JArray elements
             /\ Js.convertible query = true
             /\ Guardrail.isQueryAllowed (Chatbot.toString env query) = true
             /\ ev = if Js.arrayHasString elements "LIMIT"
                     then Chatbot.EvSequelizeQueryArray elements Chatbot.SELECT
                     else Chatbot.EvSequelizeQuery
                            (Chatbot.toString env query ++ " LIMIT 100")
                            Chatbot.SELECT).
Proof.
  intros run. subst run.
  destruct query as [| |b|n|q|l|f];
    try (cbn; split; [eauto|]; split; [lia|]; intros ev []).
  - destruct (Guardrail.isQueryAllowed q) eqn:Ha.
    + rewrite (executeSqlQuery_base_read env q explanation Ha).
      split; [destruct (Chatbot.sequelize_select env _); eauto|].
      split; [cbn; lia|].
      intros ev [<-|[]]. left. exists q.
      split; [reflexivity|]. split; [exact Ha|]. split; [reflexivity|].
      split; [|apply includes_limited].
      unfold Chatbot.limited. destruct (JsString.includes q "LIMIT"); auto.
    + unfold ChatbotBase.executeSqlQuery, ChatbotBase.isQueryAllowed,
        Js.try_catch, Js.bind, Js.ret.
      rewrite Ha. cbn. split; [eauto|]. split; [lia|]. intros ev [].
  - unfold ChatbotBase.executeSqlQuery, ChatbotBase.isQueryAllowed,
      Js.try_catch, Js.bind, Js.call, Js.ret.
    destruct (Js.convertible (Js.JArray l)) eqn:Ec; cbn [negb];
      [|cbn; split; [eauto|]; split; [lia|]; intros ev []].
    destruct (Guardrail.isQueryAllowed _) eqn:Ha; cbn [negb];
      [|cbn; split; [eauto|]; split; [lia|]; intros ev []].
    destruct (Js.arrayHasString l "LIMIT") eqn:El.
    * destruct (Chatbot.sequelize_select_array env l); cbn;
        (split; [eauto|]); (split; [lia|]);
        intros ev [<-|[]]; right; exists l; rewrite El;
        repeat split; assumption || reflexivity.
    * destruct (Chatbot.sequelize_select env _); cbn;
        (split; [eauto|]); (split; [lia|]);
        intros ev [<-|[]]; right; exists l; rewrite El;
        repeat split; assumption || reflexivity.
  - unfold ChatbotBase.executeSqlQuery, ChatbotBase.isQueryAllowed,
      Js.try_catch, Js.bind, Js.call, Js.ret.
    destruct (Js.convertible (Js.JObject f)); cbn;
      (split; [eauto|]); (split; [lia|]); intros ev [].
Qed.

Lemma base_sql_tool_sends_guarded_reads_witness :
  exists q,
    Js.JStr "SELECT * FROM Users" = Js.JStr q
    /\ Guardrail.isQueryAllowed q = true
    /\ Chatbot.EvSequelizeQuery "SELECT * FROM Users LIMIT 100" Chatbot.SELECT
       = Chatbot.EvSequelizeQuery (Chatbot.limited q) Chatbot.SELECT
    /\ (Chatbot.limited q = q \/ Chatbot.limited q = q ++ " LIMIT 100")
    /\ JsString.includes (Chatbot.limited q) "LIMIT" = true.
Proof.
  assert (Hin : In (Chatbot.EvSequelizeQuery "SELECT * FROM Users LIMIT 100"
                                             Chatbot.SELECT)
                   (Js.trace (ChatbotBase.executeSqlQuery Sample.chatbotEnv
                                (Js.JStr "SELECT * FROM Users") Js.JNull))).
  { vm_compute. left. reflexivity. }
  destruct (proj2 (proj2 (base_sql_tool_sends_guarded_reads Sample.chatbotEnv
                            (Js.JStr "SELECT * FROM Users") Js.JNull))
              _ Hin) as [H|(elements & H & _)].
  - exact H.
  - discriminate H.
Defined.

(** The array the guardrail approves by its text. *)
Example base_sql_array_query_reaches_the_database :
  ChatbotBase.isQueryAllowed Sample.chatbotEnv
    (Js.JArray [Js.JStr "SELECT * FROM Users"]) = Js.Normal true
  /\ Js.trace (ChatbotBase.executeSqlQuery Sample.chatbotEnv
                 (Js.JArray [Js.JStr "SELECT * FROM Users"]) Js.JNull)
     = [Chatbot.EvSequelizeQuery "SELECT * FROM Users LIMIT 100"
                                 Chatbot.SELECT].
Proof. split; vm_compute; reflexivity. Qed.

(** An array with an element that has no text: the conversion throws
    in the guardrail, and the database is not called. *)
Example base_sql_array_without_text :
  ChatbotBase.executeSqlQuery Sample.chatbotEnv
    (Js.JArray [Js.JStr "SELECT * FROM Users";
                Js.JObject [("toString", Js.JNull)]]) Js.JNull
  = ([], Js.Normal (Chatbot.SqlError
           "Failed to execute SQL query: TypeError" Js.JNull)).
Proof. vm_compute. reflexivity. Qed.

(** ** The dispatcher and the turn around it *)

Lemma try_catch_total {E A : Type} (m : Js.Eff E A) (g : string -> A) :
  exists t r, Js.try_catch m (fun e => Js.ret (g e)) = (t, Js.Normal r).
Proof. destruct m as [t [a|e]]; cbn; eauto. Qed.

Lemma executeSqlQuery_total (env : Chatbot.Env) (query explanation : Js.JsValue) :
  exists t r, Chatbot.executeSqlQuery env query explanation = (t, Js.Normal r).
Proof. unfold Chatbot.executeSqlQuery. apply try_catch_total. Qed.

Lemma executeToolFunction_total (env : Chatbot.Env) (functionName : string)
    (parameters : Chatbot.Arguments) :
  exists t r,
    Chatbot.executeToolFunction env functionName parameters = (t, Js.Normal r).
Proof. unfold Chatbot.executeToolFunction. apply try_catch_total. Qed.

(** A declared tool whose arguments are [null]: the dispatcher's catch
    clause answers, and no call is made. *)
Lemma executeToolFunction_null (env : Chatbot.Env) (functionName : string) :
  In functionName Chatbot.botTools ->
  Chatbot.executeToolFunction env functionName Chatbot.ArgNull
  = ([], Js.Normal (Chatbot.DispatchError
       ("Error executing function " ++ functionName ++ ": "
        ++ Chatbot.typeErrorMessage env))).
Proof.
  intros Hin. simpl in Hin.
  destruct Hin as [<-|[<-|[<-|[<-|[<-|[<-|[<-|[<-|[]]]]]]]]]; reflexivity.
Qed.

(** A declared tool whose arguments are not [null]: the result is the
    tool's own, but in two cases.  The line written to the log for a
    user-related tool converts the [userId] argument to text, and the
    command tool throws when its command has no text. *)
Lemma executeToolFunction_declared (env : Chatbot.Env) (functionName : string)
    (parameters : Chatbot.Arguments) (fields : gmap string Js.JsValue) :
  In functionName Chatbot.botTools ->
  (forall A (k : gmap string Js.JsValue -> Js.Eff Chatbot.Event A),
     Chatbot.withFields env parameters k = k fields) ->
  exists r,
    Js.outcome (Chatbot.executeToolFunction env functionName parameters)
    = Js.Normal r
    /\ ((exists e, r = Chatbot.DispatchError e)
        <-> ((In functionName Chatbot.userRelatedFunctions
              /\ Js.convertible (Chatbot.field fields "userId") = false)
             \/ (functionName = "execute_linux_command"
                 /\ Js.convertible (Chatbot.field fields "command") = false))).
Proof.
  intros Hin Hf.
  assert (Hno : forall name r,
    ~ In name Chatbot.userRelatedFunctions \/
      Js.convertible (Chatbot.field fields "userId") = true ->
    name <> "execute_linux_command" \/
      Js.convertible (Chatbot.field fields "command") = true ->
    (forall e, r <> Chatbot.DispatchError e) ->
    ((exists e, r = Chatbot.DispatchError e)
     <-> ((In name Chatbot.userRelatedFunctions
           /\ Js.convertible (Chatbot.field fields "userId") = false)
          \/ (name = "execute_linux_command"
              /\ Js.convertible (Chatbot.field fields "command") = false)))).
  { intros name r Hu Hc Hr. split.
    - intros [e ->]. exfalso. exact (Hr e eq_refl).
    - intros [[H1 H2]|[H1 H2]]; [destruct Hu|destruct Hc];
        contradiction || congruence. }
  simpl in Hin.
  destruct Hin as [<-|[<-|[<-|[<-|[<-|[<-|[<-|[<-|[]]]]]]]]];
    unfold Chatbot.executeToolFunction, Chatbot.logUserId; simpl;
    rewrite ?Hf; simpl.
  - eexists. split; [reflexivity|].
    apply Hno; [left; simpl; intuition discriminate|left|]; discriminate.
  - destruct (Js.convertible (Chatbot.field fields "userId")) eqn:Ec; simpl.
    + eexists. split; [reflexivity|].
      apply Hno; [right; reflexivity|left|]; discriminate.
    + eexists. split; [reflexivity|]. split; [|eauto].
      intros _. left. split; [simpl; tauto|reflexivity].
  - destruct (Js.convertible (Chatbot.field fields "userId")) eqn:Ec; simpl.
    + eexists. split; [reflexivity|].
      apply Hno; [right; reflexivity|left|]; discriminate.
    + eexists. split; [reflexivity|]. split; [|eauto].
      intros _. left. split; [simpl; tauto|reflexivity].
  - destruct (Js.convertible (Chatbot.field fields "userId")) eqn:Ec; simpl.
    + destruct (Chatbot.getBasket env _); eexists;
        (split; [reflexivity|]);
        (apply Hno; [right; reflexivity|left|]; discriminate).
    + eexists. split; [reflexivity|]. split; [|eauto].
      intros _. left. split; [simpl; tauto|reflexivity].
  - eexists. split; [reflexivity|].
    apply Hno; [left; simpl; intuition discriminate|left|]; discriminate.
  - destruct (Chatbot.ToNumber env (Chatbot.field fields "discount"))
      as [d|m] eqn:Ed.
    + rewrite (generateCoupon_run env _ d Ed). cbn.
      destruct (Chatbot.security_generateCoupon env _); eexists;
        (split; [reflexivity|]);
        (apply Hno; [left; simpl; intuition discriminate|left|]; discriminate).
    + rewrite (generateCoupon_unconvertible env _ m Ed). cbn.
      eexists. split; [reflexivity|].
      apply Hno; [left; simpl; intuition discriminate|left|]; discriminate.
  - destruct (executeSqlQuery_total env
                (Chatbot.field fields "query")
                (Chatbot.field fields "explanation")) as (t & r & E).
    rewrite E. eexists. split; [reflexivity|].
    apply Hno; [left; simpl; intuition discriminate|left|]; discriminate.
  - destruct (Js.convertible (Chatbot.field fields "command")) eqn:Ec.
    + rewrite (executeLinuxCommand_run env _ _ Ec). cbn.
      destruct (Chatbot.execAsync env _ _); eexists;
        (split; [reflexivity|]);
        (apply Hno; [left; simpl; intuition discriminate|right; reflexivity|];
         discriminate).
    + rewrite (executeLinuxCommand_unconvertible env _ _ Ec). cbn.
      eexists. split; [reflexivity|]. split; [|eauto].
      intros _. right. split; reflexivity.
Qed.

(** X10.  The dispatcher never throws, and its own catch clause is
    reached in four cases only: a name that is not declared; arguments
    that are [null], of which no field can be read; a user-related tool
    whose [userId] argument has no text, which the line written to the
    log asks for; and the command tool with a command that has no text,
    which the catch clause of the tool asks for again.  For each of the
    eight declared tools and any other arguments the result is the
    tool's own result object (which may carry the tool's error). *)
Theorem dispatcher_catch_only_for_unknown_names (env : Chatbot.Env)
    (functionName : string) (parameters : Chatbot.Arguments) :
  exists r,
    Js.outcome (Chatbot.executeToolFunction env functionName parameters)
    = Js.Normal r
    /\ ((exists e, r = Chatbot.DispatchError e)
        <-> (~ In functionName Chatbot.botTools
             \/ parameters = Chatbot.ArgNull
             \/ exists fields,
                  parameters = Chatbot.ArgObject fields
                  /\ ((In functionName Chatbot.userRelatedFunctions
                       /\ Js.convertible (Chatbot.field fields "userId")
                          = false)
                      \/ (functionName = "execute_linux_command"
                          /\ Js.convertible (Chatbot.field fields "command")
                             = false)))).
Proof.
  destruct (in_dec string_dec functionName Chatbot.botTools) as [Hin|Hnot].
  - destruct parameters as [| |fields].
    + rewrite (executeToolFunction_null env functionName Hin).
      eexists. split; [reflexivity|]. split; eauto.
    + destruct (executeToolFunction_declared env functionName
                  Chatbot.ArgPrimitive ∅ Hin (fun _ _ => eq_refl))
        as (r & Hr & Hiff).
      exists r. split; [exact Hr|]. rewrite Hiff. split.
      * intros [[_ Hc]|[_ Hc]]; discriminate Hc.
      * intros [Hnot|[Hnull|(fields & Hp & _)]];
          [contradiction|discriminate Hnull|discriminate Hp].
    + destruct (executeToolFunction_declared env functionName
                  (Chatbot.ArgObject fields) fields Hin (fun _ _ => eq_refl))
        as (r & Hr & Hiff).
      exists r. split; [exact Hr|]. rewrite Hiff. split.
      * intros H. right. right. exists fields. split; [reflexivity|exact H].
      * intros [Hnot|[Hnull|(fields' & [= <-] & H)]];
          [contradiction|discriminate Hnull|exact H].
  - rewrite (executeToolFunction_unknown env functionName parameters Hnot).
    eexists. split; [reflexivity|]. split; eauto.
Qed.

(** A command that has no text, in the sample shop: the tool is called,
    throws in its own catch clause, and the dispatcher answers. *)
Example command_without_text_reaches_the_catch :
  Chatbot.executeToolFunction Sample.chatbotEnv "execute_linux_command"
    (Chatbot.ArgObject
       (<["command" := Js.JObject [("toString", Js.JNull)]]> ∅))
  = ([Chatbot.EvExec (Js.JObject [("toString", Js.JNull)]) 30000%N],
     Js.Normal (Chatbot.DispatchError
       "Error executing function execute_linux_command: TypeError")).
Proof. reflexivity. Qed.

Lemma verifyBasket_trace (env : Chatbot.Env) (userId : string)
    (functionResult : Chatbot.ToolResult) (done : string) :
  exists r,
    Chatbot.verifyBasket env userId functionResult done
    = ([Chatbot.EvGetBasket (Js.JStr userId)], Js.Normal r).
Proof.
  unfold Chatbot.verifyBasket, Js.bind, Js.call, Js.ret.
  destruct (Chatbot.getBasket env (Js.JStr userId)) as [i products empty m|e s].
  - destruct (negb empty && (0 <? length products)); eauto.
  - destruct (JsString.nonEmpty e); eauto.
Qed.

(** The replies that bypass the model call nothing but the re-read of the
    session user's basket, and never throw. *)
Lemma immediateResponse_trace (env : Chatbot.Env)
    (userId functionName : string) (functionResult : Chatbot.ToolResult) :
  exists t r,
    Chatbot.immediateResponse env userId functionName functionResult
    = (t, Js.Normal r)
    /\ forall ev, In ev t -> ev = Chatbot.EvGetBasket (Js.JStr userId).
Proof.
  unfold Chatbot.immediateResponse.
  destruct (verifyBasket_trace env userId functionResult "added") as (ra & Ea).
  destruct (verifyBasket_trace env userId functionResult "removed") as (rr & Er).
  rewrite Ea, Er. unfold Js.bind, Js.ret.
  destruct (String.eqb functionName "add_to_basket");
    destruct (String.eqb functionName "remove_from_basket");
    destruct (String.eqb functionName "get_basket");
    destruct (Chatbot.hasError functionResult);
    destruct (Chatbot.success_of functionResult); cbn;
    repeat match goal with
    | |- context [JsString.includes ?a ?b] => destruct (JsString.includes a b)
    | |- context [match functionResult with _ => _ end] =>
        destruct functionResult as [| | |[]| | | | |]
    | |- context [if ?b then _ else _] => destruct b
    end; cbn;
    do 2 eexists; (split; [reflexivity|]);
    intros ev Hev; cbn in Hev; intuition congruence.
Qed.

(** A read of a name that holds an array returns the array and stores
    nothing. *)
Lemma get_own (LLM_SYSTEM_PROMPT greeting userId : string)
    (l : list History.Message) (h : History.ConversationHistory) :
  h !! userId = Some l ->
  History.getConversationHistory LLM_SYSTEM_PROMPT greeting userId h
  = (History.Messages l, h).
Proof.
  intros H. unfold History.getConversationHistory.
  rewrite (stored_own _ _ _ H). reflexivity.
Qed.

(** The shape of a turn: the dispatcher's calls, then the re-reads of the
    session user's basket, then at most one request to the model; the
    store is untouched unless the model is asked, and is otherwise
    changed by appends and a read for the session user. *)
Lemma toolCall_shape (env : Chatbot.Env) (userId functionName : string)
    (parameters : Chatbot.Arguments)
    (h : History.ConversationHistory) :
  exists dispatched early tail response ops h',
    Chatbot.processChat_toolCall env userId functionName (Some parameters) h
    = (h', ((dispatched ++ early ++ tail)%list, Js.Normal response))
    /\ History.runOps (Chatbot.LLM_SYSTEM_PROMPT env) (Chatbot.greeting env)
         ops h = Some h'
    /\ ((Chatbot.ensureUserId userId functionName parameters = None
         /\ dispatched = [] /\ early = [])
        \/ exists ensured,
             Chatbot.ensureUserId userId functionName parameters
             = Some ensured
             /\ dispatched
                = Js.trace (Chatbot.executeToolFunction env functionName
                              ensured))
    /\ (forall ev, In ev early -> ev = Chatbot.EvGetBasket (Js.JStr userId))
    /\ Forall (fun o => HistoryOps.opUser o = userId
                       /\ Turn.extendedOp o = true) ops
    /\ ((tail = [] /\ ops = [])
        \/ exists messages, tail = [Chatbot.EvLlmFollowUp messages]).
Proof.
  unfold Chatbot.processChat_toolCall.
  destruct (Chatbot.ensureUserId userId functionName parameters)
    as [ps|] eqn:Eps.
  2:{ exists [], [], [], Chatbot.apology, [], h.
      split; [reflexivity|]. split; [reflexivity|].
      split; [left; auto|]. split; [intros ev []|].
      split; [constructor|]. left. auto. }
  destruct (executeToolFunction_total env functionName ps) as (t & r & Ed).
  rewrite Ed. cbn [Js.outcome Js.trace fst snd].
  destruct (immediateResponse_trace env userId functionName r)
    as (te & re & Ee & Hte).
  rewrite Ee. cbn [Js.outcome Js.trace fst snd].
  destruct re as [response|].
  - exists t, te, [], response, [], h. rewrite app_nil_r.
    split; [reflexivity|]. split; [reflexivity|].
    split; [right; exists ps; split; [reflexivity|rewrite Ed; reflexivity]|]. split; [exact Hte|]. split; [constructor|].
    left. split; reflexivity.
  - set (m1 := {| History.role := History.function;
                  History.name := Some functionName;
                  History.content := Chatbot.JSON_stringify env r |}).
    unfold Chatbot.getConversationHistory, Chatbot.addToConversationHistory.
    destruct (History.addToConversationHistory _ userId m1 h)
      as [h1|] eqn:Ea.
    2:{ exists t, te, [], Chatbot.apology, [], h. rewrite app_nil_r.
        split; [reflexivity|]. split; [reflexivity|].
        split; [right; exists ps; split; [reflexivity|rewrite Ed; reflexivity]|]. split; [exact Hte|]. split; [constructor|].
        left. split; reflexivity. }
    destruct (add_own _ _ _ _ _ Ea) as [l Hl].
    rewrite (get_own _ _ _ _ _ Hl).
    set (context := if String.eqb functionName "execute_sql_query"
                       && Chatbot.hasError r then _ else _).
    set (m3 := fun finalMessage =>
                 {| History.role := History.assistant;
                    History.content := finalMessage;
                    History.name := None |}).
    assert (Hread :
      History.runOps (Chatbot.LLM_SYSTEM_PROMPT env) (Chatbot.greeting env)
        [History.OpAdd userId m1; History.OpGet userId] h = Some h1).
    { cbn. rewrite Ea. cbn. rewrite (get_own _ _ _ _ _ Hl). reflexivity. }
    destruct (Chatbot.llmFollowUp env (l ++ context)%list)
      as [| |finalMessage].
    + exists t, te, [Chatbot.EvLlmFollowUp (l ++ context)%list].
      eexists. exists [History.OpAdd userId m1; History.OpGet userId], h1.
      split; [reflexivity|]. split; [exact Hread|].
      split; [right; exists ps; split; [reflexivity|rewrite Ed; reflexivity]|]. split; [exact Hte|].
      split; [repeat constructor|]. right. eauto.
    + exists t, te, [Chatbot.EvLlmFollowUp (l ++ context)%list].
      eexists. exists [History.OpAdd userId m1; History.OpGet userId], h1.
      split; [reflexivity|]. split; [exact Hread|].
      split; [right; exists ps; split; [reflexivity|rewrite Ed; reflexivity]|]. split; [exact Hte|].
      split; [repeat constructor|]. right. eauto.
    + fold (m3 finalMessage).
      assert (Hfinal :
        History.runOps (Chatbot.LLM_SYSTEM_PROMPT env) (Chatbot.greeting env)
          [History.OpAdd userId m1; History.OpGet userId;
           History.OpAdd userId (m3 finalMessage)] h
        = Some (default h1
                  (History.addToConversationHistory
                     (Chatbot.LLM_SYSTEM_PROMPT env) userId
                     (m3 finalMessage) h1))).
      { cbn. rewrite Ea. cbn. rewrite (get_own _ _ _ _ _ Hl). reflexivity. }
      destruct (History.addToConversationHistory _ userId (m3 finalMessage) h1)
        as [h3|] eqn:Ea3.
      * exists t, te, [Chatbot.EvLlmFollowUp (l ++ context)%list].
        eexists.
        exists [History.OpAdd userId m1; History.OpGet userId;
                History.OpAdd userId (m3 finalMessage)], h3.
        split; [reflexivity|]. split; [exact Hfinal|].
        split; [right; exists ps; split; [reflexivity|rewrite Ed; reflexivity]|]. split; [exact Hte|].
        split; [repeat constructor|]. right. eauto.
      * exists t, te, [Chatbot.EvLlmFollowUp (l ++ context)%list].
        eexists.
        exists [History.OpAdd userId m1; History.OpGet userId;
                History.OpAdd userId (m3 finalMessage)], h1.
        split; [reflexivity|]. split; [exact Hfinal|].
        split; [right; exists ps; split; [reflexivity|rewrite Ed; reflexivity]|]. split; [exact Hte|].
        split; [repeat constructor|]. right. eauto.
Qed.

(** X11.  When the tool the model asks for is one of
    [get_user_information], [add_to_basket] and [get_basket], every call
    of the turn to a basket or profile tool, the re-read after a
    successful add included, is made for the session's user, whatever
    [userId] the model put in the arguments, and whatever the arguments
    are. *)
Theorem turn_calls_are_for_session_user (env : Chatbot.Env)
    (userId functionName : string) (parameters : Chatbot.Arguments)
    (h : History.ConversationHistory) :
  In functionName Chatbot.userRelatedFunctions ->
  forall ev u,
    In ev (Js.trace (snd (Chatbot.processChat_toolCall env userId functionName
                            (Some parameters) h))) ->
    ChatbotEvents.eventUser ev = Some u ->
    u = Js.JStr userId.
Proof.
  intros Hf ev u.
  destruct (toolCall_shape env userId functionName parameters h)
    as (dispatched & early & tail & response & ops & h' & E & _ & Hd
        & Hearly & _ & Htail).
  rewrite E. cbn [snd Js.trace fst]. clear E.
  rewrite !in_app_iff. intros [Hev|[Hev|Hev]] Hevu.
  - destruct Hd as [(_ & -> & _)|(ensured & Hens & ->)]; [destruct Hev|].
    destruct (ensureUserId_session userId functionName parameters Hf)
      as [Hnone|(fields & Hsome & Hu)]; [congruence|].
    assert (ensured = Chatbot.ArgObject fields) by congruence. subst ensured.
    clear Hsome Hens.
    simpl in Hf. destruct Hf as [<-|[<-|[<-|[]]]];
      unfold Chatbot.executeToolFunction, Chatbot.logUserId in Hev;
      simpl in Hev; rewrite Hu in Hev; simpl in Hev.
    + destruct Hev as [<-|[]]. cbn in Hevu. congruence.
    + destruct Hev as [<-|[]]. cbn in Hevu. congruence.
    + destruct (Chatbot.getBasket env _); simpl in Hev;
        destruct Hev as [<-|[]]; cbn in Hevu; congruence.
  - rewrite (Hearly ev Hev) in Hevu. cbn in Hevu. congruence.
  - destruct Htail as [[-> _]|[messages ->]]; [destruct Hev|].
    destruct Hev as [<-|[]]. discriminate Hevu.
Qed.

(** The model proposes user 2 in the session of user 1. *)
Lemma turn_calls_are_for_session_user_witness :
  let turn :=
    Chatbot.processChat_toolCall Sample.chatbotEnv "1" "add_to_basket"
      (Some (Chatbot.ArgObject
               (<["userId" := Js.JStr "2"]>
                  (<["productId" := Js.JNum (Js.Fin 1)]> ∅)))) ∅ in
  match Js.trace (snd turn) with
  | ev :: _ =>
      match ChatbotEvents.eventUser ev with
      | Some u => u = Js.JStr "1"
      | None => False
      end
  | [] => False
  end.
Proof.
  intros turn.
  pose proof (turn_calls_are_for_session_user Sample.chatbotEnv "1"
                "add_to_basket"
                (Chatbot.ArgObject
                   (<["userId" := Js.JStr "2"]>
                      (<["productId" := Js.JNum (Js.Fin 1)]> ∅))) ∅) as H.
  fold turn in H.
  assert (Hf : In "add_to_basket" Chatbot.userRelatedFunctions)
    by (simpl; tauto).
  specialize (H Hf).
  destruct (Js.trace (snd turn)) as [|ev t] eqn:E; [discriminate E|].
  destruct (ChatbotEvents.eventUser ev) as [u|] eqn:Eu.
  - exact (H ev u (or_introl eq_refl) Eu).
  - vm_compute in E. injection E as <- _. discriminate Eu.
Defined.

Section TurnHistoryFacts.
Import History.
Variable LLM_SYSTEM_PROMPT greeting : string.

Lemma runOps_other (ops : list Op) (other : string) :
  forall h h',
  runOps LLM_SYSTEM_PROMPT greeting ops h = Some h' ->
  Forall (fun o => HistoryOps.opUser o <> other) ops ->
  h' !! other = h !! other.
Proof.
  induction ops as [|o ops IH]; intros h h' Hrun Hall; cbn [runOps] in Hrun.
  - injection Hrun as <-. reflexivity.
  - inversion Hall as [|? ? Ho Hall']; subst.
    destruct (runOp LLM_SYSTEM_PROMPT greeting o h) as [h1|] eqn:E;
      [|discriminate].
    rewrite (IH h1 h' Hrun Hall').
    exact (runOp_other _ _ _ _ _ _ E Ho).
Qed.

End TurnHistoryFacts.

(** X12.  A turn that runs a tool changes the history of the session's
    user at most: every other user's history is as before.  It keeps the
    store's invariants (each history starts with a system message and
    has at most [MAX_HISTORY_LENGTH + 1] entries), and when the model is
    not asked for a follow-up (the replies built from the tool result
    alone, arguments that do not parse, or an exception) it leaves the
    store exactly as it was. *)
Theorem tool_turn_keeps_history_invariants (env : Chatbot.Env)
    (userId functionName : string)
    (parameters : option Chatbot.Arguments)
    (h : History.ConversationHistory) :
  let turn := Chatbot.processChat_toolCall env userId functionName parameters h in
  (forall other, other <> userId -> fst turn !! other = h !! other)
  /\ (History.wellFormed h -> History.wellFormed (fst turn))
  /\ (History.wellFormed h -> HistoryOps.bounded h ->
      HistoryOps.bounded (fst turn))
  /\ ((forall messages,
         ~ In (Chatbot.EvLlmFollowUp messages) (Js.trace (snd turn))) ->
      fst turn = h).
Proof.
  intros turn. subst turn.
  destruct parameters as [parameters|].
  - destruct (toolCall_shape env userId functionName parameters h)
      as (dispatched & early & tail & response & ops & h' & E & Hrun & _ & _
          & Hops & Htail).
    rewrite E. cbn [fst snd Js.trace].
    split.
    { intros other Hne. apply (runOps_other _ _ _ _ _ _ Hrun).
      eapply Forall_impl; [exact Hops|]. cbn. intros o [-> _] H. auto. }
    split; [intros Hwf; exact (wellFormed_runOps _ _ _ _ _ Hwf Hrun)|].
    split; [intros Hwf Hb; exact (bounded_runOps _ _ _ _ _ Hwf Hb Hrun)|].
    intros Hno. destruct Htail as [[_ ->]|[messages ->]].
    + cbn in Hrun. congruence.
    + exfalso. apply (Hno messages). rewrite !in_app_iff. right. right.
      left. reflexivity.
  - cbn. auto.
Qed.

(** In the sample shop the turn for [add_to_basket] answers from the
    tool result; the store is as before. *)
Lemma tool_turn_keeps_history_invariants_witness :
  fst (Chatbot.processChat_toolCall Sample.chatbotEnv "1" "add_to_basket"
         (Some (Chatbot.ArgObject (<["productId" := Js.JNum (Js.Fin 1)]> ∅)))
         ∅)
  = ∅.
Proof.
  apply (tool_turn_keeps_history_invariants Sample.chatbotEnv "1"
           "add_to_basket"
           (Some (Chatbot.ArgObject (<["productId" := Js.JNum (Js.Fin 1)]> ∅)))
           ∅).
  intros messages H. vm_compute in H.
  destruct H as [H|[H|[]]]; discriminate H.
Defined.

(** ** Product search *)

Section CatalogFacts.
Import Catalog.

Local Open Scope list_scope.

Lemma arrayIncludes_In (arr : list string) (x : string) :
  JsString.arrayIncludes arr x = true <-> In x arr.
Proof.
  unfold JsString.arrayIncludes. rewrite existsb_exists. split.
  - intros (y & Hy & E). apply String.eqb_eq in E. subst. exact Hy.
  - intros H. exists x. split; [exact H|apply String.eqb_refl].
Qed.

(** [uniq], from any set of elements already seen. *)
Lemma uniq_from (l : list string) :
  forall seen,
  NoDup seen ->
  let result :=
    foldl (fun seen x =>
             if JsString.arrayIncludes seen x then seen else seen ++ [x])
          seen l in
  NoDup result
  /\ (forall x, In x result <-> In x seen \/ In x l)
  /\ exists added, result = seen ++ added
                   /\ (seen = [] -> head added = head l).
Proof.
  induction l as [|y l IH]; intros seen Hnd; cbn.
  - split; [exact Hnd|]. split; [intros x; tauto|].
    exists []. rewrite app_nil_r. auto.
  - destruct (JsString.arrayIncludes seen y) eqn:E.
    + apply arrayIncludes_In in E.
      destruct (IH seen Hnd) as (H1 & H2 & added & H3 & H4).
      split; [exact H1|]. split.
      * intros x. rewrite H2. split; [tauto|].
        intros [H|[->|H]]; auto.
      * exists added. split; [exact H3|]. intros ->. destruct E.
    + assert (Hy : ~ In y seen).
      { intros H. apply arrayIncludes_In in H. congruence. }
      assert (Hnd' : NoDup (seen ++ [y])).
      { apply NoDup_app. split; [exact Hnd|]. split.
        - intros x Hx Hx'. apply list_elem_of_In in Hx, Hx'.
          destruct Hx' as [->|[]]. exact (Hy Hx).
        - repeat constructor. intros H. apply elem_of_nil in H. exact H. }
      destruct (IH (seen ++ [y]) Hnd') as (H1 & H2 & added & H3 & H4).
      split; [exact H1|]. split.
      * intros x. rewrite H2, in_app_iff. cbn. tauto.
      * exists (y :: added). rewrite H3, <- app_assoc.
        split; reflexivity.
Qed.

Lemma uniq_spec (l : list string) :
  NoDup (uniq l) /\ (forall x, In x (uniq l) <-> In x l)
  /\ head (uniq l) = head l.
Proof.
  destruct (uniq_from l [] NoDup_nil_2) as (H1 & H2 & added & H3 & H4).
  fold (uniq l) in H1, H2, H3.
  split; [exact H1|]. split.
  - intros x. rewrite H2. cbn. tauto.
  - rewrite H3. cbn. apply H4. reflexivity.
Qed.

Lemma variationsOf_Own (word : string) (variations : list string) :
  variationsOf word = Own variations ->
  In (word, variations) semanticVariations.
Proof.
  unfold variationsOf.
  destruct (List.find _ semanticVariations) as [[k vs]|] eqn:E.
  - intros [= <-]. apply find_some in E as (Hin & Hk).
    apply String.eqb_eq in Hk. cbn in Hk. subst. exact Hin.
  - destruct (JsString.arrayIncludes inheritedNames word); discriminate.
Qed.

Lemma semanticVariations_meaningful (word t : string) (variations : list string) :
  In (word, variations) semanticVariations -> In t variations ->
  meaningful t = true.
Proof.
  assert (H : forallb (fun kv => forallb meaningful (snd kv))
                      semanticVariations = true) by (vm_compute; reflexivity).
  rewrite forallb_forall in H. intros Hkv Ht.
  specialize (H _ Hkv). rewrite forallb_forall in H. exact (H t Ht).
Qed.

Variable env : Chatbot.Env.

Lemma expandTerms_spec (words expanded : list string) :
  expandTerms env words = Js.Normal expanded ->
  (forall w, In w words -> In w expanded)
  /\ (forall t, In t expanded ->
        In t words
        \/ exists w variations,
             In w words /\ In (w, variations) semanticVariations
             /\ In t variations)
  /\ head expanded = head words.
Proof.
  revert expanded. induction words as [|w words IH]; intros expanded.
  - cbn. intros [= <-]. split; [auto|]. split; [intros t []|reflexivity].
  - cbn [expandTerms].
    destruct (variationsOf w) as [variations| |] eqn:Ev; [|discriminate|];
      destruct (expandTerms env words) as [rest|e]; try discriminate;
      intros [= <-]; destruct (IH rest eq_refl) as (H1 & H2 & _).
    + apply variationsOf_Own in Ev.
      split; [|split; [|reflexivity]].
      * intros x [->|Hx]; [left; reflexivity|].
        right. apply in_app_iff. right. apply H1. exact Hx.
      * intros t [<-|Ht]; [left; left; reflexivity|].
        apply in_app_iff in Ht as [Ht|Ht].
        -- right. exists w, variations. repeat split; auto. left; reflexivity.
        -- destruct (H2 t Ht) as [Hw|(w' & vs & Hw & Hkv & Hin)].
           ++ left. right. exact Hw.
           ++ right. exists w', vs. repeat split; auto. right. exact Hw.
    + split; [|split; [|reflexivity]].
      * intros x [->|Hx]; [left; reflexivity|]. right. apply H1. exact Hx.
      * intros t [<-|Ht]; [left; left; reflexivity|].
        destruct (H2 t Ht) as [Hw|(w' & vs & Hw & Hkv & Hin)].
        -- left. right. exact Hw.
        -- right. exists w', vs. repeat split; auto. right. exact Hw.
Qed.

End CatalogFacts.

(** What [extractSearchTerms] returns. *)
Lemma search_terms_facts (env : Chatbot.Env)
    (query : string) (terms : list string) :
  Catalog.extractSearchTerms env query = Js.Normal terms ->
  let words := Catalog.splitWhitespace query in
  NoDup terms
  /\ (forall t, In t terms ->
        2 < String.length t
        /\ ~ In (JsString.toLowerCase t) Catalog.stopWords)
  /\ (forall t, In t terms ->
        In t words
        \/ exists w variations,
             In w words /\ In (w, variations) Catalog.semanticVariations
             /\ In t variations)
  /\ (forall w, In w words -> Catalog.meaningful w = true -> In w terms)
  /\ head terms = head (List.filter Catalog.meaningful words).
Proof.
  intros H words. unfold Catalog.extractSearchTerms in H. fold words in H.
  destruct (Catalog.expandTerms env _) as [expanded|e] eqn:E; [|discriminate].
  injection H as <-.
  destruct (expandTerms_spec env _ _ E) as (H1 & H2 & H3).
  destruct (uniq_spec expanded) as (U1 & U2 & U3).
  assert (Horigin : forall t, In t expanded ->
            (In t words /\ Catalog.meaningful t = true)
            \/ exists w variations,
                 In w words /\ In (w, variations) Catalog.semanticVariations
                 /\ In t variations).
  { intros t Ht. destruct (H2 t Ht) as [Hw|(w & vs & Hw & Hkv & Hin)].
    - apply filter_In in Hw. left. exact Hw.
    - apply filter_In in Hw as (Hw & _). right. eauto 6. }
  split; [exact U1|]. split; [|split; [|split]].
  - intros t Ht. apply U2 in Ht.
    assert (Hm : Catalog.meaningful t = true).
    { destruct (Horigin t Ht) as [[_ Hm]|(w & vs & _ & Hkv & Hin)];
        [exact Hm|].
      exact (semanticVariations_meaningful w t vs Hkv Hin). }
    unfold Catalog.meaningful in Hm. apply andb_true_iff in Hm as (Hlen & Hs).
    apply Nat.ltb_lt in Hlen. split; [exact Hlen|].
    intros Hin. apply arrayIncludes_In in Hin. rewrite Hin in Hs. discriminate.
  - intros t Ht. apply U2 in Ht.
    destruct (Horigin t Ht) as [[Hw _]|Hv]; auto.
  - intros w Hw Hm. apply U2, H1, filter_In. auto.
  - rewrite U3. exact H3.
Qed.

(** X13.  The search terms extracted from a query have no duplicates;
    each one is longer than two characters and is not a stop word; each
    is a word of the query or one of the listed variations of a word of
    the query; every word of the query longer than two characters that
    is not a stop word is among them, and the first such word is the
    first term. *)
Theorem search_terms_are_meaningful_words (env : Chatbot.Env)
    (query : string) (terms : list string) :
  Catalog.extractSearchTerms env query = Js.Normal terms ->
  let words := Catalog.splitWhitespace query in
  NoDup terms
  /\ (forall t, In t terms ->
        2 < String.length t
        /\ ~ In (JsString.toLowerCase t) Catalog.stopWords)
  /\ (forall t, In t terms ->
        In t words
        \/ exists w variations,
             In w words /\ In (w, variations) Catalog.semanticVariations
             /\ In t variations)
  /\ (forall w, In w words -> Catalog.meaningful w = true -> In w terms)
  /\ head terms = head (List.filter Catalog.meaningful words).
Proof. apply search_terms_facts. Qed.

(** "the fastest car": the stop word goes, the two other words bring
    their variations, [hypercar] is listed once. *)
Lemma search_terms_are_meaningful_words_witness :
  Catalog.extractSearchTerms Sample.chatbotEnv "the fastest car"
  = Js.Normal ["fastest"; "speed"; "hypercar"; "sports"; "fast"; "car";
               "vehicle"; "coyote"; "combat"]
  /\ NoDup ["fastest"; "speed"; "hypercar"; "sports"; "fast"; "car";
            "vehicle"; "coyote"; "combat"].
Proof.
  split; [vm_compute; reflexivity|].
  refine (proj1 (search_terms_are_meaningful_words Sample.chatbotEnv
                   "the fastest car" _ _)).
  vm_compute. reflexivity.
Defined.

Section SearchStatementFacts.
Import MatcherSpec.

Lemma string_app_nil_r (s : string) : s ++ "" = s.
Proof.
  induction s as [|c s IH]; [reflexivity|].
  change (String c (s ++ "") = String c s). rewrite IH. reflexivity.
Qed.

Lemma contains_refl (s : string) : contains s s.
Proof.
  exists "", "". change ("" ++ (s ++ "")) with (s ++ "").
  rewrite string_app_nil_r. reflexivity.
Qed.

Lemma contains_trans (a b c : string) :
  contains a b -> contains b c -> contains a c.
Proof.
  intros (p1 & q1 & ->) (p2 & q2 & ->).
  exists (p1 ++ p2), (q2 ++ q1).
  rewrite !string_app_assoc. reflexivity.
Qed.

Lemma contains_app_l (a b : string) : contains (a ++ b) a.
Proof. exists "", b. reflexivity. Qed.

Lemma contains_app_r (a b : string) : contains (a ++ b) b.
Proof. exists a, "". rewrite string_app_nil_r. reflexivity. Qed.

(** Every element of an array occurs in the joined string. *)
Lemma contains_join (sep x : string) (arr : list string) :
  In x arr -> contains (Catalog.join sep arr) x.
Proof.
  unfold Catalog.join. induction arr as [|y arr IH]; [intros []|].
  intros [->|Hx].
  - destruct arr as [|z arr]; [apply contains_refl|].
    cbn [String.concat]. apply contains_app_l.
  - destruct arr as [|z arr]; [destruct Hx|].
    cbn [String.concat].
    eapply contains_trans; [apply contains_app_r|].
    eapply contains_trans; [apply contains_app_r|]. exact (IH Hx).
Qed.

(** The search statement holds every term between [LIKE '%] and [%'],
    as it is. *)
Lemma searchStatement_contains (searchTerms : list string)
    (first term : string) :
  In term searchTerms ->
  contains (Catalog.searchStatement searchTerms first)
           ("LOWER(name) LIKE '%" ++ term ++ "%'").
Proof.
  intros Hin. unfold Catalog.searchStatement.
  eapply contains_trans.
  { apply contains_join with
      (x := "        " ++ Catalog.join " OR " (map Catalog.condition searchTerms)).
    cbn. tauto. }
  eapply contains_trans; [apply contains_app_r|].
  eapply contains_trans.
  { apply contains_join. apply in_map. exact Hin. }
  unfold Catalog.condition.
  exists "", (" OR LOWER(description) LIKE '%" ++ term ++ "%'").
  change ("" ++ ?x) with x.
  rewrite !string_app_assoc. reflexivity.
Qed.

End SearchStatementFacts.

Lemma getProductInformation_general (env : Chatbot.Env) (BASE_URL query : string) :
  Catalog.isGeneralQuery query = true ->
  Catalog.getProductInformation env BASE_URL (Js.JStr query)
  = ([Chatbot.EvSequelizeQuery Catalog.sampleStatement Chatbot.SELECT],
     match Chatbot.sequelize_select env Catalog.sampleStatement with
     | Js.Normal products =>
         Js.Normal (Chatbot.Products (map Catalog.sampleProduct products))
     | Js.Throw _ =>
         Js.Normal (Chatbot.ProductsError "Failed to get product information")
     end).
Proof.
  intros Hg. unfold Catalog.getProductInformation. rewrite Hg.
  unfold Js.try_catch, Js.bind, Js.call, Js.ret.
  destruct (Chatbot.sequelize_select env _); reflexivity.
Qed.

Lemma getProductInformation_search (env : Chatbot.Env) (BASE_URL query : string)
    (first : string) (others : list string) :
  Catalog.isGeneralQuery query = false ->
  Catalog.extractSearchTerms env (JsString.toLowerCase query)
  = Js.Normal (first :: others) ->
  let sqlQuery := Catalog.searchStatement (first :: others) first in
  Catalog.getProductInformation env BASE_URL (Js.JStr query)
  = ([Chatbot.EvSequelizeQuery sqlQuery Chatbot.SELECT],
     match Chatbot.sequelize_select env sqlQuery with
     | Js.Normal products =>
         Js.Normal (Chatbot.Products
                      (map (Catalog.foundProduct env BASE_URL) products))
     | Js.Throw _ =>
         Js.Normal (Chatbot.ProductsError "Failed to get product information")
     end).
Proof.
  intros Hg Ht sqlQuery. unfold Catalog.getProductInformation.
  rewrite Hg, Ht. fold sqlQuery.
  unfold Js.try_catch, Js.bind, Js.call, Js.ret.
  destruct (Chatbot.sequelize_select env _); reflexivity.
Qed.

Lemma getProductInformation_no_terms (env : Chatbot.Env)
    (BASE_URL query : string) :
  Catalog.isGeneralQuery query = false ->
  Catalog.extractSearchTerms env (JsString.toLowerCase query) = Js.Normal [] ->
  Catalog.getProductInformation env BASE_URL (Js.JStr query)
  = ([], Js.Normal (Chatbot.Products [])).
Proof.
  intros Hg Ht. unfold Catalog.getProductInformation.
  rewrite Hg, Ht. reflexivity.
Qed.

Lemma getProductInformation_throwing (env : Chatbot.Env)
    (BASE_URL query e : string) :
  Catalog.isGeneralQuery query = false ->
  Catalog.extractSearchTerms env (JsString.toLowerCase query) = Js.Throw e ->
  Catalog.getProductInformation env BASE_URL (Js.JStr query)
  = ([], Js.Normal (Chatbot.ProductsError "Failed to get product information")).
Proof.
  intros Hg Ht. unfold Catalog.getProductInformation.
  rewrite Hg, Ht. reflexivity.
Qed.


(** X14.  The product lookup never throws and calls the database at most
    once, always with a SELECT that is the fixed sample statement or a
    search statement built from a non-empty list of terms.  When that
    call fails, or the query is not a string, the result is
    [{ error: 'Failed to get product information' }]; otherwise the
    result lists one product per returned row, in the order of the
    rows. *)
Theorem product_lookup_errors_are_results (env : Chatbot.Env)
    (BASE_URL : string) (query : Js.JsValue) :
  let run := Catalog.getProductInformation env BASE_URL query in
  (exists r, Js.outcome run = Js.Normal r)
  /\ length (Js.trace run) <= 1
  /\ (forall ev, In ev (Js.trace run) ->
        exists sql,
          ev = Chatbot.EvSequelizeQuery sql Chatbot.SELECT
          /\ (sql = Catalog.sampleStatement
              \/ exists first others,
                   sql = Catalog.searchStatement (first :: others) first)
          /\ ((exists e, Chatbot.sequelize_select env sql = Js.Throw e) ->
              Js.outcome run
              = Js.Normal (Chatbot.ProductsError
                             "Failed to get product information"))
          /\ (forall rows, Chatbot.sequelize_select env sql = Js.Normal rows ->
              exists products,
                Js.outcome run = Js.Normal (Chatbot.Products products)
                /\ length products = length rows))
  /\ ((forall q, query <> Js.JStr q) ->
      run = ([], Js.Normal (Chatbot.ProductsError
                              "Failed to get product information"))).
Proof.
  intros run. subst run.
  assert (Hs : (exists q, query = Js.JStr q) \/ forall q, query <> Js.JStr q).
  { destruct query; try (right; discriminate). left. eauto. }
  destruct Hs as [[q ->]|Hs].
  - destruct (Catalog.isGeneralQuery q) eqn:Hg.
    + rewrite (getProductInformation_general env BASE_URL q Hg).
      cbn [Js.outcome Js.trace fst snd length].
      split; [destruct (Chatbot.sequelize_select env _); eauto|].
      split; [lia|].
      split; [|intros H; exfalso; exact (H q eq_refl)].
      intros ev [<-|[]]. eexists. split; [reflexivity|].
      split; [left; reflexivity|]. split.
      * intros [e ->]. reflexivity.
      * intros rows ->. eexists. split; [reflexivity|apply length_map].
    + destruct (Catalog.extractSearchTerms env (JsString.toLowerCase q))
        as [[|first others]|e] eqn:Ht.
      * rewrite (getProductInformation_no_terms env BASE_URL q Hg Ht).
        cbn. split; [eauto|]. split; [lia|].
        split; [intros ev []|intros H; exfalso; exact (H q eq_refl)].
      * rewrite (getProductInformation_search env BASE_URL q first others Hg Ht).
        cbn [Js.outcome Js.trace fst snd length].
        split; [destruct (Chatbot.sequelize_select env _); eauto|].
        split; [lia|].
        split; [|intros H; exfalso; exact (H q eq_refl)].
        intros ev [<-|[]]. eexists. split; [reflexivity|].
        split; [right; eauto|]. split.
        -- intros [e ->]. reflexivity.
        -- intros rows ->. eexists. split; [reflexivity|apply length_map].
      * rewrite (getProductInformation_throwing env BASE_URL q e Hg Ht).
        cbn. split; [eauto|]. split; [lia|].
        split; [intros ev []|intros H; exfalso; exact (H q eq_refl)].
  - assert (E : Catalog.getProductInformation env BASE_URL query
                = ([], Js.Normal (Chatbot.ProductsError
                                    "Failed to get product information"))).
    { destruct query as [| |b|n|q|l|f]; try reflexivity.
      exfalso. exact (Hs q eq_refl). }
    rewrite E. cbn. split; [eauto|]. split; [lia|].
    split; [intros ev []|reflexivity].
Qed.

(** A query that is not a string. *)
Lemma product_lookup_errors_are_results_witness :
  Catalog.getProductInformation Sample.chatbotEnv "http://localhost:3000"
    Js.JUndefined
  = ([], Js.Normal (Chatbot.ProductsError "Failed to get product information")).
Proof.
  apply (product_lookup_errors_are_results Sample.chatbotEnv
           "http://localhost:3000" Js.JUndefined).
  discriminate.
Defined.

Lemma expandTerms_nil (env : Chatbot.Env) :
  Catalog.expandTerms env [] = Js.Normal [].
Proof. reflexivity. Qed.

(** X15.  When the query is not a general one and none of its words is
    longer than two characters and not a stop word, the product lookup
    returns an empty product list without calling the database. *)
Theorem product_lookup_without_terms (env : Chatbot.Env)
    (BASE_URL query : string) :
  Catalog.isGeneralQuery query = false ->
  (forall word,
     In word (Catalog.splitWhitespace (JsString.toLowerCase query)) ->
     Catalog.meaningful word = false) ->
  Catalog.getProductInformation env BASE_URL (Js.JStr query)
  = ([], Js.Normal (Chatbot.Products [])).
Proof.
  intros Hg Hw. apply getProductInformation_no_terms; [exact Hg|].
  unfold Catalog.extractSearchTerms.
  assert (E : List.filter Catalog.meaningful
                (Catalog.splitWhitespace (JsString.toLowerCase query)) = []).
  { induction (Catalog.splitWhitespace (JsString.toLowerCase query))
      as [|w l IH]; [reflexivity|].
    cbn. rewrite (Hw w) by (left; reflexivity).
    apply IH. intros word Hin. apply Hw. right. exact Hin. }
  rewrite E. reflexivity.
Qed.

Lemma product_lookup_without_terms_witness :
  Catalog.getProductInformation Sample.chatbotEnv "http://localhost:3000"
    (Js.JStr "Do we have it")
  = ([], Js.Normal (Chatbot.Products [])).
Proof.
  apply (product_lookup_without_terms Sample.chatbotEnv
           "http://localhost:3000" "Do we have it").
  - reflexivity.
  - intros word H. vm_compute in H.
    destruct H as [<-|[<-|[<-|[<-|[]]]]]; reflexivity.
Defined.

(** X16.  In a search, every word of the lower-cased query that is
    longer than two characters and not a stop word is put into the SQL
    statement as it is, between [LIKE '%] and [%']: quotes and other SQL
    characters in the word are not escaped. *)
Theorem search_words_reach_sql_unescaped (env : Chatbot.Env)
    (BASE_URL query word : string) (terms : list string) :
  Catalog.isGeneralQuery query = false ->
  Catalog.extractSearchTerms env (JsString.toLowerCase query)
  = Js.Normal terms ->
  In word (Catalog.splitWhitespace (JsString.toLowerCase query)) ->
  Catalog.meaningful word = true ->
  exists sql,
    Js.trace (Catalog.getProductInformation env BASE_URL (Js.JStr query))
    = [Chatbot.EvSequelizeQuery sql Chatbot.SELECT]
    /\ JsString.includes sql ("LOWER(name) LIKE '%" ++ word ++ "%'") = true.
Proof.
  intros Hg Ht Hw Hm.
  assert (Hin : In word terms).
  { destruct (search_terms_facts env _ _ Ht) as (_ & _ & _ & H & _).
    apply H; assumption. }
  destruct terms as [|first others]; [destruct Hin|].
  rewrite (getProductInformation_search env BASE_URL query first others Hg Ht).
  eexists. split; [reflexivity|].
  apply includes_iff. apply searchStatement_contains. exact Hin.
Qed.

Lemma search_words_reach_sql_unescaped_witness :
  exists sql,
    Js.trace (Catalog.getProductInformation Sample.chatbotEnv
                "http://localhost:3000"
                (Js.JStr "battery%' OR '1'='1' -- for sale"))
    = [Chatbot.EvSequelizeQuery sql Chatbot.SELECT]
    /\ JsString.includes sql ("LOWER(name) LIKE '%" ++ "'1'='1'" ++ "%'")
       = true.
Proof.
  refine (search_words_reach_sql_unescaped Sample.chatbotEnv
            "http://localhost:3000" "battery%' OR '1'='1' -- for sale"
            "'1'='1'" _ _ _ _ _).
  - reflexivity.
  - vm_compute. reflexivity.
  - vm_compute. tauto.
  - reflexivity.
Defined.

(** ** A whole turn *)

Section TurnFacts.
Import History.
Variable env : Chatbot.Env.
Variable BASE_URL LLM_API_KEY : string.
Variable llmFirst : Found -> Turn.FirstReply.
Variable JSON_parse : string -> option Chatbot.Arguments.
Variable replace : string -> string -> string -> string.

Local Open Scope list_scope.

Local Abbreviation P := (Chatbot.LLM_SYSTEM_PROMPT env).
Local Abbreviation g := (Chatbot.greeting env).
Local Abbreviation run := (runOps P g).
Local Abbreviation forUser userId :=
  (Forall (fun o => HistoryOps.opUser o = userId /\ Turn.extendedOp o = true)).

Lemma runOps_app_Some (ops ops' : list Op) :
  forall h h1 h2 : ConversationHistory,
  run ops h = Some h1 -> run ops' h1 = Some h2 ->
  run (ops ++ ops') h = Some h2.
Proof.
  induction ops as [|o ops IH]; intros h h1 h2; cbn [runOps app].
  - intros [= ->]. auto.
  - destruct (runOp P g o h) as [h0|]; [apply IH|discriminate].
Qed.

(** The store after [customize]. *)
Lemma customize_ops (userId : string) (username : option string)
    (history : Found) (h h' : ConversationHistory) :
  Turn.customize replace userId username history h = Some h' ->
  exists ops, run ops h = Some h' /\ forUser userId ops.
Proof.
  unfold Turn.customize.
  destruct username as [name|];
    [|intros [= <-]; exists []; split; [reflexivity|constructor]].
  destruct (JsString.nonEmpty name);
    [|intros [= <-]; exists []; split; [reflexivity|constructor]].
  destruct history as [[|m [|? ?]]|p].
  - intros [= <-]. exists []. split; [reflexivity|constructor].
  - intros [= <-].
    exists [OpPersonalize userId (replace (content m) "<customer-name>" name)].
    split; [reflexivity|repeat constructor].
  - intros [= <-]. exists []. split; [reflexivity|constructor].
  - destruct (Js.inheritedLength p) as [[|[|n]]|]; intros H;
      try discriminate H; injection H as <-;
      exists []; (split; [reflexivity|constructor]).
Qed.

(** The store after the tool part of a turn. *)
Lemma toolCall_ops (userId functionName : string)
    (parameters : option Chatbot.Arguments) (h : ConversationHistory) :
  exists ops,
    run ops h
    = Some (fst (Chatbot.processChat_toolCall env userId functionName
                   parameters h))
    /\ forUser userId ops.
Proof.
  destruct parameters as [parameters|].
  - destruct (toolCall_shape env userId functionName parameters h)
      as (dispatched & early & tail & response & ops & h' & E & Hrun & _ & _
          & Hops & _).
    rewrite E. exists ops. split; [exact Hrun|exact Hops].
  - exists []. split; [reflexivity|constructor].
Qed.

(** The store after the part of the turn that asks the model: the store
    before, changed by operations for the session's user. *)
Lemma askModel_ops (userId query : string) (username : option string)
    (before : list Turn.Call) (h : ConversationHistory) :
  exists ops,
    run ops h
    = Some (fst (Turn.askModel env llmFirst JSON_parse replace userId query
                   username before h))
    /\ forUser userId ops.
Proof.
  unfold Turn.askModel, Chatbot.getConversationHistory,
    Chatbot.addToConversationHistory.
  destruct (getConversationHistory P g userId h) as [history h1] eqn:E1.
  assert (R1 : run [OpGet userId] h = Some h1)
    by (cbn; rewrite E1; reflexivity).
  assert (F1 : forUser userId [OpGet userId]) by (repeat constructor).
  destruct (Turn.customize replace userId username history h1)
    as [h2|] eqn:Ec; [|exists [OpGet userId]; split; assumption].
  destruct (customize_ops userId username history h1 h2 Ec)
    as (opsc & Rc & Fc).
  pose proof (runOps_app_Some _ _ _ _ _ R1 Rc) as R2.
  assert (F2 : forUser userId ([OpGet userId] ++ opsc))
    by (apply Forall_app; split; assumption).
  destruct (addToConversationHistory P userId (Turn.userMessage query) h2)
    as [h3|] eqn:Ea; [|eexists; split; [exact R2|exact F2]].
  destruct (getConversationHistory P g userId h3) as [history' h4] eqn:E4.
  assert (R4 : run (([OpGet userId] ++ opsc)
                    ++ [OpAdd userId (Turn.userMessage query); OpGet userId]) h
               = Some h4).
  { apply (runOps_app_Some _ _ _ _ _ R2). cbn. rewrite Ea. cbn.
    rewrite E4. reflexivity. }
  assert (F4 : forUser userId
                 (([OpGet userId] ++ opsc)
                  ++ [OpAdd userId (Turn.userMessage query); OpGet userId])).
  { apply Forall_app. split; [exact F2|repeat constructor]. }
  destruct (llmFirst history') as [| |content name toolCall];
    try (eexists; split; [exact R4|exact F4]).
  set (m5 := Turn.assistantMessage (default "" content) name).
  destruct (addToConversationHistory P userId m5 h4) as [h5|] eqn:Ea5;
    [|eexists; split; [exact R4|exact F4]].
  assert (R5 : run ((([OpGet userId] ++ opsc)
                     ++ [OpAdd userId (Turn.userMessage query); OpGet userId])
                    ++ [OpAdd userId m5]) h = Some h5).
  { apply (runOps_app_Some _ _ _ _ _ R4). cbn. rewrite Ea5. reflexivity. }
  assert (F5 : forUser userId
                 ((([OpGet userId] ++ opsc)
                   ++ [OpAdd userId (Turn.userMessage query); OpGet userId])
                  ++ [OpAdd userId m5])).
  { apply Forall_app. split; [exact F4|repeat constructor]. }
  destruct toolCall as [[functionName arguments]|];
    [|eexists; split; [exact R5|exact F5]].
  destruct (toolCall_ops userId functionName (JSON_parse arguments) h5)
    as (opst & Rt & Ft).
  destruct (Chatbot.processChat_toolCall env userId functionName
              (JSON_parse arguments) h5) as [h6 r].
  cbn [fst] in *. eexists. split.
  - exact (runOps_app_Some _ _ _ _ _ R5 Rt).
  - apply Forall_app. split; assumption.
Qed.

Lemma processChat_ops (userId : string) (query : Js.JsValue)
    (username : option string) (h : ConversationHistory) :
  exists ops,
    run ops h
    = Some (fst (Turn.processChat env BASE_URL LLM_API_KEY llmFirst JSON_parse
                   replace userId query username h))
    /\ forUser userId ops.
Proof.
  unfold Turn.processChat.
  destruct (negb (JsString.nonEmpty LLM_API_KEY));
    [exists []; split; [reflexivity|constructor]|].
  destruct query as [| |b|n|q|l|f];
    try (exists []; split; [reflexivity|constructor]).
  destruct (Turn.isProductQuery q); [|apply askModel_ops].
  destruct (Js.outcome (Catalog.getProductInformation env BASE_URL (Js.JStr q)))
    as [[[|p products]|e]|e]; try apply askModel_ops.
  unfold Chatbot.addToConversationHistory.
  destruct (addToConversationHistory P userId (Turn.userMessage q) h)
    as [h1|] eqn:E1; [|apply askModel_ops].
  assert (R1 : run [OpAdd userId (Turn.userMessage q)] h = Some h1)
    by (cbn; rewrite E1; reflexivity).
  destruct (addToConversationHistory P userId _ h1) as [h2|] eqn:E2.
  - eexists [OpAdd userId _; OpAdd userId _].
    split; [|repeat constructor].
    cbn. rewrite E1. cbn. rewrite E2. reflexivity.
  - destruct (askModel_ops userId q username
                (map Turn.Tool
                   (Js.trace (Catalog.getProductInformation env BASE_URL
                                (Js.JStr q)))) h1)
      as (ops & R & F).
    eexists. split; [exact (runOps_app_Some _ _ _ _ _ R1 R)|].
    apply Forall_app. split; [repeat constructor|exact F].
Qed.

End TurnFacts.

(** X17.  A whole turn of [processChat] changes the history of the
    user it is called for and of nobody else, and keeps the store's
    invariants: when every stored history starts with a system message
    it still does afterwards, and when moreover none is longer than
    [MAX_HISTORY_LENGTH + 1] entries none is afterwards. *)
Theorem turn_keeps_history_invariants (env : Chatbot.Env)
    (BASE_URL LLM_API_KEY : string)
    (llmFirst : History.Found -> Turn.FirstReply)
    (JSON_parse : string -> option Chatbot.Arguments)
    (replace : string -> string -> string -> string)
    (userId : string) (query : Js.JsValue) (username : option string)
    (h : History.ConversationHistory) :
  let h' := fst (Turn.processChat env BASE_URL LLM_API_KEY llmFirst JSON_parse
                   replace userId query username h) in
  (forall other, other <> userId -> h' !! other = h !! other)
  /\ (History.wellFormed h -> History.wellFormed h')
  /\ (History.wellFormed h -> HistoryOps.bounded h -> HistoryOps.bounded h').
Proof.
  intros h'. subst h'.
  destruct (processChat_ops env BASE_URL LLM_API_KEY llmFirst JSON_parse
              replace userId query username h) as (ops & Hrun & Hops).
  split; [|split].
  - intros other Hne. apply (runOps_other _ _ _ _ _ _ Hrun).
    eapply Forall_impl; [exact Hops|]. cbn. intros o [-> _] H. auto.
  - intros Hwf. exact (wellFormed_runOps _ _ _ _ _ Hwf Hrun).
  - intros Hwf Hb. exact (bounded_runOps _ _ _ _ _ Hwf Hb Hrun).
Qed.

Section TurnRequestFacts.
Import History.
Variable env : Chatbot.Env.
Variable BASE_URL LLM_API_KEY : string.
Variable llmFirst : Found -> Turn.FirstReply.
Variable JSON_parse : string -> option Chatbot.Arguments.
Variable replace : string -> string -> string -> string.

Local Open Scope list_scope.

Local Abbreviation P := (Chatbot.LLM_SYSTEM_PROMPT env).
Local Abbreviation g := (Chatbot.greeting env).

(** After a push the array ends with the message. *)
Lemma push_last (userId : string) (message : Message) (cur : list Message)
    (h : ConversationHistory) :
  exists pre, push userId message cur h !! userId = Some (pre ++ [message]).
Proof.
  unfold push. destruct (_ <? _) eqn:E.
  - destruct (cur ++ [message]) as [|s pushed] eqn:Ep.
    { destruct cur; discriminate Ep. }
    rewrite <- Ep in *. apply Nat.ltb_lt in E.
    rewrite length_app in *. cbn [length] in *.
    unfold MAX_HISTORY_LENGTH in *.
    rewrite drop_app_le by lia.
    exists (s :: drop (length cur + 1 - 10) cur).
    apply lookup_insert_eq.
  - exists cur. apply lookup_insert_eq.
Qed.

(** After an append the stored history ends with the message. *)
Lemma add_last (userId : string) (message : Message)
    (h h' : ConversationHistory) :
  addToConversationHistory P userId message h = Some h' ->
  exists pre, h' !! userId = Some (pre ++ [message]).
Proof.
  unfold addToConversationHistory.
  destruct (stored userId h) as [cur| |]; intros [= <-]; apply push_last.
Qed.


(** A read that finds an inherited property stores nothing, and an
    append for the same name throws. *)
Lemma get_inherited (userId p : string) (h h1 : ConversationHistory)
    (message : Message) :
  getConversationHistory P g userId h = (InheritedProperty p, h1) ->
  h1 = h /\ addToConversationHistory P userId message h = None.
Proof.
  unfold getConversationHistory, addToConversationHistory.
  destruct (stored userId h); intros [= <- <-] || intros [=]; auto.
Qed.

(** The part of the turn that asks the model never throws.  Its trace is
    what came before, alone when an exception ended the turn first, or
    followed by one request whose messages are the stored history of the
    user after the append of the query, and the calls of the tool
    part. *)
Lemma askModel_trace (userId query : string) (username : option string)
    (before : list Turn.Call) (h : ConversationHistory) :
  let part := snd (Turn.askModel env llmFirst JSON_parse replace userId query
                     username before h) in
  (exists r, Js.outcome part = Js.Normal r)
  /\ (Js.trace part = before
      \/ exists h3 messages tools,
           Js.trace part
           = before ++ [Turn.LlmRequest (Messages messages)]
             ++ map Turn.Tool tools
           /\ h3 !! userId = Some messages
           /\ (exists pre, messages = pre ++ [Turn.userMessage query])
           /\ (wellFormed h -> wellFormed h3)
           /\ (wellFormed h -> HistoryOps.bounded h -> HistoryOps.bounded h3)).
Proof.
  unfold Turn.askModel, Chatbot.getConversationHistory,
    Chatbot.addToConversationHistory.
  destruct (getConversationHistory P g userId h) as [history h1] eqn:E1.
  assert (R1 : runOps P g [OpGet userId] h = Some h1)
    by (cbn; rewrite E1; reflexivity).
  destruct (Turn.customize replace userId username history h1)
    as [h2|] eqn:Ec; [|cbn; split; [eauto|left; reflexivity]].
  destruct (customize_ops env replace userId username history h1 h2 Ec)
    as (opsc & Rc & _).
  destruct (addToConversationHistory P userId (Turn.userMessage query) h2)
    as [h3|] eqn:Ea; [|cbn; split; [eauto|left; reflexivity]].
  destruct (add_last userId (Turn.userMessage query) h2 h3 Ea)
    as (pre & Epre).
  rewrite (get_own _ _ _ _ _ Epre).
  assert (R3 : runOps P g (([OpGet userId] ++ opsc)
                           ++ [OpAdd userId (Turn.userMessage query)]) h
               = Some h3).
  { apply (runOps_app_Some env _ _ _ h2).
    - exact (runOps_app_Some env _ _ _ _ _ R1 Rc).
    - cbn. rewrite Ea. reflexivity. }
  assert (Hwf : wellFormed h -> wellFormed h3).
  { intros Hwf. exact (wellFormed_runOps _ _ _ _ _ Hwf R3). }
  assert (Hb : wellFormed h -> HistoryOps.bounded h -> HistoryOps.bounded h3).
  { intros Hw Hbd. exact (bounded_runOps _ _ _ _ _ Hw Hbd R3). }
  assert (Hright : forall (part : Js.Eff Turn.Call Turn.Answer) tools,
    Js.trace part
    = before ++ [Turn.LlmRequest (Messages (pre ++ [Turn.userMessage query]))]
      ++ map Turn.Tool tools ->
    Js.trace part = before
    \/ exists h3 messages tools,
         Js.trace part
         = before ++ [Turn.LlmRequest (Messages messages)]
           ++ map Turn.Tool tools
         /\ h3 !! userId = Some messages
         /\ (exists pre, messages = pre ++ [Turn.userMessage query])
         /\ (wellFormed h -> wellFormed h3)
         /\ (wellFormed h -> HistoryOps.bounded h -> HistoryOps.bounded h3)).
  { intros part tools Ht. right.
    exists h3, (pre ++ [Turn.userMessage query]), tools.
    split; [exact Ht|]. split; [exact Epre|]. split; [eauto|].
    split; assumption. }
  destruct (llmFirst (Messages (pre ++ [Turn.userMessage query])))
    as [| |content name toolCall].
  - split; [cbn; eauto|]. apply (Hright _ []). reflexivity.
  - split; [cbn; eauto|]. apply (Hright _ []). reflexivity.
  - destruct (addToConversationHistory P userId _ h3) as [h5|].
    + destruct toolCall as [[functionName arguments]|].
      * destruct (Chatbot.processChat_toolCall env userId functionName
                    (JSON_parse arguments) h5) as [h6 [t o]].
        split; [cbn; destruct o; eauto|].
        apply (Hright _ t). cbn. rewrite <- app_assoc. reflexivity.
      * split; [cbn; eauto|]. apply (Hright _ []). reflexivity.
    + split; [cbn; eauto|]. apply (Hright _ []). reflexivity.
Qed.

End TurnRequestFacts.

(** X18.  [processChat] never throws and sends the language model at
    most one first request per turn.  What that request sends as
    messages is an array, the stored history of the session's user, and
    it ends with the user's query, as a message of role [user]; in a
    store whose histories start with a system message so does the
    request, and in a store whose histories have at most
    [MAX_HISTORY_LENGTH + 1] entries the request has at most that
    many. *)
Theorem model_request_ends_with_query (env : Chatbot.Env)
    (BASE_URL LLM_API_KEY : string)
    (llmFirst : History.Found -> Turn.FirstReply)
    (JSON_parse : string -> option Chatbot.Arguments)
    (replace : string -> string -> string -> string)
    (userId : string) (query : Js.JsValue) (username : option string)
    (h : History.ConversationHistory) :
  let turn := snd (Turn.processChat env BASE_URL LLM_API_KEY llmFirst
                     JSON_parse replace userId query username h) in
  (exists answer, Js.outcome turn = Js.Normal answer)
  /\ length (List.filter (fun c => match c with
                                   | Turn.LlmRequest _ => true
                                   | _ => false
                                   end) (Js.trace turn)) <= 1
  /\ forall sent,
       In (Turn.LlmRequest sent) (Js.trace turn) ->
       exists messages,
         sent = History.Messages messages
         /\ (exists q pre,
               query = Js.JStr q
               /\ messages = (pre ++ [Turn.userMessage q])%list)
         /\ (History.wellFormed h ->
             exists s rest,
               messages = s :: rest /\ History.role s = History.system)
         /\ (History.wellFormed h -> HistoryOps.bounded h ->
             length messages <= History.MAX_HISTORY_LENGTH + 1).
Proof.
  intros turn. subst turn.
  assert (Hnone : forall l, List.filter
            (fun c => match c with
                      | Turn.LlmRequest _ => true
                      | _ => false
                      end) (map Turn.Tool l) = []).
  { induction l as [|x l IH]; [reflexivity|exact IH]. }
  assert (Hnotin : forall (l : list Chatbot.Event) m,
            ~ In (Turn.LlmRequest m) (map Turn.Tool l)).
  { intros l m H. apply in_map_iff in H as (x & Hx & _). discriminate Hx. }
  assert (Hask : forall q (before : list Chatbot.Event)
                        (h0 : History.ConversationHistory),
    (History.wellFormed h -> History.wellFormed h0) ->
    (History.wellFormed h -> HistoryOps.bounded h -> HistoryOps.bounded h0) ->
    let part := snd (Turn.askModel env llmFirst JSON_parse replace userId q
                       username (map Turn.Tool before) h0) in
    (exists answer, Js.outcome part = Js.Normal answer)
    /\ length (List.filter (fun c => match c with
                                     | Turn.LlmRequest _ => true
                                     | _ => false
                                     end) (Js.trace part)) <= 1
    /\ forall sent,
         In (Turn.LlmRequest sent) (Js.trace part) ->
         exists messages,
           sent = History.Messages messages
           /\ (exists q' pre,
                 Js.JStr q = Js.JStr q'
                 /\ messages = (pre ++ [Turn.userMessage q'])%list)
           /\ (History.wellFormed h ->
               exists s rest,
                 messages = s :: rest /\ History.role s = History.system)
           /\ (History.wellFormed h -> HistoryOps.bounded h ->
               length messages <= History.MAX_HISTORY_LENGTH + 1)).
  { intros q before h0 Hw0 Hb0 part. subst part.
    destruct (askModel_trace env llmFirst JSON_parse replace userId q username
                (map Turn.Tool before) h0)
      as (Ho & [Et|(h3 & messages & tools & Et & Hst & (pre & Hpre) & Hwf
                    & Hb)]);
      rewrite Et; (split; [exact Ho|]).
    - split; [rewrite Hnone; cbn; lia|].
      intros sent H. destruct (Hnotin _ _ H).
    - split.
      { rewrite List.filter_app, Hnone. cbn. rewrite Hnone. cbn. lia. }
      intros sent H. rewrite !in_app_iff in H.
      destruct H as [H|[H|H]]; try (destruct (Hnotin _ _ H)).
      destruct H as [[= <-]|[]]. exists messages.
      split; [reflexivity|].
      split; [exists q, pre; split; [reflexivity|exact Hpre]|].
      split.
      + intros Hw. exact (Hwf (Hw0 Hw) _ _ Hst).
      + intros Hw Hbd. exact (Hb (Hw0 Hw) (Hb0 Hw Hbd) _ _ Hst). }
  unfold Turn.processChat.
  destruct (negb (JsString.nonEmpty LLM_API_KEY)).
  { cbn. split; [eauto|]. split; [lia|]. intros sent []. }
  destruct query as [| |b|n|q|l|f];
    try (cbn; split; [eauto|]; split; [lia|]; intros sent []).
  destruct (Turn.isProductQuery q); [|exact (Hask q [] h (fun H => H)
                                              (fun _ H => H))].
  destruct (Js.outcome (Catalog.getProductInformation env BASE_URL (Js.JStr q)))
    as [[[|p products]|e]|e];
    try exact (Hask q _ h (fun H => H) (fun _ H => H)).
  unfold Chatbot.addToConversationHistory.
  destruct (History.addToConversationHistory _ userId (Turn.userMessage q) h)
    as [h1|] eqn:E1; [|exact (Hask q _ h (fun H => H) (fun _ H => H))].
  destruct (History.addToConversationHistory _ userId _ h1) as [h2|].
  - cbn [snd Js.trace Js.outcome fst].
    split; [eauto|].
    split; [rewrite Hnone; cbn; lia|].
    intros sent H. destruct (Hnotin _ _ H).
  - apply Hask.
    + intros Hw. exact (wellFormed_add _ _ _ _ _ Hw E1).
    + intros Hw Hb. exact (bounded_add _ _ _ _ _ Hw Hb E1).
Qed.


Section GreetedFacts.
Import History.
Variable LLM_SYSTEM_PROMPT greeting : string.

Local Open Scope list_scope.

Lemma greeted_insert (h : ConversationHistory) (userId : string)
    (l : list Message) :
  Turn.greeted h -> 2 <= length l -> Turn.greeted (<[userId := l]> h).
Proof.
  intros Hg Hl u l'. destruct (decide (userId = u)) as [->|Hne].
  - rewrite lookup_insert_eq. intros [= <-]. exact Hl.
  - rewrite lookup_insert_ne by exact Hne. apply Hg.
Qed.

Lemma greeted_push (userId : string) (message : Message)
    (cur : list Message) (h : ConversationHistory) :
  Turn.greeted h -> 1 <= length cur ->
  Turn.greeted (push userId message cur h).
Proof.
  intros Hg Hcur. unfold push.
  destruct (_ <? _) eqn:E.
  - destruct (cur ++ [message]) as [|s pushed] eqn:Ep.
    { destruct cur; discriminate Ep. }
    apply greeted_insert; [exact Hg|].
    rewrite <- Ep in *. apply Nat.ltb_lt in E.
    cbn [length]. rewrite length_drop.
    unfold MAX_HISTORY_LENGTH in *. lia.
  - apply greeted_insert; [exact Hg|]. rewrite length_app. cbn. lia.
Qed.

Lemma greeted_add (userId : string) (message : Message)
    (h h' : ConversationHistory) :
  Turn.greeted h ->
  addToConversationHistory LLM_SYSTEM_PROMPT userId message h = Some h' ->
  Turn.greeted h'.
Proof.
  intros Hg. unfold addToConversationHistory.
  destruct (stored userId h) as [cur| |] eqn:E; intros [= <-].
  - apply greeted_push; [exact Hg|].
    apply stored_own_inv in E. specialize (Hg _ _ E). lia.
  - apply greeted_push; [exact Hg|]. cbn. lia.
Qed.

Lemma greeted_runOp (o : Op) (h h' : ConversationHistory) :
  Turn.extendedOp o = true -> Turn.greeted h ->
  runOp LLM_SYSTEM_PROMPT greeting o h = Some h' ->
  Turn.greeted h'.
Proof.
  intros Ho Hg. destruct o as [u m|u|u|u|u|u c]; try discriminate Ho; cbn.
  - intros [= <-].
    destruct (addToConversationHistory LLM_SYSTEM_PROMPT u m h) as [h1|] eqn:E;
      cbn; [|exact Hg].
    exact (greeted_add _ _ _ _ Hg E).
  - intros [= <-]. unfold getConversationHistory.
    destruct (stored u h); cbn; try exact Hg.
    apply greeted_insert; [exact Hg|]. cbn. lia.
  - unfold clearConversationHistory.
    destruct (stored u h) as [[|s rest]| |]; try discriminate;
      intros [= <-]; try exact Hg.
    apply greeted_insert; [exact Hg|]. cbn. lia.
  - intros [= <-]. unfold personalize.
    destruct (h !! u) as [[|s [|? ?]]|] eqn:E; try exact Hg.
    specialize (Hg _ _ E). cbn in Hg. lia.
Qed.

Lemma greeted_runOps (ops : list Op) :
  forall h h',
  Forall (fun o => Turn.extendedOp o = true) ops -> Turn.greeted h ->
  runOps LLM_SYSTEM_PROMPT greeting ops h = Some h' ->
  Turn.greeted h'.
Proof.
  induction ops as [|o ops IH]; intros h h' Hops Hg; cbn [runOps].
  - intros [= <-]. exact Hg.
  - inversion Hops as [|? ? Ho Hops']; subst.
    destruct (runOp LLM_SYSTEM_PROMPT greeting o h) as [h1|] eqn:E;
      [|discriminate].
    apply IH; [exact Hops'|]. exact (greeted_runOp _ _ _ Ho Hg E).
Qed.

Lemma greeted_empty : Turn.greeted ∅.
Proof. intros u l H. rewrite lookup_empty in H. discriminate. Qed.

(** An array that a read returns has at least two entries. *)
Lemma greeted_read (userId : string) (h : ConversationHistory)
    (l : list Message) :
  Turn.greeted h ->
  fst (getConversationHistory LLM_SYSTEM_PROMPT greeting userId h)
  = Messages l ->
  2 <= length l.
Proof.
  intros Hg. unfold getConversationHistory.
  destruct (stored userId h) as [l'| |] eqn:E; cbn; intros [= <-].
  - apply stored_own_inv in E. exact (Hg _ _ E).
  - cbn. lia.
Qed.

End GreetedFacts.

Lemma customize_greeted (replace : string -> string -> string -> string)
    (userId : string) (username : option string)
    (history : list History.Message) (h : History.ConversationHistory) :
  2 <= length history ->
  Turn.customize replace userId username (History.Messages history) h
  = Some h.
Proof.
  intros Hl. unfold Turn.customize. destruct username as [name|];
    [|reflexivity].
  destruct (JsString.nonEmpty name); [|reflexivity].
  destruct history as [|m [|? ?]]; cbn in Hl; try lia; reflexivity.
Qed.

(** X20.  In the agent with the command tool every stored history has at
    least two entries: this holds of the empty store and is kept by
    [processChat] and by [clearConversationHistory].  So the condition
    [history.length === 1] under which [processChat] writes the user's
    name into the system prompt is never met by a history, and the
    [username] argument has no effect on the turn: its calls, its answer
    and the store afterwards are those of a turn without a username.
    (An inherited property may meet the condition; the turn then ends
    with the apology, as it does without a username.) *)
Theorem username_has_no_effect (env : Chatbot.Env)
    (BASE_URL LLM_API_KEY : string)
    (llmFirst : History.Found -> Turn.FirstReply)
    (JSON_parse : string -> option Chatbot.Arguments)
    (replace : string -> string -> string -> string)
    (userId : string) (query : Js.JsValue) (username : option string)
    (h : History.ConversationHistory) :
  Turn.greeted h ->
  Turn.processChat env BASE_URL LLM_API_KEY llmFirst JSON_parse replace
    userId query username h
  = Turn.processChat env BASE_URL LLM_API_KEY llmFirst JSON_parse replace
      userId query None h
  /\ Turn.greeted
       (fst (Turn.processChat env BASE_URL LLM_API_KEY llmFirst JSON_parse
               replace userId query username h))
  /\ (forall h',
        History.clearConversationHistory (Chatbot.greeting env) userId h
        = Some h' ->
        Turn.greeted h')
  /\ Turn.greeted ∅.
Proof.
  intros Hg. split; [|split; [|split]].
  - assert (Hask : forall q before (h0 : History.ConversationHistory),
      Turn.greeted h0 ->
      Turn.askModel env llmFirst JSON_parse replace userId q username before h0
      = Turn.askModel env llmFirst JSON_parse replace userId q None before h0).
    { intros q before h0 Hg0. unfold Turn.askModel.
      unfold Chatbot.getConversationHistory.
      destruct (History.getConversationHistory _ _ userId h0)
        as [[history|property] h1] eqn:E1.
      - assert (Hl : 2 <= length history).
        { apply (greeted_read (Chatbot.LLM_SYSTEM_PROMPT env)
                   (Chatbot.greeting env) userId h0 history Hg0).
          rewrite E1. reflexivity. }
        rewrite !(customize_greeted replace userId _ history h1 Hl).
        reflexivity.
      - destruct (get_inherited env userId property h0 h1
                    (Turn.userMessage q) E1) as [-> Hnone].
        unfold Chatbot.addToConversationHistory.
        cbn [Turn.customize].
        destruct (Turn.customize replace userId username _ h0)
          as [h2|] eqn:Ec.
        + assert (h2 = h0).
          { unfold Turn.customize in Ec. destruct username as [name|];
              [|congruence].
            destruct (JsString.nonEmpty name); [|congruence].
            destruct (Js.inheritedLength property) as [[|[|n]]|]; congruence. }
          subst h2. reflexivity.
        + rewrite Hnone. reflexivity. }
    unfold Turn.processChat.
    destruct (negb (JsString.nonEmpty LLM_API_KEY)); [reflexivity|].
    destruct query as [| |b|n|q|l|f]; try reflexivity.
    destruct (Turn.isProductQuery q); [|apply Hask; exact Hg].
    destruct (Js.outcome (Catalog.getProductInformation env BASE_URL
                            (Js.JStr q)))
      as [[[|p products]|e]|e]; try (apply Hask; exact Hg).
    unfold Chatbot.addToConversationHistory.
    destruct (History.addToConversationHistory _ userId (Turn.userMessage q) h)
      as [h1|] eqn:E1; [|apply Hask; exact Hg].
    destruct (History.addToConversationHistory _ userId _ h1) as [h2|];
      [reflexivity|].
    apply Hask.
    exact (greeted_add (Chatbot.LLM_SYSTEM_PROMPT env) _ _ _ _ Hg E1).
  - destruct (processChat_ops env BASE_URL LLM_API_KEY llmFirst JSON_parse
                replace userId query username h) as (ops & Hrun & Hops).
    apply (greeted_runOps (Chatbot.LLM_SYSTEM_PROMPT env)
             (Chatbot.greeting env) ops h _); [|exact Hg|exact Hrun].
    eapply Forall_impl; [exact Hops|]. cbn. intros o [_ H]. exact H.
  - intros h' Hc.
    exact (greeted_runOp (Chatbot.LLM_SYSTEM_PROMPT env) (Chatbot.greeting env)
             (History.OpClear userId) h h' eq_refl Hg Hc).
  - apply greeted_empty.
Qed.

(** Witnesses of the properties of a turn, in the sample shop. *)

Lemma turn_keeps_history_invariants_witness :
  History.wellFormed
    (fst (Fixtures.processChat "1" (Js.JStr "Hello") (Some "jim") ∅)).
Proof.
  refine (proj1 (proj2 (turn_keeps_history_invariants Sample.chatbotEnv
            Fixtures.BASE_URL Fixtures.LLM_API_KEY Fixtures.llmPlain
            Fixtures.parseNothing Fixtures.replaceFirst
            "1" (Js.JStr "Hello") (Some "jim") ∅)) _).
  apply wellFormed_empty.
Defined.

Lemma model_request_ends_with_query_witness :
  exists messages,
    History.Messages
      [History.systemPrompt (Chatbot.LLM_SYSTEM_PROMPT Sample.chatbotEnv);
       History.greetingMessage (Chatbot.greeting Sample.chatbotEnv);
       Turn.userMessage "Hello"]
    = History.Messages messages
    /\ exists q pre,
         Js.JStr "Hello" = Js.JStr q
         /\ messages = (pre ++ [Turn.userMessage q])%list.
Proof.
  assert (Hin : In (Turn.LlmRequest
                      (History.Messages
                         [History.systemPrompt
                            (Chatbot.LLM_SYSTEM_PROMPT Sample.chatbotEnv);
                          History.greetingMessage
                            (Chatbot.greeting Sample.chatbotEnv);
                          Turn.userMessage "Hello"]))
                   (Js.trace (snd (Turn.processChat Sample.chatbotEnv
                      Fixtures.BASE_URL Fixtures.LLM_API_KEY Fixtures.llmPlain
                      Fixtures.parseNothing Fixtures.replaceFirst
                      "1" (Js.JStr "Hello") (Some "jim") ∅)))).
  { vm_compute. left. reflexivity. }
  destruct (proj2 (proj2 (model_request_ends_with_query Sample.chatbotEnv
              Fixtures.BASE_URL Fixtures.LLM_API_KEY Fixtures.llmPlain
              Fixtures.parseNothing Fixtures.replaceFirst
              "1" (Js.JStr "Hello") (Some "jim") ∅)) _ Hin)
    as (messages & E & Hq & _).
  exists messages. split; assumption.
Defined.


Lemma username_has_no_effect_witness :
  Fixtures.processChat "1" (Js.JStr "Hello") (Some "jim") ∅
  = Fixtures.processChat "1" (Js.JStr "Hello") None ∅.
Proof.
  refine (proj1 (username_has_no_effect Sample.chatbotEnv
            Fixtures.BASE_URL Fixtures.LLM_API_KEY Fixtures.llmPlain
            Fixtures.parseNothing Fixtures.replaceFirst
            "1" (Js.JStr "Hello") (Some "jim") ∅ _)).
  apply greeted_empty.
Defined.

(** ** The other chat routes *)

Section ChatRoutesFacts.
Import ChatRoutes.
Variable env : Routes.Env.
Variable clear :
  string -> History.ConversationHistory -> option History.ConversationHistory.
Variable ChatModel_create :
  Js.JsValue -> Js.JsValue -> Js.JsValue -> Js.Completion Chatbot.Row.
Variable ChatModel_findAll : Js.JsValue -> Js.Completion (list Chatbot.Row).
Variable ChatModel_destroy : Js.JsValue -> Js.Completion unit.
Variable authenticatedUsers_get : option string -> option LoggedIn.

(** The handlers for signed-in users, by the user of the request. *)
Lemma respond_by_user (req : Routes.Request) :
  userOf env req = None ->
  Routes.respond env req
  = Routes.Sent 401 (Routes.ErrorJson "Unauthenticated user").
Proof.
  unfold userOf, Routes.respond.
  destruct (negb (Routes.hasToken (Routes.tokenOf env req))); [reflexivity|].
  intros ->. reflexivity.
Qed.

Lemma clearHistory_by_user (req : Routes.Request)
    (h : History.ConversationHistory) :
  clearHistory env clear req h
  = match userOf env req with
    | None => (Sent 401 (ErrorJson "Unauthenticated user"), Some h)
    | Some user =>
        (Sent 200 (StatusJson true
                     (Routes.getGreeting env (Some (Routes.username user)))),
         clear (Routes.toString env (Routes.id user)) h)
    end.
Proof.
  unfold userOf, clearHistory.
  destruct (negb (Routes.hasToken (Routes.tokenOf env req))); [reflexivity|].
  destruct (Routes.getUserFromJwt env _); reflexivity.
Qed.

Lemma saveMessage_by_user (req : Routes.Request) (body : Body) :
  saveMessage env ChatModel_create req body
  = match userOf env req with
    | None => Js.ret (Sent 401 (ErrorJson "Unauthenticated user"))
    | Some user =>
        if negb (Js.truthy (message body)) || negb (Js.truthy (role body))
        then Js.ret (Sent 400 (ErrorJson "Message and role are required"))
        else
          ([EvChatCreate (Routes.id user) (message body) (role body)],
           match ChatModel_create (Routes.id user) (message body) (role body)
           with
           | Js.Normal chatMessage => Js.Normal (Sent 200 (RowJson chatMessage))
           | Js.Throw error => Js.Normal (Next error)
           end)
    end.
Proof.
  unfold userOf, saveMessage.
  destruct (negb (Routes.hasToken (Routes.tokenOf env req))); [reflexivity|].
  destruct (Routes.getUserFromJwt env _) as [user|]; [|reflexivity].
  destruct (negb (Js.truthy (message body)) || negb (Js.truthy (role body)));
    [reflexivity|].
  unfold Js.try_catch, Js.bind, Js.call, Js.ret.
  destruct (ChatModel_create _ _ _); reflexivity.
Qed.

Lemma getMessages_by_user (req : Routes.Request) :
  getMessages env ChatModel_findAll req
  = match userOf env req with
    | None => Js.ret (Sent 401 (ErrorJson "Unauthenticated user"))
    | Some user =>
        ([EvChatFindAll (Routes.id user)],
         match ChatModel_findAll (Routes.id user) with
         | Js.Normal messages => Js.Normal (Sent 200 (RowsJson messages))
         | Js.Throw error => Js.Normal (Next error)
         end)
    end.
Proof.
  unfold userOf, getMessages.
  destruct (negb (Routes.hasToken (Routes.tokenOf env req))); [reflexivity|].
  destruct (Routes.getUserFromJwt env _) as [user|]; [|reflexivity].
  unfold Js.try_catch, Js.bind, Js.call, Js.ret.
  destruct (ChatModel_findAll _); reflexivity.
Qed.

End ChatRoutesFacts.

(** X21.  The four handlers for signed-in users ([respond],
    [clearHistory], [saveMessage], [getMessages]) share one gate: a
    request without a token, or whose token resolves to no user, gets
    status 401 with [{ error: 'Unauthenticated user' }] from each of
    them, and nothing else happens: no call to the message table and no
    change of the history store.  [status] answers such a request with
    status 200 when the bot is not available or there is no token, and
    with the same 401 otherwise. *)
Theorem unauthenticated_requests_change_nothing (env : Routes.Env)
    (clear : string -> History.ConversationHistory
             -> option History.ConversationHistory)
    (ChatModel_create :
       Js.JsValue -> Js.JsValue -> Js.JsValue -> Js.Completion Chatbot.Row)
    (ChatModel_findAll : Js.JsValue -> Js.Completion (list Chatbot.Row))
    (available : bool) (botName : string)
    (req : Routes.Request) (body : ChatRoutes.Body)
    (h : History.ConversationHistory) :
  ChatRoutes.userOf env req = None ->
  Routes.respond env req
  = Routes.Sent 401 (Routes.ErrorJson "Unauthenticated user")
  /\ ChatRoutes.clearHistory env clear req h
     = (ChatRoutes.Sent 401 (ChatRoutes.ErrorJson "Unauthenticated user"),
        Some h)
  /\ ChatRoutes.saveMessage env ChatModel_create req body
     = ([], Js.Normal (ChatRoutes.Sent 401
                         (ChatRoutes.ErrorJson "Unauthenticated user")))
  /\ ChatRoutes.getMessages env ChatModel_findAll req
     = ([], Js.Normal (ChatRoutes.Sent 401
                         (ChatRoutes.ErrorJson "Unauthenticated user")))
  /\ ChatRoutes.status env available botName req
     = if negb available then
         ChatRoutes.Sent 200 (ChatRoutes.StatusJson false
           (botName
            ++ " isn't ready at the moment, please check the configuration."))
       else if negb (Routes.hasToken (Routes.tokenOf env req)) then
         ChatRoutes.Sent 200 (ChatRoutes.StatusJson true
           ("Hi there! I'm " ++ botName
            ++ ". Sign in to continue our conversation."))
       else ChatRoutes.Sent 401 (ChatRoutes.ErrorJson "Unauthenticated user").
Proof.
  intros Hu.
  split; [apply respond_by_user; exact Hu|].
  rewrite clearHistory_by_user, saveMessage_by_user, getMessages_by_user, Hu.
  repeat split.
  unfold ChatRoutes.status. unfold ChatRoutes.userOf in Hu.
  destruct (negb available); [reflexivity|].
  destruct (negb (Routes.hasToken (Routes.tokenOf env req))); [reflexivity|].
  rewrite Hu. reflexivity.
Qed.

(** X22.  Every call the message handlers make to the message table is
    for the id of the caller: in [saveMessage] and [getMessages] of the
    chatbot routes the id of the user the token resolves to, in
    [getMessages], [saveMessage] and [clearHistory] of the chat routes
    the id of the session found for the bearer token.  The request body
    has no say in it, and a caller who is not signed in causes no call
    at all. *)
Theorem message_table_calls_are_for_the_caller (env : Routes.Env)
    (ChatModel_create :
       Js.JsValue -> Js.JsValue -> Js.JsValue -> Js.Completion Chatbot.Row)
    (ChatModel_findAll : Js.JsValue -> Js.Completion (list Chatbot.Row))
    (ChatModel_destroy : Js.JsValue -> Js.Completion unit)
    (authenticatedUsers_get : option string -> option ChatRoutes.LoggedIn)
    (req : Routes.Request) (body : ChatRoutes.Body)
    (ev : ChatRoutes.Event) :
  (In ev (Js.trace (ChatRoutes.saveMessage env ChatModel_create req body))
   \/ In ev (Js.trace (ChatRoutes.getMessages env ChatModel_findAll req)) ->
   exists user,
     ChatRoutes.userOf env req = Some user
     /\ ChatRoutes.eventUserId ev = Routes.id user)
  /\ (In ev (Js.trace (ChatRoutes.chat_getMessages ChatModel_findAll
                         authenticatedUsers_get req))
      \/ In ev (Js.trace (ChatRoutes.chat_saveMessage ChatModel_create
                            authenticatedUsers_get req body))
      \/ In ev (Js.trace (ChatRoutes.chat_clearHistory ChatModel_destroy
                            authenticatedUsers_get req)) ->
      exists id,
        ChatRoutes.sessionUserId authenticatedUsers_get req = Some id
        /\ ChatRoutes.eventUserId ev = id).
Proof.
  split.
  - rewrite saveMessage_by_user, getMessages_by_user.
    destruct (ChatRoutes.userOf env req) as [user|]; [|intros [[]|[]]].
    intros [H|H].
    + destruct (negb (Js.truthy (ChatRoutes.message body))
                || negb (Js.truthy (ChatRoutes.role body))); [destruct H|].
      destruct H as [<-|[]]. eauto.
    + destruct H as [<-|[]]. eauto.
  - unfold ChatRoutes.chat_getMessages, ChatRoutes.chat_saveMessage,
      ChatRoutes.chat_clearHistory.
    destruct (ChatRoutes.sessionUserId authenticatedUsers_get req) as [id|];
      [|intros [[]|[[]|[]]]].
    unfold Js.try_catch, Js.bind, Js.call, Js.ret.
    intros [H|[H|H]].
    + destruct (ChatModel_findAll id); destruct H as [<-|[]]; eauto.
    + destruct (ChatModel_create id _ _); destruct H as [<-|[]]; eauto.
    + destruct (ChatModel_destroy id); destruct H as [<-|[]]; eauto.
Qed.

(** X23.  Clearing the history through the route touches the history of
    the caller only: the history of every user other than the one the
    token resolves to is as before, for the reset of either agent; with
    the reset of the agent with the command tool the caller's history,
    when there is one, is left with its first entry and the greeting,
    with the reset of the base agent with its first entry; for a caller
    for whom the store has nothing, its own or inherited, the store is
    as before. *)
Theorem clear_route_touches_the_caller_only (env : Routes.Env)
    (greeting : string) (req : Routes.Request) (user : Routes.User)
    (h : History.ConversationHistory) :
  ChatRoutes.userOf env req = Some user ->
  let userId := Routes.toString env (Routes.id user) in
  let cleared := snd (ChatRoutes.clearHistory env
                        (History.clearConversationHistory greeting) req h) in
  let cleared_base := snd (ChatRoutes.clearHistory env
                             History.clearConversationHistory_base req h) in
  (forall other h', other <> userId ->
     (cleared = Some h' -> h' !! other = h !! other)
     /\ (cleared_base = Some h' -> h' !! other = h !! other))
  /\ (forall s rest,
        h !! userId = Some (s :: rest) ->
        exists h' hb,
          cleared = Some h' /\ cleared_base = Some hb
          /\ h' !! userId = Some [s; History.greetingMessage greeting]
          /\ hb !! userId = Some [s])
  /\ (History.stored userId h = History.Missing ->
      cleared = Some h /\ cleared_base = Some h).
Proof.
  intros Hu userId cleared cleared_base. subst cleared cleared_base.
  rewrite !clearHistory_by_user, Hu. cbn [snd]. fold userId.
  split; [|split].
  - intros other h' Hne. split; intros E.
    + exact (runOp_other "" greeting (History.OpClear userId) h h' other E
               (fun E => Hne (eq_sym E))).
    + exact (runOp_other "" greeting (History.OpClearBase userId) h h' other E
               (fun E => Hne (eq_sym E))).
  - intros s rest E.
    unfold History.clearConversationHistory,
      History.clearConversationHistory_base.
    rewrite (stored_own _ _ _ E).
    eexists _, _. split; [reflexivity|]. split; [reflexivity|].
    rewrite !lookup_insert_eq. split; reflexivity.
  - intros E.
    unfold History.clearConversationHistory,
      History.clearConversationHistory_base.
    rewrite E. split; reflexivity.
Qed.

(** Witnesses, in the sample shop. *)

Lemma unauthenticated_requests_change_nothing_witness :
  ChatRoutes.saveMessage Sample.routesEnv Fixtures.storeMessage
    Fixtures.anonymous Fixtures.helloBody
  = ([], Js.Normal (ChatRoutes.Sent 401
                      (ChatRoutes.ErrorJson "Unauthenticated user"))).
Proof.
  refine (proj1 (proj2 (proj2 (unauthenticated_requests_change_nothing
            Sample.routesEnv (History.clearConversationHistory "Hello!")
            Fixtures.storeMessage Fixtures.noMessages true "Juicy"
            Fixtures.anonymous Fixtures.helloBody ∅ _)))).
  reflexivity.
Defined.

Lemma message_table_calls_are_for_the_caller_witness :
  exists id,
    ChatRoutes.sessionUserId Fixtures.sessions Fixtures.withBearer = Some id
    /\ ChatRoutes.eventUserId (ChatRoutes.EvChatFindAll (Js.JNum (Js.Fin 2)))
       = id.
Proof.
  refine (proj2 (message_table_calls_are_for_the_caller Sample.routesEnv
            Fixtures.storeMessage Fixtures.noMessages Fixtures.destroyMessages
            Fixtures.sessions Fixtures.withBearer Fixtures.helloBody
            (ChatRoutes.EvChatFindAll (Js.JNum (Js.Fin 2)))) _).
  left. vm_compute. left. reflexivity.
Defined.

Lemma clear_route_touches_the_caller_only_witness :
  let userId := Routes.toString Sample.routesEnv (Routes.id Sample.jim) in
  let h := <[userId := [History.systemPrompt "prompt"; Sample.hello 0;
                        Sample.hello 1]]> ∅ in
  exists h' hb,
    snd (ChatRoutes.clearHistory Sample.routesEnv
           (History.clearConversationHistory "Hello!") Sample.emptyQuery h)
    = Some h'
    /\ snd (ChatRoutes.clearHistory Sample.routesEnv
              History.clearConversationHistory_base Sample.emptyQuery h)
       = Some hb
    /\ h' !! userId = Some [History.systemPrompt "prompt";
                            History.greetingMessage "Hello!"]
    /\ hb !! userId = Some [History.systemPrompt "prompt"].
Proof.
  intros userId h.
  refine (proj1 (proj2 (clear_route_touches_the_caller_only Sample.routesEnv
            "Hello!" Sample.emptyQuery Sample.jim h _))
            (History.systemPrompt "prompt")
            [Sample.hello 0; Sample.hello 1] _).
  - reflexivity.
  - apply lookup_insert_eq.
Defined.

(** ** The storefront's service: which product is resolved *)

Section ResolveFacts.
Import Js ChatbotService.
Local Open Scope Q_scope.
Local Open Scope list_scope.

(** The first element of the sorted array is the first of the elements
    with the highest score. *)
Lemma head_sortByMatches_first (l : list ResolvedProduct) :
  l <> [] ->
  exists pre top post,
    l = pre ++ top :: post
    /\ head (sortByMatches l) = Some top
    /\ (forall y, In y pre -> matches y < matches top)
    /\ (forall y, In y post -> matches y <= matches top).
Proof.
  induction l as [|a l IH]; [congruence|]. intros _.
  destruct l as [|b l].
  - exists [], a, []. cbn. repeat split; intros y [].
  - destruct IH as (pre & top & post & El & Hhead & Hpre & Hpost);
      [discriminate|].
    change (sortByMatches (a :: b :: l))
      with (insertByMatches a (sortByMatches (b :: l))).
    destruct (sortByMatches (b :: l)) as [|y rest]; [discriminate Hhead|].
    cbn in Hhead. injection Hhead as ->.
    cbn [insertByMatches].
    destruct (Qltb (matches a) (matches top)) eqn:E.
    + exists (a :: pre), top, post. rewrite El.
      split; [reflexivity|]. split; [reflexivity|]. split; [|exact Hpost].
      intros z [<-|Hz]; [apply Qltb_lt; exact E|apply Hpre; exact Hz].
    + apply Qltb_ge in E.
      exists [], a, (b :: l). split; [reflexivity|]. split; [reflexivity|].
      split; [intros z []|].
      intros z Hz. rewrite El in Hz. apply in_app_iff in Hz.
      eapply Qle_trans; [|exact E].
      destruct Hz as [Hz|[<-|Hz]].
      * apply Qlt_le_weak, Hpre, Hz.
      * apply Qle_refl.
      * apply Hpost, Hz.
Qed.

End ResolveFacts.

(** What [resolveProductFromName] returns for a non-empty search
    result. *)
Lemma resolved_product_is_first_best_aux (env : ChatbotService.Env)
    (search : string) (products : list ChatbotService.Product) :
  ChatbotService.productService_search env (Some search) = Js.Normal products ->
  products <> [] ->
  exists pre top post,
    products = (pre ++ top :: post)%list
    /\ ChatbotService.resolveProductFromName env (Some search)
       = ([ChatbotService.EvSearch (Some search)],
          Js.Normal (Some (ChatbotService.scoreOf search top)))
    /\ (forall p, In p pre ->
          (ChatbotService.calculateNameMatchScore search (ChatbotService.name p)
           < ChatbotService.calculateNameMatchScore search
               (ChatbotService.name top))%Q)
    /\ (forall p, In p post ->
          (ChatbotService.calculateNameMatchScore search (ChatbotService.name p)
           <= ChatbotService.calculateNameMatchScore search
                (ChatbotService.name top))%Q).
Proof.
  intros Hsearch Hne.
  rewrite (resolveProductFromName_run env search products Hsearch).
  destruct (head_sortByMatches_first
              (map (ChatbotService.scoreOf search) products))
    as (pre & top & post & El & Hhead & Hpre & Hpost).
  { destruct products; [congruence|discriminate]. }
  apply map_eq_app in El as (pre' & tail' & -> & <- & Etail).
  apply map_eq_cons in Etail as (top' & post' & -> & <- & <-).
  exists pre', top', post'. rewrite Hhead.
  split; [reflexivity|]. split; [reflexivity|]. split.
  - intros p Hp. apply (Hpre (ChatbotService.scoreOf search p)).
    apply in_map. exact Hp.
  - intros p Hp. apply (Hpost (ChatbotService.scoreOf search p)).
    apply in_map. exact Hp.
Qed.

(** X24.  For a search that returns products, [resolveProductFromName]
    returns the first, in the order of the search result, of the
    products with the highest match score: every product before it
    scores strictly less, every product after it scores at most as
    much. *)
Theorem resolved_product_is_first_best (env : ChatbotService.Env)
    (search : string) (products : list ChatbotService.Product) :
  ChatbotService.productService_search env (Some search) = Js.Normal products ->
  products <> [] ->
  exists pre top post,
    products = (pre ++ top :: post)%list
    /\ ChatbotService.resolveProductFromName env (Some search)
       = ([ChatbotService.EvSearch (Some search)],
          Js.Normal (Some (ChatbotService.scoreOf search top)))
    /\ (forall p, In p pre ->
          (ChatbotService.calculateNameMatchScore search (ChatbotService.name p)
           < ChatbotService.calculateNameMatchScore search
               (ChatbotService.name top))%Q)
    /\ (forall p, In p post ->
          (ChatbotService.calculateNameMatchScore search (ChatbotService.name p)
           <= ChatbotService.calculateNameMatchScore search
                (ChatbotService.name top))%Q).
Proof. apply resolved_product_is_first_best_aux. Qed.

(** Both juices of the sample catalog contain "juice": the first wins. *)
Lemma resolved_product_is_first_best_witness :
  exists pre top post,
    Sample.catalog = (pre ++ top :: post)%list
    /\ ChatbotService.resolveProductFromName Sample.serviceEnv (Some "juice")
       = ([ChatbotService.EvSearch (Some "juice")],
          Js.Normal (Some (ChatbotService.scoreOf "juice" top)))
    /\ (forall p, In p pre ->
          (ChatbotService.calculateNameMatchScore "juice" (ChatbotService.name p)
           < ChatbotService.calculateNameMatchScore "juice"
               (ChatbotService.name top))%Q)
    /\ (forall p, In p post ->
          (ChatbotService.calculateNameMatchScore "juice" (ChatbotService.name p)
           <= ChatbotService.calculateNameMatchScore "juice"
                (ChatbotService.name top))%Q).
Proof.
  apply (resolved_product_is_first_best Sample.serviceEnv "juice"
           Sample.catalog).
  - reflexivity.
  - discriminate.
Defined.

Lemma includes_score (search actual : string) :
  JsString.includes (JsString.toLowerCase actual) (JsString.toLowerCase search)
  = true ->
  JsString.toLowerCase search <> JsString.toLowerCase actual ->
  ChatbotService.calculateNameMatchScore search actual = (9 # 10)%Q.
Proof.
  intros Hi Hne. unfold ChatbotService.calculateNameMatchScore.
  destruct (String.eqb _ _) eqn:E.
  - apply String.eqb_eq in E. contradiction.
  - rewrite Hi. reflexivity.
Qed.

(** X25.  A basket-add whose product name occurs, up to case, in the
    name of every product the search returns, without being the whole
    of any, is not asked about: each product scores 0.9, the first one
    returned is taken, and with a basket id in the session it is saved
    at once. *)
Theorem ambiguous_name_adds_the_first_product (env : ChatbotService.Env)
    (params : ChatbotService.BasketParams) (search basketId : string)
    (first : ChatbotService.Product) (others : list ChatbotService.Product) :
  ChatbotService.p_action params = Js.JStr "add" ->
  ChatbotService.productName params = Some search ->
  ChatbotService.productService_search env (Some search)
  = Js.Normal (first :: others) ->
  (forall p, In p (first :: others) ->
     JsString.includes (JsString.toLowerCase (ChatbotService.name p))
                       (JsString.toLowerCase search) = true
     /\ JsString.toLowerCase search
        <> JsString.toLowerCase (ChatbotService.name p)) ->
  ChatbotService.sessionStorage_bid env = Some basketId ->
  basketId <> "" ->
  let run := ChatbotService.handleBasketAction env params in
  Js.trace run
  = [ChatbotService.EvSearch (Some search);
     ChatbotService.EvSave (ChatbotService.id first) basketId
                           (ChatbotService.quantityOr1 params)]
  /\ (forall response,
        Js.outcome run = Js.Normal response ->
        ChatbotService.requiresConfirmation response = None).
Proof.
  intros Haction Hname Hsearch Hall Hbid Hne run.
  assert (Hscore : forall p, In p (first :: others) ->
            ChatbotService.calculateNameMatchScore search (ChatbotService.name p)
            = (9 # 10)%Q).
  { intros p Hp. destruct (Hall p Hp). apply includes_score; assumption. }
  destruct (resolved_product_is_first_best_aux env search (first :: others)
              Hsearch) as (pre & top & post & El & Hrun & Hpre & _);
    [discriminate|].
  assert (Epre : pre = []).
  { destruct pre as [|x pre]; [reflexivity|]. exfalso.
    assert (Hx : In x (first :: others)).
    { rewrite El. left. reflexivity. }
    assert (Ht : In top (first :: others)).
    { rewrite El. apply in_app_iff. right. left. reflexivity. }
    specialize (Hpre x (or_introl eq_refl)).
    rewrite (Hscore x Hx), (Hscore top Ht) in Hpre.
    exact (Qlt_irrefl _ Hpre). }
  subst pre. cbn in El. injection El as <- <-.
  split.
  - subst run. unfold ChatbotService.handleBasketAction. rewrite Haction.
    cbn [ChatbotService.strictEq String.eqb Ascii.eqb Bool.eqb].
    unfold ChatbotService.addBranch. rewrite Hname, Hrun.
    unfold Js.try_catch, Js.bind, Js.call, Js.ret.
    cbn [ChatbotService.matches ChatbotService.scoreOf].
    rewrite (Hscore first (or_introl eq_refl)).
    change (ChatbotService.Qltb (9 # 10) ChatbotService.MATCH_THRESHOLD)
      with false.
    cbn iota. rewrite Hbid.
    destruct basketId as [|c bid]; [congruence|].
    destruct (ChatbotService.basketService_save env _ _ _);
      try destruct (negb (Js.convertible _)); reflexivity.
  - subst run. unfold ChatbotService.handleBasketAction. rewrite Haction.
    cbn [ChatbotService.strictEq String.eqb Ascii.eqb Bool.eqb].
    unfold ChatbotService.addBranch. rewrite Hname, Hrun.
    unfold Js.try_catch, Js.bind, Js.call, Js.ret.
    cbn [ChatbotService.matches ChatbotService.scoreOf].
    rewrite (Hscore first (or_introl eq_refl)).
    change (ChatbotService.Qltb (9 # 10) ChatbotService.MATCH_THRESHOLD)
      with false.
    cbn iota. rewrite Hbid.
    destruct basketId as [|c bid]; [congruence|].
    destruct (ChatbotService.basketService_save env _ _ _);
      try destruct (negb (Js.convertible _));
      intros response [= <-]; reflexivity.
Qed.

(** "juice" in the sample catalog of two juices. *)
Lemma ambiguous_name_adds_the_first_product_witness :
  Js.trace (ChatbotService.handleBasketAction Sample.serviceEnv
              {| ChatbotService.p_action := Js.JStr "add";
                 ChatbotService.productName := Some "juice";
                 ChatbotService.quantity := Js.JUndefined |})
  = [ChatbotService.EvSearch (Some "juice");
     ChatbotService.EvSave (Js.JNum (Js.Fin 1)) "7" (Js.JNum (Js.Fin 1))].
Proof.
  refine (proj1 (ambiguous_name_adds_the_first_product Sample.serviceEnv
            {| ChatbotService.p_action := Js.JStr "add";
               ChatbotService.productName := Some "juice";
               ChatbotService.quantity := Js.JUndefined |}
            "juice" "7"
            {| ChatbotService.id := Js.JNum (Js.Fin 1);
               ChatbotService.name := "Apple Juice";
               ChatbotService.price := Js.JNum (Js.Fin 2);
               ChatbotService.description := Js.JNull |}
            [ {| ChatbotService.id := Js.JNum (Js.Fin 2);
                 ChatbotService.name := "Orange Juice";
                 ChatbotService.price := Js.JNum (Js.Fin 3);
                 ChatbotService.description := Js.JNull |} ]
            eq_refl eq_refl eq_refl _ eq_refl _)).
  - intros p [<-|[<-|[]]]; split; (reflexivity || discriminate).
  - discriminate.
Defined.

(** ** The storefront's service: a whole message *)

Section ServiceTurnFacts.
Import Js ServiceTurn.
Variable env : Env.

Lemma saveMessage_run (message role : string) :
  saveMessage env message role = ([EvSaveMessage message role], Normal tt).
Proof.
  unfold saveMessage, try_catch, call, ret.
  destruct (http_post_messages env message role) as [[]|e]; reflexivity.
Qed.




(** What [sendMessage] does, by the outcomes of the two requests to the
    language model. *)
Lemma sendMessage_run (message : string) (context : Context) :
  sendMessage env message context
  = match llm_classifyIntent env message context with
    | Throw _ =>
        ([EvSaveMessage message "user"; EvClassifyIntent message context],
         Normal (failure "I apologize, but I encountered an error. Please try again.",
                 context))
    | Normal intentType =>
        match llm_parseParameters env message intentType context with
        | Throw _ =>
            ([EvSaveMessage message "user"; EvClassifyIntent message context;
              EvParseParameters message intentType context],
             Normal (failure "I apologize, but I encountered an error. Please try again.",
                     context))
        | Normal parameters =>
            let handled :=
              handleIntent env intentType message parameters context in
            match outcome handled with
            | Normal response =>
                ((EvSaveMessage message "user"
                  :: EvClassifyIntent message context
                  :: EvParseParameters message intentType context
                  :: trace handled
                  ++ [EvSaveMessage (text response) "assistant"])%list,
                 Normal (response, Some (intentType, parameters, response)))
            | Throw _ =>
                ((EvSaveMessage message "user"
                  :: EvClassifyIntent message context
                  :: EvParseParameters message intentType context
                  :: trace handled)%list,
                 Normal (failure "I apologize, but I encountered an error. Please try again.",
                         context))
            end
        end
    end.
Proof.
  unfold sendMessage. rewrite saveMessage_run.
  unfold try_catch, bind, call, ret. cbn -[saveMessage handleIntent].
  destruct (llm_classifyIntent env message context) as [intentType|e];
    [|reflexivity].
  cbn -[saveMessage handleIntent].
  destruct (llm_parseParameters env message intentType context)
    as [parameters|e]; [|reflexivity].
  cbn -[saveMessage handleIntent].
  destruct (handleIntent env intentType message parameters context)
    as [t [response|e]]; cbn -[saveMessage];
    [|rewrite app_nil_r; reflexivity].
  rewrite saveMessage_run. cbn. rewrite ?app_nil_r. reflexivity.
Qed.

End ServiceTurnFacts.


Lemma handleIntent_withPost (env : ServiceTurn.Env)
    (post : string -> string -> Js.Completion unit)
    (intentType message : string) (parameters : ServiceTurn.ParsedParameters)
    (context : ServiceTurn.Context) :
  ServiceTurn.handleIntent (ServiceTurn.withPost env post) intentType message
                           parameters context
  = ServiceTurn.handleIntent env intentType message parameters context.
Proof. reflexivity. Qed.

(** X27.  Storing the messages is best effort: whether the posts to the
    message store succeed or fail, [sendMessage] makes the same calls in
    the same order and returns the same response and context. *)
Theorem send_message_ignores_save_failures (env : ServiceTurn.Env)
    (post post' : string -> string -> Js.Completion unit)
    (message : string) (context : ServiceTurn.Context) :
  ServiceTurn.sendMessage (ServiceTurn.withPost env post) message context
  = ServiceTurn.sendMessage (ServiceTurn.withPost env post') message context.
Proof.
  rewrite !sendMessage_run.
  cbn [ServiceTurn.withPost ServiceTurn.llm_classifyIntent
       ServiceTurn.llm_parseParameters].
  destruct (ServiceTurn.llm_classifyIntent env message context)
    as [intentType|e]; [|reflexivity].
  destruct (ServiceTurn.llm_parseParameters env message intentType context)
    as [parameters|e]; [|reflexivity].
  rewrite !handleIntent_withPost. reflexivity.
Qed.

Section OrderFacts.
Import Js ServiceTurn.

Lemma find_first {A} (f : A -> bool) (l : list A) (x : A) :
  List.find f l = Some x ->
  exists pre post,
    l = (pre ++ x :: post)%list /\ f x = true
    /\ forall y, In y pre -> f y = false.
Proof.
  induction l as [|a l IH]; [discriminate|]. cbn.
  destruct (f a) eqn:E.
  - intros [= <-]. exists [], l. repeat split; [exact E|intros y []].
  - intros H. destruct (IH H) as (pre & post & -> & Hx & Hpre).
    exists (a :: pre), post. repeat split; [exact Hx|].
    intros y [<-|Hy]; [exact E|apply Hpre; exact Hy].
Qed.

End OrderFacts.

(** X28.  [handleOrderQuery] fetches the order history first, whatever
    the action, and makes no other call.  When it displays an order, the
    order is the first of the history whose id is strictly equal to the
    requested id, the request named a non-empty id, and the status shown
    is [Delivered] or [In Transit] according to the order's [delivered]
    flag. *)
Theorem displayed_order_is_first_match (env : ServiceTurn.Env)
    (params : ServiceTurn.OrderParams) :
  let run := ServiceTurn.handleOrderQuery env params in
  Js.trace run = [ServiceTurn.EvOrderHistory]
  /\ forall response id status total items,
       Js.outcome run = Js.Normal response ->
       ServiceTurn.action response
       = Some (ServiceTurn.DisplayOrder id status total items) ->
       Js.truthy (ServiceTurn.o_orderId params) = true
       /\ exists orders pre order post,
            ServiceTurn.orderHistoryService_get env = Js.Normal orders
            /\ orders = (pre ++ order :: post)%list
            /\ ServiceTurn.strictEquals (ServiceTurn.orderId order)
                                        (ServiceTurn.o_orderId params) = true
            /\ (forall o, In o pre ->
                  ServiceTurn.strictEquals (ServiceTurn.orderId o)
                                           (ServiceTurn.o_orderId params)
                  = false)
            /\ id = ServiceTurn.orderId order
            /\ status = (if Js.truthy (ServiceTurn.delivered order)
                         then "Delivered" else "In Transit")
            /\ total = ServiceTurn.totalPrice order
            /\ items = ServiceTurn.products order.
Proof.
  intros run. subst run.
  unfold ServiceTurn.handleOrderQuery, Js.try_catch, Js.bind, Js.call, Js.ret.
  destruct (ServiceTurn.orderHistoryService_get env) as [orders|e]; cbn.
  2:{ split; [reflexivity|]. intros response id status total items [= <-] H.
      discriminate H. }
  destruct (_ || _).
  - destruct (Js.truthy (ServiceTurn.o_orderId params)) eqn:Ht; cbn.
    + destruct (Js.convertible (ServiceTurn.o_orderId params)); cbn.
      2:{ split; [reflexivity|].
          intros response id status total items [= <-] H. discriminate H. }
      destruct (List.find _ orders) as [order|] eqn:Ef; cbn.
      * split; [reflexivity|].
        intros response id status total items [= <-] [= <- <- <- <-].
        split; [reflexivity|].
        destruct (find_first _ _ _ Ef) as (pre & post & El & Hx & Hpre).
        exists orders, pre, order, post. repeat split; assumption.
      * split; [reflexivity|].
        intros response id status total items [= <-] H. discriminate H.
    + split; [reflexivity|].
      intros response id status total items [= <-] H. discriminate H.
  - destruct (ChatbotService.strictEq _ "track"); cbn;
      (split; [reflexivity|]);
      intros response id status total items [= <-] H; discriminate H.
Qed.

(** Witnesses, in the sample storefront. *)


Lemma displayed_order_is_first_match_witness :
  Js.truthy (Js.JStr "5267-829f123593e9d098") = true
  /\ exists orders pre order post,
       ServiceTurn.orderHistoryService_get Fixtures.storefront
       = Js.Normal orders
       /\ orders = (pre ++ order :: post)%list
       /\ ServiceTurn.strictEquals (ServiceTurn.orderId order)
                                   (Js.JStr "5267-829f123593e9d098") = true
       /\ (forall o, In o pre ->
             ServiceTurn.strictEquals (ServiceTurn.orderId o)
                                      (Js.JStr "5267-829f123593e9d098")
             = false)
       /\ Js.JStr "5267-829f123593e9d098" = ServiceTurn.orderId order
       /\ "In Transit" = (if Js.truthy (ServiceTurn.delivered order)
                          then "Delivered" else "In Transit")
       /\ Js.JNum (Js.Fin 26) = ServiceTurn.totalPrice order
       /\ [] = ServiceTurn.products order.
Proof.
  refine (proj2 (displayed_order_is_first_match Fixtures.storefront
            {| ServiceTurn.o_action := Js.JStr "status";
               ServiceTurn.o_orderId := Js.JStr "5267-829f123593e9d098" |})
            _ _ _ _ _ _ _); vm_compute; reflexivity.
Defined.

(** ** The basket and profile tools *)

Section BasketToolsFacts.
Import Js BasketTools.
Variable env : Chatbot.Env.
Variable db : Db.
Variable BASE_URL : string.

Local Open Scope list_scope.


(** The user lookup makes one or two reads and nothing else. *)
Lemma userIdToUse_trace (notFound : string) (userId : JsValue) :
  forall ev, In ev (trace (userIdToUse env db notFound userId)) ->
             exists id, ev = UserFindByPk id.
Proof.
  unfold userIdToUse, bind, call, ret.
  destruct (UserModel_findByPk db userId) as [[user|]|e]; cbn.
  - intros ev [<-|[]]. eauto.
  - destruct (negb (isNaN (parseIntOf env userId))); cbn.
    + destruct (UserModel_findByPk db _) as [[user|]|e]; cbn;
        intros ev [<-|[<-|[]]]; eauto.
    + intros ev [<-|[]]. eauto.
  - intros ev [<-|[]]. eauto.
Qed.








(** Nor for an argument that has no text: the first statement of the
    tools throws. *)
Lemma no_text_no_call (userId productId quantity : JsValue) :
  convertible userId && convertible productId && convertible quantity
  = false ->
  addToBasket env db userId productId quantity
  = ([], Normal (Chatbot.MutationError
                   ("Failed to add product to basket: "
                    ++ Chatbot.typeErrorMessage env) (Some false))).
Proof.
  intros H. unfold addToBasket, logged. cbn [forallb].
  rewrite andb_true_r, andb_assoc, H. reflexivity.
Qed.

End BasketToolsFacts.



(** Witnesses, in the sample database. *)


